(** * food_model: the recommendation service, its endpoints and the trainer

    A shallow embedding of
      - [app/services/recommendation.py]  (class [RecommendationService]),
      - [app/api/v1/endpoints/recommendations.py]  (the three route handlers),
      - [scripts/training/train_model.py]  (class [ModelTrainer]),
    together with the fragments of Python, NumPy, scikit-learn, PyTorch and
    SQLAlchemy those files rely on.

    Conventions.
      - A Python [dict] with string keys is a [gmap string value];
        [d.get(k, v)] is [default v (d !! k)] and [d[k] = v] is [<[k:=v]> d].
      - Python floats are IEEE binary64 numbers, given by [spec_float] at
        precision 53; tensors of [torch.FloatTensor] are binary32 (precision 24).
      - A computation that can raise returns [res A]; the recipe dictionaries
        that [filter_by_preferences] mutates in place live in a store indexed
        by object identity.
      - A function that refers to a module-level name takes the names its
        module binds: the reference raises [NameError] when the name is not
        among them.
      - What belongs to a library ([json.loads], the parsing of a number by
        [float], the losses a training epoch yields) is a section variable;
        where a statement rests on what a library computes (the scaler of
        scikit-learn on one sample, the cosine similarity of PyTorch) the
        computation is written out from the documentation of the library. *)

From Stdlib Require Import ZArith List Bool Lia Sorted QArith Qpower.
From Stdlib Require Import Floats.SpecFloat.
From stdpp Require Import base option list strings gmap.

Local Open Scope string_scope.
Local Open Scope Z_scope.

(** ** Exceptions and results *)

(** The subclasses of [Exception] that the modelled code can raise. *)
Inductive exn_class :=
  | NameError | TypeError | ValueError | AttributeError
  | KeyError | OverflowError | ZeroDivisionError | RuntimeError.

(** An exception instance: its class and [str(e)]. The message texts written
    below follow CPython 3.11; no statement depends on their wording apart
    from the one of [NameError]. *)
Record exn := Exn { exn_kind : exn_class; exn_message : string }.

Inductive res (A : Type) :=
  | Ok (a : A)
  | Raise (e : exn).
Arguments Ok {A} a.
Arguments Raise {A} e.

#[global] Instance res_ret : MRet res := fun _ a => Ok a.
#[global] Instance res_bind : MBind res := fun _ _ f m =>
  match m with Ok a => f a | Raise e => Raise e end.
#[global] Instance res_fmap : FMap res := fun _ _ f m =>
  match m with Ok a => Ok (f a) | Raise e => Raise e end.

Definition is_ok {A} (m : res A) : bool :=
  match m with Ok _ => true | Raise _ => false end.

Definition raises {A} (m : res A) (c : exn_class) : Prop :=
  match m with Ok _ => False | Raise e => exn_kind e = c end.

(** ** IEEE arithmetic *)

Module F64.
Definition prec : Z := 53.
Definition emax : Z := 1024.
Definition of_Z (z : Z) : spec_float := binary_normalize prec emax z 0 false.
Definition add := SFadd prec emax.
Definition sub := SFsub prec emax.
Definition mul := SFmul prec emax.
Definition div := SFdiv prec emax.
Definition zero : spec_float := S754_zero false.
Definition one : spec_float := of_Z 1.
Definition nan : spec_float := S754_nan.
(** The literal [0.2]: the double nearest to 2/10. *)
Definition lit_0_2 : spec_float := S754_finite false 7205759403792794 (-55).
(** The literal [0.5]. *)
Definition lit_0_5 : spec_float := S754_finite false 4503599627370496 (-53).
End F64.

Module F32.
Definition prec : Z := 24.
Definition emax : Z := 128.
Definition of_Z (z : Z) : spec_float := binary_normalize prec emax z 0 false.
Definition add := SFadd prec emax.
Definition mul := SFmul prec emax.
Definition div := SFdiv prec emax.
Definition sqrt := SFsqrt prec emax.
Definition zero : spec_float := S754_zero false.
(** Rounding of a double to binary32, as [torch.FloatTensor] does. *)
Definition of_f64 (f : spec_float) : spec_float :=
  match f with
  | S754_finite s m e => binary_normalize prec emax (cond_Zopp s (Zpos m)) e s
  | _ => f
  end.
End F32.

Definition is_zero (f : spec_float) : bool :=
  match f with S754_zero _ => true | _ => false end.
Definition is_nan (f : spec_float) : bool :=
  match f with S754_nan => true | _ => false end.
Definition is_inf (f : spec_float) : bool :=
  match f with S754_infinity _ => true | _ => false end.
(** Neither an infinity nor a NaN. *)
Definition is_finite (f : spec_float) : bool :=
  match f with S754_zero _ | S754_finite _ _ _ => true | _ => false end.

(** Exact comparison of a float with an integer, as Python compares a [float]
    with an [int]; [None] when the float is a NaN (every comparison is then
    false). *)
Definition float_compare_Z (f : spec_float) (t : Z) : option comparison :=
  match f with
  | S754_nan => None
  | S754_infinity s => Some (if s then Lt else Gt)
  | S754_zero _ => Some (0 ?= t)
  | S754_finite s m e =>
      let n := cond_Zopp s (Zpos m) in
      Some (if 0 <=? e then n * 2 ^ e ?= t else n ?= t * 2 ^ (- e))
  end.

Lemma lit_0_2_is_two_tenths : F64.lit_0_2 = F64.div (F64.of_Z 2) (F64.of_Z 10).
Proof. vm_compute. reflexivity. Qed.

Lemma lit_0_5_is_one_half : F64.lit_0_5 = F64.div (F64.of_Z 1) (F64.of_Z 2).
Proof. vm_compute. reflexivity. Qed.

(** ** Python values *)

(** The values found in a recipe dictionary, in a decoded JSON document and in
    an ORM row: [None], booleans, integers, floats, strings, lists and class
    instances (an instance carries its class name and its attributes). JSON
    objects do not occur in the data of this application and are left out. *)
#[local] Unset Elimination Schemes.
Inductive value :=
  | VNone
  | VBool (b : bool)
  | VInt (z : Z)
  | VFloat (f : spec_float)
  | VStr (s : string)
  | VList (l : list value)
  | VObject (cls : string) (attrs : list (string * value)).
#[local] Set Elimination Schemes.

(** A dictionary with string keys. *)
Abbreviation dict := (gmap string value).

(** [type(v).__name__] *)
Definition type_name (v : value) : string :=
  match v with
  | VNone => "NoneType"
  | VBool _ => "bool"
  | VInt _ => "int"
  | VFloat _ => "float"
  | VStr _ => "str"
  | VList _ => "list"
  | VObject cls _ => cls
  end.

Definition dq : string := String (Ascii.ascii_of_nat 34) EmptyString.

Definition type_error {A} (msg : string) : res A := Raise (Exn TypeError msg).

(** Numbers: [bool] is a subclass of [int]. *)
Inductive number := NInt (z : Z) | NFloat (f : spec_float).

Definition as_number (v : value) : option number :=
  match v with
  | VBool b => Some (NInt (if b then 1 else 0))
  | VInt z => Some (NInt z)
  | VFloat f => Some (NFloat f)
  | _ => None
  end.

Definition is_number (v : value) : bool :=
  match as_number v with Some _ => true | None => false end.

(** Python compares numbers of mixed type by value; the result is [None] when
    a NaN is involved. *)
Definition number_compare (a b : number) : option comparison :=
  match a, b with
  | NInt x, NInt y => Some (x ?= y)
  | NFloat f, NInt y => float_compare_Z f y
  | NInt x, NFloat f => option_map CompOpp (float_compare_Z f x)
  | NFloat f, NFloat g => SFcompare f g
  end.

Definition number_gtb (a b : number) : bool :=
  match number_compare a b with Some Gt => true | _ => false end.
Definition number_ltb (a b : number) : bool :=
  match number_compare a b with Some Lt => true | _ => false end.
Definition number_eqb (a b : number) : bool :=
  match number_compare a b with Some Eq => true | _ => false end.

(** [a == b]. Instances compare by identity, which values do not carry: two
    instances are taken to be distinct objects. The statements below compare
    strings with other values, where identity adds nothing to [==]. *)
Fixpoint py_eq (a b : value) : bool :=
  match a, b with
  | VNone, VNone => true
  | VStr s, VStr t => String.eqb s t
  | VList l, VList m =>
      (fix go (l m : list value) : bool :=
         match l, m with
         | [], [] => true
         | x :: l', y :: m' => py_eq x y && go l' m'
         | _, _ => false
         end) l m
  | VObject _ _, _ | _, VObject _ _ => false
  | _, _ =>
      match as_number a, as_number b with
      | Some x, Some y => number_eqb x y
      | _, _ => false
      end
  end.

(** [bool(v)] *)
Definition py_truthy (v : value) : bool :=
  match v with
  | VNone => false
  | VBool b => b
  | VInt z => negb (z =? 0)
  | VFloat f => negb (is_zero f)
  | VStr s => negb (String.eqb s EmptyString)
  | VList l => match l with [] => false | _ => true end
  | VObject _ _ => true
  end.

(** [a or b] *)
Definition py_or (a b : value) : value := if py_truthy a then a else b.

(** [a > t] and [a < t] for an integer [t]. *)
Definition py_gt_int (a : value) (t : Z) : res bool :=
  match as_number a with
  | Some x => Ok (number_gtb x (NInt t))
  | None => type_error ("'>' not supported between instances of '"
                          ++ type_name a ++ "' and 'int'")
  end.

Definition py_lt_int (a : value) (t : Z) : res bool :=
  match as_number a with
  | Some x => Ok (number_ltb x (NInt t))
  | None => type_error ("'<' not supported between instances of '"
                          ++ type_name a ++ "' and 'int'")
  end.

(** [float(z)] for an integer: rounded to nearest, [OverflowError] when the
    integer is out of the range of a double. *)
Definition float_of_int (z : Z) : res spec_float :=
  let f := F64.of_Z z in
  if is_finite f then Ok f
  else Raise (Exn OverflowError "int too large to convert to float").

(** [a + c] for a float [c]. *)
Definition py_add_float (a : value) (c : spec_float) : res value :=
  match a with
  | VFloat f => Ok (VFloat (F64.add f c))
  | VInt z => f ← float_of_int z; Ok (VFloat (F64.add f c))
  | VBool b => Ok (VFloat (F64.add (F64.of_Z (if b then 1 else 0)) c))
  | VStr _ | VList _ =>
      type_error ("can only concatenate " ++ type_name a ++ " (not " ++ dq
                    ++ "float" ++ dq ++ ") to " ++ type_name a)
  | _ => type_error ("unsupported operand type(s) for +: '" ++ type_name a
                       ++ "' and 'float'")
  end.

(** [iter(v)], as a list of the items. *)
Definition py_iter (v : value) : res (list value) :=
  match v with
  | VList l => Ok l
  | VStr s => Ok (map (fun c => VStr (String c EmptyString)) (String.list_ascii_of_string s))
  | _ => type_error ("'" ++ type_name v ++ "' object is not iterable")
  end.

Definition is_substring (t s : string) : bool :=
  match String.index 0 t s with Some _ => true | None => false end.

(** [x in c] *)
Definition py_in (x c : value) : res bool :=
  match c with
  | VList l => Ok (existsb (py_eq x) l)
  | VStr s =>
      match x with
      | VStr t => Ok (is_substring t s)
      | _ => type_error ("'in <string>' requires string as left operand, not "
                           ++ type_name x)
      end
  | _ => type_error ("argument of type '" ++ type_name c ++ "' is not iterable")
  end.

(** [any(f(x) for x in l)]: stops at the first true item. *)
Fixpoint py_any {A} (f : A -> res bool) (l : list A) : res bool :=
  match l with
  | [] => Ok false
  | x :: l' => b ← f x; if (b : bool) then Ok true else py_any f l'
  end.

(** [getattr(v, name)] *)
Definition py_getattr (v : value) (name : string) : res value :=
  let missing := Raise (Exn AttributeError
                     ("'" ++ type_name v ++ "' object has no attribute '" ++ name ++ "'")) in
  match v with
  | VObject _ attrs =>
      match find (fun kv => String.eqb (fst kv) name) attrs with
      | Some kv => Ok (snd kv)
      | None => missing
      end
  | _ => missing
  end.

(** [d.get(k, v)] and [d[k]] *)
Definition get (d : dict) (k : string) (dflt : value) : value := default dflt (d !! k).

Definition key_error {A} (k : string) : res A := Raise (Exn KeyError ("'" ++ k ++ "'")).

Definition py_getitem {V} (d : gmap string V) (k : string) : res V :=
  match d !! k with Some v => Ok v | None => key_error k end.

(** ** [app/services/recommendation.py] *)

(** One entry of [self.food_flags]: [{"threshold": ..., "unit": ...}]. *)
Record FoodFlag := { threshold : Z; unit_ : string }.

(** Fitted parameters of [sklearn.preprocessing.StandardScaler]. *)
Record StandardScaler := { mean_ : list spec_float; scale_ : list spec_float }.

(** The attributes of a [RecommendationService]; [model] is [None] until
    [load_model] runs, [scaler] is unfitted until its first [fit]. *)
Record RecommendationService := {
  model : option (list spec_float);
  scaler : option StandardScaler;
  food_flags : gmap string FoodFlag
}.

(** [RecommendationService.__init__] *)
Definition init_food_flags : gmap string FoodFlag :=
  <["high_sodium" := {| threshold := 500; unit_ := "mg" |}]>
  (<["high_sugar" := {| threshold := 25; unit_ := "g" |}]>
  (<["high_fat" := {| threshold := 20; unit_ := "g" |}]>
  (<["high_calories" := {| threshold := 500; unit_ := "kcal" |}]>
  (<["high_carbs" := {| threshold := 50; unit_ := "g" |}]>
  (<["low_protein" := {| threshold := 10; unit_ := "g" |}]> ∅))))).

Definition RecommendationService__init__ : RecommendationService :=
  {| model := None; scaler := None; food_flags := init_food_flags |}.

(** [self.food_flags[name]['threshold']] *)
Definition flag_threshold (self : RecommendationService) (name : string) : res Z :=
  threshold <$> py_getitem (food_flags self) name.

(** [flags.append(name)] when [b] holds. *)
Definition append_if (b : bool) (flags : list string) (name : string) : list string :=
  if b then flags ++ [name] else flags.

Definition check_food_flags (self : RecommendationService) (recipe : dict)
  : res (list string) :=
  let flags := [] in
  t ← flag_threshold self "high_sodium";
  b ← py_gt_int (get recipe "sodium" (VInt 0)) t;
  let flags := append_if b flags "high_sodium" in
  t ← flag_threshold self "high_sugar";
  b ← py_gt_int (get recipe "sugar" (VInt 0)) t;
  let flags := append_if b flags "high_sugar" in
  t ← flag_threshold self "high_fat";
  b ← py_gt_int (get recipe "fat" (VInt 0)) t;
  let flags := append_if b flags "high_fat" in
  t ← flag_threshold self "high_calories";
  b ← py_gt_int (get recipe "calories" (VInt 0)) t;
  let flags := append_if b flags "high_calories" in
  t ← flag_threshold self "high_carbs";
  b ← py_gt_int (get recipe "carbs" (VInt 0)) t;
  let flags := append_if b flags "high_carbs" in
  t ← flag_threshold self "low_protein";
  b ← py_lt_int (get recipe "protein" (VInt 0)) t;
  let flags := append_if b flags "low_protein" in
  Ok flags.

(** *** Food flags *)

(** The nutritional fields read by [check_food_flags]. *)
Definition nutrient_keys : list string :=
  ["sodium"; "sugar"; "fat"; "calories"; "carbs"; "protein"].

(** Every nutritional field of the recipe is missing or holds a number. *)
Definition numeric_nutrients (recipe : dict) : bool :=
  forallb (fun k => is_number (get recipe k (VInt 0))) nutrient_keys.

(** **** The threshold conditions, on the numbers themselves *)

(** What a float stands for: a rational number, an infinity, or no number. *)
Inductive extended :=
  | Rational (q : Q)
  | PlusInfinity
  | MinusInfinity
  | NotANumber.

(** The float with sign [s], mantissa [m] and exponent [e] is (-1)^s m 2^e. *)
Definition float_value (f : spec_float) : extended :=
  match f with
  | S754_zero _ => Rational 0
  | S754_infinity s => if s then MinusInfinity else PlusInfinity
  | S754_nan => NotANumber
  | S754_finite s m e => Rational (inject_Z (cond_Zopp s (Zpos m)) * 2 ^ e)
  end.

(** The number a Python value stands for, [True] and [False] being 1 and 0;
    [None] for a value that is no number. *)
Definition numeric_value (v : value) : option extended :=
  match v with
  | VBool b => Some (Rational (if b then 1 else 0))
  | VInt z => Some (Rational (inject_Z z))
  | VFloat f => Some (float_value f)
  | _ => None
  end.

(** [x > t] and [x < t] for an integer [t], in the order of the numbers; no
    order relates a NaN to a number. *)
Definition above (x : extended) (t : Z) : Prop :=
  match x with
  | Rational q => (inject_Z t < q)%Q
  | PlusInfinity => True
  | MinusInfinity | NotANumber => False
  end.

Definition below (x : extended) (t : Z) : Prop :=
  match x with
  | Rational q => (q < inject_Z t)%Q
  | MinusInfinity => True
  | PlusInfinity | NotANumber => False
  end.

(** The amount of the nutrient [k] in a recipe, 0 when the field is missing;
    [None] when the field holds no number. *)
Definition nutrient (recipe : dict) (k : string) : option extended :=
  match recipe !! k with
  | None => Some (Rational 0)
  | Some v => numeric_value v
  end.

Definition exceeds (recipe : dict) (k : string) (t : Z) : Prop :=
  match nutrient recipe k with Some x => above x t | None => False end.

Definition falls_below (recipe : dict) (k : string) (t : Z) : Prop :=
  match nutrient recipe k with Some x => below x t | None => False end.

(** Every nutritional field of the recipe is missing or stands for a number. *)
Definition known_nutrients (recipe : dict) : bool :=
  forallb (fun k => match nutrient recipe k with Some _ => true | None => false end)
    nutrient_keys.

(** The threshold condition of each flag, as the specification states it:
    sodium > 500, sugar > 25, fat > 20, calories > 500, carbs > 50,
    protein < 10. *)
Definition threshold_condition (recipe : dict) (flag : string) : Prop :=
  (flag = "high_sodium" /\ exceeds recipe "sodium" 500) \/
  (flag = "high_sugar" /\ exceeds recipe "sugar" 25) \/
  (flag = "high_fat" /\ exceeds recipe "fat" 20) \/
  (flag = "high_calories" /\ exceeds recipe "calories" 500) \/
  (flag = "high_carbs" /\ exceeds recipe "carbs" 50) \/
  (flag = "low_protein" /\ falls_below recipe "protein" 10).

Lemma py_gt_int_number v t :
  is_number v = true -> exists b, py_gt_int v t = Ok b.
Proof.
  unfold is_number, py_gt_int. destruct (as_number v); [eauto | discriminate].
Qed.

Lemma py_lt_int_number v t :
  is_number v = true -> exists b, py_lt_int v t = Ok b.
Proof.
  unfold is_number, py_lt_int. destruct (as_number v); [eauto | discriminate].
Qed.

Lemma init_thresholds m sc :
  let self := {| model := m; scaler := sc; food_flags := init_food_flags |} in
  flag_threshold self "high_sodium" = Ok 500 ∧
  flag_threshold self "high_sugar" = Ok 25 ∧
  flag_threshold self "high_fat" = Ok 20 ∧
  flag_threshold self "high_calories" = Ok 500 ∧
  flag_threshold self "high_carbs" = Ok 50 ∧
  flag_threshold self "low_protein" = Ok 10.
Proof. repeat split; reflexivity. Qed.

(** check_food_flags as six independent tests. *)
Lemma check_food_flags_unfold m sc recipe b1 b2 b3 b4 b5 b6 :
  py_gt_int (get recipe "sodium" (VInt 0)) 500 = Ok b1 ->
  py_gt_int (get recipe "sugar" (VInt 0)) 25 = Ok b2 ->
  py_gt_int (get recipe "fat" (VInt 0)) 20 = Ok b3 ->
  py_gt_int (get recipe "calories" (VInt 0)) 500 = Ok b4 ->
  py_gt_int (get recipe "carbs" (VInt 0)) 50 = Ok b5 ->
  py_lt_int (get recipe "protein" (VInt 0)) 10 = Ok b6 ->
  check_food_flags {| model := m; scaler := sc; food_flags := init_food_flags |} recipe
  = Ok (append_if b6 (append_if b5 (append_if b4 (append_if b3
         (append_if b2 (append_if b1 [] "high_sodium") "high_sugar") "high_fat")
         "high_calories") "high_carbs") "low_protein").
Proof.
  intros H1 H2 H3 H4 H5 H6. unfold check_food_flags.
  destruct (init_thresholds m sc) as (T1 & T2 & T3 & T4 & T5 & T6).
  rewrite T1, T2, T3, T4, T5, T6. cbn [mbind res_bind].
  rewrite H1, H2, H3, H4, H5, H6. reflexivity.
Qed.

(** On numeric fields the six tests are defined. *)
Lemma nutrient_tests recipe :
  numeric_nutrients recipe = true ->
  exists b1 b2 b3 b4 b5 b6,
    py_gt_int (get recipe "sodium" (VInt 0)) 500 = Ok b1
    /\ py_gt_int (get recipe "sugar" (VInt 0)) 25 = Ok b2
    /\ py_gt_int (get recipe "fat" (VInt 0)) 20 = Ok b3
    /\ py_gt_int (get recipe "calories" (VInt 0)) 500 = Ok b4
    /\ py_gt_int (get recipe "carbs" (VInt 0)) 50 = Ok b5
    /\ py_lt_int (get recipe "protein" (VInt 0)) 10 = Ok b6.
Proof.
  unfold numeric_nutrients, nutrient_keys. cbn [forallb].
  rewrite !andb_true_iff. intros (N1 & N2 & N3 & N4 & N5 & N6 & _).
  destruct (py_gt_int_number _ 500 N1) as [b1 H1].
  destruct (py_gt_int_number _ 25 N2) as [b2 H2].
  destruct (py_gt_int_number _ 20 N3) as [b3 H3].
  destruct (py_gt_int_number _ 50 N5) as [b5 H5].
  destruct (py_gt_int_number _ 500 N4) as [b4 H4].
  destruct (py_lt_int_number _ 10 N6) as [b6 H6].
  exists b1, b2, b3, b4, b5, b6. auto 10.
Qed.

(** **** The comparisons of Python against the order of the numbers *)

Lemma Qcompare_inject_Z (x y : Z) : (inject_Z x ?= inject_Z y)%Q = (x ?= y).
Proof. unfold Qcompare. cbn. rewrite !Z.mul_1_r. reflexivity. Qed.

(** The exact comparison of a finite float with an integer is the
    comparison of the rationals. *)
Lemma float_compare_Z_finite (s : bool) (m : positive) (e t : Z) :
  float_compare_Z (S754_finite s m e) t
  = Some ((inject_Z (cond_Zopp s (Zpos m)) * 2 ^ e ?= inject_Z t)%Q).
Proof.
  cbn [float_compare_Z]. set (n := cond_Zopp s (Zpos m)). f_equal.
  destruct (Z.leb_spec 0 e) as [He|He].
  - rewrite <- Qcompare_inject_Z.
    assert (E : (inject_Z n * 2 ^ e == inject_Z (n * 2 ^ e))%Q).
    { rewrite inject_Z_mult. apply Qmult_comp; [reflexivity|].
      symmetry. exact (Zpower_Qpower 2 e He). }
    rewrite E. reflexivity.
  - assert (Hk : 0 <= - e) by lia.
    assert (Hpos : (0 < inject_Z (2 ^ (- e)))%Q).
    { change 0%Q with (inject_Z 0). rewrite <- Zlt_Qlt. apply Z.pow_pos_nonneg; lia. }
    assert (E : (2 ^ e == / inject_Z (2 ^ (- e)))%Q).
    { rewrite (Zpower_Qpower 2 (- e) Hk), <- Qpower_opp, Z.opp_involutive. reflexivity. }
    rewrite <- Qcompare_inject_Z, inject_Z_mult.
    destruct (Qcompare_spec (inject_Z n) (inject_Z t * inject_Z (2 ^ (- e)))) as [H|H|H].
    + symmetry. apply Qeq_alt. rewrite E, H. field. intros H0. rewrite H0 in Hpos.
      exact (Qlt_irrefl _ Hpos).
    + symmetry. apply Qlt_alt. rewrite E. apply Qlt_shift_div_r; assumption.
    + symmetry. apply Qgt_alt. rewrite E. apply Qlt_shift_div_l; assumption.
Qed.

Lemma number_compare_value (v : value) (x : number) (t : Z) :
  as_number v = Some x ->
  exists y, numeric_value v = Some y
    /\ (number_gtb x (NInt t) = true <-> above y t)
    /\ (number_ltb x (NInt t) = true <-> below y t).
Proof.
  assert (HZ : forall z, (number_gtb (NInt z) (NInt t) = true <-> (inject_Z t < inject_Z z)%Q)
                         /\ (number_ltb (NInt z) (NInt t) = true <-> (inject_Z z < inject_Z t)%Q)).
  { intros z. unfold number_gtb, number_ltb. cbn [number_compare].
    rewrite <- !Zlt_Qlt. destruct (Z.compare_spec z t); split; split;
      try discriminate; try reflexivity; lia. }
  assert (HQ : forall q, (match (q ?= inject_Z t)%Q with Gt => true | _ => false end = true
                          <-> (inject_Z t < q)%Q)
                         /\ (match (q ?= inject_Z t)%Q with Lt => true | _ => false end = true
                             <-> (q < inject_Z t)%Q)).
  { intros q. rewrite Qgt_alt, Qlt_alt.
    destruct (q ?= inject_Z t)%Q; split; split; congruence. }
  destruct v as [|b|z|f|s|l|c a]; try discriminate; intros [= <-].
  - exists (Rational (if b then 1 else 0)). split; [reflexivity|].
    destruct b; [exact (HZ 1)|exact (HZ 0)].
  - exists (Rational (inject_Z z)). split; [reflexivity|]. exact (HZ z).
  - exists (float_value f). split; [reflexivity|].
    unfold number_gtb, number_ltb. cbn [number_compare].
    destruct f as [s|s| |s m e].
    + cbn [float_compare_Z float_value above below].
      change 0%Q with (inject_Z 0). rewrite <- !Zlt_Qlt.
      destruct (Z.compare_spec 0 t); split; split; try discriminate; try reflexivity; lia.
    + destruct s; cbn; split; split; try discriminate; tauto.
    + cbn; split; split; try discriminate; tauto.
    + rewrite float_compare_Z_finite. cbn [float_value above below]. apply HQ.
Qed.

(** The two tests of [check_food_flags] decide the conditions of the
    specification. *)
Lemma py_gt_int_exceeds (recipe : dict) (k : string) (t : Z) (b : bool) :
  py_gt_int (get recipe k (VInt 0)) t = Ok b ->
  (b = true <-> exceeds recipe k t).
Proof.
  unfold py_gt_int, exceeds, nutrient, get.
  destruct (recipe !! k) as [v|]; cbn [default from_option id].
  - destruct (as_number v) as [x|] eqn:E; [|discriminate].
    intros [= <-]. destruct (number_compare_value v x t E) as (y & -> & H & _). exact H.
  - intros [= <-]. destruct (number_compare_value (VInt 0) (NInt 0) t eq_refl)
      as (y & [= <-] & H & _). exact H.
Qed.

Lemma py_lt_int_falls_below (recipe : dict) (k : string) (t : Z) (b : bool) :
  py_lt_int (get recipe k (VInt 0)) t = Ok b ->
  (b = true <-> falls_below recipe k t).
Proof.
  unfold py_lt_int, falls_below, nutrient, get.
  destruct (recipe !! k) as [v|]; cbn [default from_option id].
  - destruct (as_number v) as [x|] eqn:E; [|discriminate].
    intros [= <-]. destruct (number_compare_value v x t E) as (y & -> & _ & H). exact H.
  - intros [= <-]. destruct (number_compare_value (VInt 0) (NInt 0) t eq_refl)
      as (y & [= <-] & _ & H). exact H.
Qed.

(** The fields that stand for numbers are those Python takes for numbers. *)
Lemma known_nutrients_numeric (recipe : dict) :
  known_nutrients recipe = numeric_nutrients recipe.
Proof.
  assert (H : forall k, match nutrient recipe k with Some _ => true | None => false end
                        = is_number (get recipe k (VInt 0))).
  { intros k. unfold nutrient, get, is_number.
    destruct (recipe !! k) as [[]|]; reflexivity. }
  unfold known_nutrients, numeric_nutrients, nutrient_keys. cbn [forallb].
  rewrite !H. reflexivity.
Qed.

(** An integer field exceeds the threshold when the integer does. *)
Lemma exceeds_int (recipe : dict) (k : string) (z t : Z) :
  recipe !! k = Some (VInt z) -> (exceeds recipe k t <-> z > t).
Proof.
  intros H. unfold exceeds, nutrient. rewrite H. cbn [numeric_value above].
  rewrite <- Zlt_Qlt. lia.
Qed.

Lemma falls_below_int (recipe : dict) (k : string) (z t : Z) :
  recipe !! k = Some (VInt z) -> (falls_below recipe k t <-> z < t).
Proof.
  intros H. unfold falls_below, nutrient. rewrite H. cbn [numeric_value below].
  rewrite <- Zlt_Qlt. reflexivity.
Qed.

(** A missing field is neither above a threshold nor fails to be below one:
    it counts as 0. *)
Lemma exceeds_missing (recipe : dict) (k : string) (t : Z) :
  recipe !! k = None -> (exceeds recipe k t <-> 0 > t) /\ (falls_below recipe k t <-> 0 < t).
Proof.
  intros H. unfold exceeds, falls_below, nutrient. rewrite H. cbn [above below].
  change 0%Q with (inject_Z 0). rewrite <- !Zlt_Qlt. lia.
Qed.

(** C4. On a service built by [__init__], and for a recipe whose nutritional
    fields are numbers where present, [check_food_flags] returns a list
    without repetition that holds exactly the flags whose threshold condition
    holds, the conditions being those of the specification on the amounts
    themselves: [high_sodium] iff sodium > 500, [high_sugar] iff sugar > 25,
    [high_fat] iff fat > 20, [high_calories] iff calories > 500, [high_carbs]
    iff carbs > 50 and [low_protein] iff protein < 10, each strict, in the
    order of the rational numbers the fields stand for, a missing field
    counting as 0. *)
Theorem check_food_flags_thresholds m sc (recipe : dict) :
  known_nutrients recipe = true ->
  exists flags,
    check_food_flags {| model := m; scaler := sc; food_flags := init_food_flags |} recipe
      = Ok flags
    /\ NoDup flags
    /\ forall flag, In flag flags <-> threshold_condition recipe flag.
Proof.
  intros Hn. rewrite known_nutrients_numeric in Hn.
  destruct (nutrient_tests recipe Hn)
    as (b1 & b2 & b3 & b4 & b5 & b6 & H1 & H2 & H3 & H4 & H5 & H6).
  eexists. split; [exact (check_food_flags_unfold m sc recipe _ _ _ _ _ _ H1 H2 H3 H4 H5 H6)|].
  apply py_gt_int_exceeds in H1, H2, H3, H4, H5. apply py_lt_int_falls_below in H6.
  split.
  - destruct b1, b2, b3, b4, b5, b6; cbn [append_if app];
      apply (bool_decide_unpack _); vm_compute; exact I.
  - intros flag. unfold threshold_condition.
    rewrite <- H1, <- H2, <- H3, <- H4, <- H5, <- H6. clear.
    destruct b1, b2, b3, b4, b5, b6; cbn [append_if app In];
      (split; [intros H; repeat (destruct H as [<- | H]; [tauto|]); contradiction
              | intros H; intuition (try discriminate; auto)]).
Qed.

(** A recipe with 600 kcal, 20.5 g of protein, 80 g of carbohydrates and 15 g
    of fat; 20.5 is the double 41 * 2^-1 in canonical form. *)
Definition pasta : dict :=
  <["calories" := VInt 600]>
  (<["protein" := VFloat (S754_finite false 5770237022568448 (-48))]>
  (<["carbs" := VInt 80]>
  (<["fat" := VInt 15]>
  (<["cuisine" := VStr "italian"]> ∅)))).

Example check_food_flags_pasta :
  check_food_flags RecommendationService__init__ pasta
  = Ok ["high_calories"; "high_carbs"].
Proof. vm_compute. reflexivity. Qed.

(** The same recipe with 20.5 g of fat, just above the threshold of 20, and
    9.5 g of protein, just below the threshold of 10: the two floats are
    compared exactly. *)
Definition creamy_pasta : dict :=
  <["fat" := VFloat (S754_finite false 5770237022568448 (-48))]>
  (<["protein" := VFloat (S754_finite false 5348024557502464 (-49))]> pasta).

Example check_food_flags_creamy_pasta :
  check_food_flags RecommendationService__init__ creamy_pasta
  = Ok ["high_fat"; "high_calories"; "high_carbs"; "low_protein"].
Proof. vm_compute. reflexivity. Qed.

Lemma check_food_flags_thresholds_witness :
  known_nutrients creamy_pasta = true /\
  exists flags,
    check_food_flags RecommendationService__init__ creamy_pasta = Ok flags
    /\ NoDup flags
    /\ forall flag, In flag flags <-> threshold_condition creamy_pasta flag.
Proof.
  split; [vm_compute; reflexivity|].
  apply (check_food_flags_thresholds None None creamy_pasta). vm_compute; reflexivity.
Defined.

(** *** Preference filtering *)

(** Recipe dictionaries are objects that [filter_by_preferences] updates in
    place and returns by reference: a store maps the identity of each
    dictionary to its current contents, and a list of recipes is a list of
    identities. *)
Definition ref := nat.
Abbreviation store := (gmap nat dict).

(** The dictionary at [r]; the one written at [r]. *)
Definition store_get (h : store) (r : ref) : dict := h !!! r.
Definition store_set (h : store) (r : ref) (d : dict) : store := <[r := d]> h.

Lemma store_get_set (h : store) (r r' : ref) (d : dict) :
  store_get (store_set h r d) r' = if decide (r' = r) then d else store_get h r'.
Proof.
  unfold store_get, store_set. destruct (decide (r' = r)) as [->|Hne].
  - apply lookup_total_insert_eq.
  - apply lookup_total_insert_ne. congruence.
Qed.

Section Service.

(** [json.loads] of the Python standard library, on a [str]. *)
Variable json_loads : string -> res value.

(** [json.loads(v)] on any value. *)
Definition json_loads_value (v : value) : res value :=
  match v with
  | VStr s => json_loads s
  | _ => type_error ("the JSON object must be str, bytes or bytearray, not "
                       ++ type_name v)
  end.

(** The loop of [check_recipe_allergens] over the ingredients. *)
Fixpoint check_ingredients (recipe_ingredients : list value) (user_allergies : value)
  : res bool :=
  match recipe_ingredients with
  | [] => Ok false
  | ingredient :: rest =>
      raw ← py_getattr ingredient "common_allergens";
      common_allergens ← json_loads_value (py_or raw (VStr "[]"));
      allergens ← py_iter user_allergies;
      hit ← py_any (fun allergen => py_in allergen common_allergens) allergens;
      if (hit : bool) then Ok true else check_ingredients rest user_allergies
  end.

Definition check_recipe_allergens (recipe : dict) (user_allergies : value) : res bool :=
  recipe_ingredients ← py_iter (get recipe "ingredients" (VList []));
  check_ingredients recipe_ingredients user_allergies.

(** The value stored under [recipe['food_flags']]. *)
Definition flags_value (flags : list string) : value := VList (map VStr flags).

(** One iteration of the loop of [filter_by_preferences] on the dictionary
    [recipe]: [None] when a [continue] is reached, otherwise the dictionary
    as it is when appended to [filtered_recipes]. *)
Definition filter_recipe (self : RecommendationService) (preferences : dict)
    (recipe : dict) : res (option dict) :=
  restrictions ← py_getitem preferences "dietary_restrictions" ≫= py_iter;
  restricted ← py_any (fun restriction =>
                  py_in restriction (get recipe "tags" (VList []))) restrictions;
  if (restricted : bool) then Ok None else
  user_allergies ← py_getitem preferences "allergies";
  allergic ← check_recipe_allergens recipe user_allergies;
  if (allergic : bool) then Ok None else
  recipe_flags ← check_food_flags self recipe;
  flagged_by ← py_getitem preferences "food_flags" ≫= py_iter;
  flagged ← py_any (fun flag => py_in flag (flags_value recipe_flags)) flagged_by;
  if (flagged : bool) then Ok None else
  favorite_cuisines ← py_getitem preferences "favorite_cuisines";
  favorite ← py_in (get recipe "cuisine" VNone) favorite_cuisines;
  recipe ← (if (favorite : bool)
            then score ← py_add_float (get recipe "match_score" (VInt 0)) F64.lit_0_2;
                 Ok (<["match_score" := score]> recipe)
            else Ok recipe);
  Ok (Some (<["food_flags" := flags_value recipe_flags]> recipe)).

(** The [for recipe in recipes] loop, with the store and the list
    [filtered_recipes] built so far. *)
Fixpoint filter_loop (self : RecommendationService) (preferences : dict)
    (h : store) (recipes : list ref) (filtered_recipes : list ref)
  : res (list ref * store) :=
  match recipes with
  | [] => Ok (filtered_recipes, h)
  | recipe :: rest =>
      step ← filter_recipe self preferences (store_get h recipe);
      match step with
      | None => filter_loop self preferences h rest filtered_recipes
      | Some d =>
          filter_loop self preferences (store_set h recipe d) rest
            (filtered_recipes ++ [recipe])
      end
  end.

Definition filter_by_preferences (self : RecommendationService) (h : store)
    (recipes : list ref) (preferences : dict) : res (list ref * store) :=
  filter_loop self preferences h recipes [].

End Service.

(** **** What the loop of [filter_by_preferences] computes *)

Lemma py_any_total {A} (f : A -> bool) (l : list A) :
  py_any (fun x => Ok (f x)) l = Ok (existsb f l).
Proof.
  induction l as [|x l IH]; [reflexivity|]. cbn. destruct (f x); [reflexivity|exact IH].
Qed.

Lemma py_any_ext {A} (f g : A -> res bool) (l : list A) :
  (forall x, f x = g x) -> py_any f l = py_any g l.
Proof.
  intros E. induction l as [|x l IH]; [reflexivity|]. cbn. rewrite E, IH. reflexivity.
Qed.

Definition is_list (v : value) : bool :=
  match v with VList _ => true | _ => false end.

Definition is_str (v : value) : bool :=
  match v with VStr _ => true | _ => false end.

(** The items of a list value. *)
Definition items (v : value) : list value :=
  match v with VList l => l | _ => [] end.

Lemma is_list_items v : is_list v = true -> v = VList (items v).
Proof. destruct v; try discriminate. reflexivity. Qed.

(** [any(x in c for x in xs)] for a list [c]. *)
Lemma py_any_in_list (xs c : list value) :
  py_any (fun x => py_in x (VList c)) xs
  = Ok (existsb (fun x => existsb (py_eq x) c) xs).
Proof. apply (py_any_total (fun x => existsb (py_eq x) c)). Qed.

Section Filtering.

Variable json_loads : string -> res value.
Variable self : RecommendationService.
Variable preferences : dict.

(** The entry [k] of the preferences, as a list. *)
Definition preference (k : string) : list value :=
  items (get preferences k (VList [])).

(** The four entries of the preferences are present and are lists of
    strings, as [schemas.UserPreferences] has them. *)
Definition preferences_ok : bool :=
  forallb (fun k => match preferences !! k with
                    | Some (VList l) => forallb is_str l
                    | _ => false
                    end)
    ["dietary_restrictions"; "allergies"; "food_flags"; "favorite_cuisines"].

(** An ingredient has the attribute [common_allergens], and the document in
    it (or ["[]"] in its place) decodes to a list. *)
Definition ingredient_ok (ingredient : value) : bool :=
  match py_getattr ingredient "common_allergens" with
  | Ok raw => match json_loads_value json_loads (py_or raw (VStr "[]")) with
              | Ok (VList _) => true
              | _ => false
              end
  | Raise _ => false
  end.

(** The allergens of an ingredient accepted by [ingredient_ok]. *)
Definition common_allergens (ingredient : value) : list value :=
  match py_getattr ingredient "common_allergens" with
  | Ok raw => match json_loads_value json_loads (py_or raw (VStr "[]")) with
              | Ok v => items v
              | Raise _ => []
              end
  | Raise _ => []
  end.

(** The fields read by the three tests are well-typed where present: the
    tags are a list, the ingredients a list of ingredients, the nutritional
    fields numbers. *)
Definition inputs_ok (recipe : dict) : bool :=
  is_list (get recipe "tags" (VList []))
  && is_list (get recipe "ingredients" (VList []))
  && forallb ingredient_ok (items (get recipe "ingredients" (VList [])))
  && numeric_nutrients recipe.

(** [recipe.get('match_score', 0) + 0.2] does not raise. *)
Definition score_ok (recipe : dict) : bool :=
  is_ok (py_add_float (get recipe "match_score" (VInt 0)) F64.lit_0_2).

Definition recipe_ok (recipe : dict) : bool := inputs_ok recipe && score_ok recipe.

(** The flags of a recipe, [[]] where [check_food_flags] raises. *)
Definition recipe_flags (recipe : dict) : list string :=
  match check_food_flags self recipe with Ok flags => flags | Raise _ => [] end.

(** The three tests as boolean functions of the recipe. *)
Definition restricted (recipe : dict) : bool :=
  existsb (fun restriction =>
             existsb (py_eq restriction) (items (get recipe "tags" (VList []))))
    (preference "dietary_restrictions").

Definition allergic (recipe : dict) : bool :=
  existsb (fun ingredient =>
             existsb (fun allergen =>
                        existsb (py_eq allergen) (common_allergens ingredient))
               (preference "allergies"))
    (items (get recipe "ingredients" (VList []))).

Definition flagged (recipe : dict) : bool :=
  existsb (fun flag => existsb (py_eq flag) (map VStr (recipe_flags recipe)))
    (preference "food_flags").

Definition removed (recipe : dict) : bool :=
  restricted recipe || allergic recipe || flagged recipe.

(** The cuisine of the recipe is one of the favourite cuisines. *)
Definition favorite (recipe : dict) : bool :=
  existsb (py_eq (get recipe "cuisine" VNone)) (preference "favorite_cuisines").

(** The score written for a favourite cuisine. *)
Definition boosted_score (recipe : dict) : value :=
  match py_add_float (get recipe "match_score" (VInt 0)) F64.lit_0_2 with
  | Ok score => score
  | Raise _ => VNone
  end.

(** The dictionary appended to [filtered_recipes]. *)
Definition retained (recipe : dict) : dict :=
  <["food_flags" := flags_value (recipe_flags recipe)]>
    (if favorite recipe then <["match_score" := boosted_score recipe]> recipe
     else recipe).








(** The service keeps the thresholds set by [__init__]. *)
Hypothesis self_flags : food_flags self = init_food_flags.

Lemma check_food_flags_numeric recipe :
  numeric_nutrients recipe = true ->
  check_food_flags self recipe = Ok (recipe_flags recipe).
Proof.
  intros Hn. unfold recipe_flags. destruct self as [m sc ff]. cbn in self_flags. subst ff.
  destruct (nutrient_tests recipe Hn)
    as (b1 & b2 & b3 & b4 & b5 & b6 & H1 & H2 & H3 & H4 & H5 & H6).
  rewrite (check_food_flags_unfold m sc recipe _ _ _ _ _ _ H1 H2 H3 H4 H5 H6).
  reflexivity.
Qed.

Lemma check_ingredients_ok (ingredients user_allergies : list value) :
  forallb ingredient_ok ingredients = true ->
  check_ingredients json_loads ingredients (VList user_allergies)
  = Ok (existsb (fun ingredient =>
                   existsb (fun allergen =>
                              existsb (py_eq allergen) (common_allergens ingredient))
                     user_allergies) ingredients).
Proof.
  induction ingredients as [|i l IH]; [reflexivity|].
  cbn [forallb]. rewrite andb_true_iff. intros [Hi Hl].
  cbn [check_ingredients existsb]. unfold ingredient_ok in Hi.
  unfold common_allergens at 1.
  destruct (py_getattr i "common_allergens") as [raw|]; [|discriminate].
  cbn [mbind res_bind].
  destruct (json_loads_value json_loads (py_or raw (VStr "[]"))) as [[]|];
    try discriminate.
  cbn [mbind res_bind py_iter items]. rewrite py_any_in_list. cbn [mbind res_bind].
  destruct (existsb _ user_allergies); [reflexivity|]. cbn [orb]. exact (IH Hl).
Qed.

Lemma preference_lookup k :
  preferences_ok = true ->
  In k ["dietary_restrictions"; "allergies"; "food_flags"; "favorite_cuisines"] ->
  py_getitem preferences k = Ok (VList (preference k)).
Proof.
  unfold preferences_ok. rewrite forallb_forall. intros H Hk. specialize (H k Hk).
  unfold py_getitem, preference, get.
  destruct (preferences !! k) as [[]|]; try discriminate. reflexivity.
Qed.

(** On well-typed data one iteration does not raise: the recipe is skipped
    exactly when one of the three tests holds, and is otherwise appended
    with its flags and, for a favourite cuisine, its raised score. *)
Lemma filter_recipe_ok recipe :
  preferences_ok = true ->
  recipe_ok recipe = true ->
  filter_recipe json_loads self preferences recipe
  = Ok (if removed recipe then None else Some (retained recipe)).
Proof.
  intros Hp Hr. unfold recipe_ok, inputs_ok in Hr. rewrite !andb_true_iff in Hr.
  destruct Hr as ((((Htags & Hil) & Hing) & Hnum) & Hscore).
  unfold filter_recipe, removed, restricted, allergic, check_recipe_allergens.
  rewrite !(preference_lookup _ Hp) by (cbn; tauto).
  cbn [mbind res_bind py_iter].
  destruct (get recipe "tags" (VList [])) as [| | | | |tags|]; try discriminate Htags.
  rewrite py_any_in_list. cbn [mbind res_bind items].
  destruct (existsb _ (preference "dietary_restrictions")); [reflexivity|]. cbn [orb].
  destruct (get recipe "ingredients" (VList [])) as [| | | | |ingredients|];
    try discriminate Hil.
  cbn [mbind res_bind py_iter items] in *. rewrite (check_ingredients_ok _ _ Hing).
  cbn [mbind res_bind].
  destruct (existsb _ ingredients); [reflexivity|]. cbn [orb].
  rewrite (check_food_flags_numeric _ Hnum). cbn [mbind res_bind].
  rewrite (py_any_in_list (preference "food_flags") (map VStr (recipe_flags recipe))
           : py_any (fun flag => py_in flag (flags_value _)) _ = _).
  cbn [mbind res_bind].
  fold (flagged recipe). destruct (flagged recipe); [reflexivity|].
  cbn [py_in mbind res_bind]. fold (favorite recipe).
  unfold retained, boosted_score. unfold score_ok in Hscore.
  destruct (favorite recipe); [|reflexivity].
  destruct (py_add_float _ _); [reflexivity|discriminate].
Qed.

(** Two dictionaries that differ at most under the keys the loop writes. *)
Definition agree (d d' : dict) : Prop :=
  forall k, k <> "match_score" -> k <> "food_flags" -> d !! k = d' !! k.

Lemma agree_get d d' k v :
  agree d d' -> k <> "match_score" -> k <> "food_flags" -> get d' k v = get d k v.
Proof. intros H H1 H2. unfold get. rewrite (H k H1 H2). reflexivity. Qed.


Lemma agree_refl d : agree d d.
Proof. intros k _ _. reflexivity. Qed.

Lemma agree_trans d1 d2 d3 : agree d1 d2 -> agree d2 d3 -> agree d1 d3.
Proof. intros H1 H2 k Hm Hf. rewrite (H1 k Hm Hf). exact (H2 k Hm Hf). Qed.





Lemma match_score_retained d :
  retained d !! "match_score"
  = if favorite d then Some (boosted_score d) else d !! "match_score".
Proof.
  unfold retained. rewrite lookup_insert_ne by discriminate.
  destruct (favorite d); [apply lookup_insert_eq|reflexivity].
Qed.



(** Every recipe of the list is well-typed in the store. *)
Definition recipes_ok (h : store) (recipes : list ref) : bool :=
  forallb (fun r => recipe_ok (store_get h r)) recipes.


(** The store left by the loop when no dictionary occurs twice in the list. *)
Lemma filter_loop_store recipes : forall (h : store) acc,
  NoDup recipes ->
  preferences_ok = true ->
  recipes_ok h recipes = true ->
  exists out h',
    filter_loop json_loads self preferences h recipes acc = Ok (out, h')
    /\ (forall r, In r recipes ->
          store_get h' r = if removed (store_get h r) then store_get h r else retained (store_get h r))
    /\ (forall r, ~ In r recipes -> store_get h' r = store_get h r)
    /\ out = (acc ++ List.filter (fun r => negb (removed (store_get h r))) recipes)%list.
Proof.
  induction recipes as [|r rest IH]; intros h acc Hnd Hp Hok.
  - exists acc, h. cbn. rewrite app_nil_r. repeat split; tauto.
  - apply NoDup_cons in Hnd as [Hr Hnd]. rewrite list_elem_of_In in Hr.
    unfold recipes_ok in Hok. cbn [forallb] in Hok.
    apply andb_true_iff in Hok as [Hokr Hok].
    cbn [filter_loop List.filter]. rewrite (filter_recipe_ok _ Hp Hokr).
    cbn [mbind res_bind]. destruct (removed (store_get h r)) eqn:Hrem; cbn [negb].
    + destruct (IH h acc Hnd Hp Hok) as (out & h' & E & H1 & H2 & H3).
      exists out, h'. split; [exact E|]. split; [|split; [|exact H3]].
      * intros r' [<-|Hr']; [rewrite Hrem; apply H2; exact Hr|apply H1; exact Hr'].
      * intros r' Hn. apply H2. intros Hr'. apply Hn. right. exact Hr'.
    + set (h1 := store_set h r (retained (store_get h r))).
      assert (Hsame : forall r', In r' rest -> store_get h1 r' = store_get h r').
      { intros r' Hr'. unfold h1. rewrite store_get_set.
        destruct (decide (r' = r)) as [->|_]; [contradiction|reflexivity]. }
      assert (Hok1 : recipes_ok h1 rest = true).
      { unfold recipes_ok in *. rewrite forallb_forall in *.
        intros r' Hr'. rewrite (Hsame r' Hr'). exact (Hok r' Hr'). }
      destruct (IH h1 (acc ++ [r])%list Hnd Hp Hok1) as (out & h' & E & H1 & H2 & H3).
      exists out, h'. split; [exact E|]. split; [|split].
      * intros r' [<-|Hr'].
        -- rewrite Hrem, (H2 r Hr). unfold h1. rewrite store_get_set.
           destruct (decide (r = r)); [reflexivity|contradiction].
        -- rewrite (H1 r' Hr'), (Hsame r' Hr'). reflexivity.
      * intros r' Hn. rewrite H2 by (intros Hr'; apply Hn; right; exact Hr').
        unfold h1. rewrite store_get_set. destruct (decide (r' = r)) as [->|_]; [|reflexivity].
        exfalso. apply Hn. left. reflexivity.
      * rewrite H3, <- app_assoc. cbn [app]. f_equal. f_equal.
        apply filter_ext_in. intros r' Hr'. rewrite (Hsame r' Hr'). reflexivity.
Qed.

(** The cuisine of the recipe is one of the favourite cuisines of the user. *)
Definition favorite_cuisine (recipe : dict) : Prop :=
  exists cuisine,
    In cuisine (preference "favorite_cuisines")
    /\ py_eq (get recipe "cuisine" VNone) cuisine = true.

Lemma favorite_iff recipe : favorite recipe = true <-> favorite_cuisine recipe.
Proof. unfold favorite, favorite_cuisine. apply existsb_exists. Qed.

(** The statement on the scores at one input: the call returns, and of the
    recipes it returns, one with a favourite cuisine has its score (0 when
    it has none) raised by 0.2 and any other has its score entry as before. *)
Definition scores_raised_once (h : store) (recipes : list ref) : Prop :=
  exists out h',
    filter_by_preferences json_loads self h recipes preferences = Ok (out, h')
    /\ forall r, In r out ->
         (favorite_cuisine (store_get h r) ->
          exists score,
            py_add_float (get (store_get h r) "match_score" (VInt 0)) F64.lit_0_2 = Ok score
            /\ store_get h' r !! "match_score" = Some score)
         /\ (~ favorite_cuisine (store_get h r) ->
             store_get h' r !! "match_score" = store_get h r !! "match_score").

(** C9 (amended). On well-typed preferences and recipes, when no recipe
    dictionary occurs twice in the input list, every retained recipe whose
    cuisine is a favourite cuisine has its [match_score] raised by 0.2
    (from 0 when it has none), and every other retained recipe keeps its
    [match_score] entry. *)
Theorem filter_by_preferences_scores (h : store) (recipes : list ref) :
  NoDup recipes ->
  preferences_ok = true ->
  recipes_ok h recipes = true ->
  scores_raised_once h recipes.
Proof.
  intros Hnd Hp Hok.
  destruct (filter_loop_store recipes h [] Hnd Hp Hok) as (out & h' & E & H1 & _ & H3).
  exists out, h'. split; [exact E|]. intros r Hr.
  rewrite H3 in Hr. cbn [app] in Hr. apply filter_In in Hr as [Hr Hkeep].
  apply negb_true_iff in Hkeep. rewrite (H1 r Hr), Hkeep, match_score_retained.
  unfold recipes_ok in Hok. rewrite forallb_forall in Hok. specialize (Hok r Hr).
  unfold recipe_ok in Hok. apply andb_true_iff in Hok as [_ Hsc].
  unfold score_ok in Hsc. split.
  - intros Hf. apply favorite_iff in Hf. rewrite Hf. unfold boosted_score.
    destruct (py_add_float _ _) as [score|]; [eauto|discriminate].
  - intros Hf. destruct (favorite (store_get h r)) eqn:Hfav; [|reflexivity].
    exfalso. apply Hf, favorite_iff. exact Hfav.
Qed.

End Filtering.

(** **** Examples *)

(** The JSON array holding the one string [name]. *)
Definition json_array1 (name : string) : string := "[" ++ dq ++ name ++ dq ++ "]".

(** A decoder for the documents of the examples below, on which it agrees
    with [json.loads]: the empty array and the arrays of one allergen name. *)
Definition json_loads_demo (s : string) : res value :=
  if String.eqb s "[]" then Ok (VList [])
  else match find (fun name => String.eqb s (json_array1 name)) ["gluten"; "dairy"; "nuts"] with
       | Some name => Ok (VList [VStr name])
       | None => Raise (Exn ValueError "Expecting value: line 1 column 1 (char 0)")
       end.

Definition ingredient (name : string) (allergens : value) : value :=
  VObject "Ingredient" [("name", VStr name); ("common_allergens", allergens)].

Definition sushi : dict :=
  <["calories" := VInt 400]>
  (<["protein" := VInt 15]>
  (<["carbs" := VInt 60]>
  (<["fat" := VInt 10]>
  (<["cuisine" := VStr "japanese"]>
  (<["match_score" := VFloat F64.lit_0_5]>
  (<["ingredients" := VList [ingredient "rice" VNone]]> ∅)))))).

Definition salad : dict :=
  <["calories" := VInt 300]>
  (<["protein" := VInt 10]>
  (<["carbs" := VInt 20]>
  (<["fat" := VInt 25]>
  (<["cuisine" := VStr "mediterranean"]>
  (<["ingredients" := VList [ingredient "lettuce" (VStr "[]");
                             ingredient "nuts" (VStr (json_array1 "nuts"))]]> ∅))))).

(** Three distinct dictionaries, at the identities 0, 1 and 2. *)
Definition demo_store : store :=
  <[0%nat := pasta]> (<[1%nat := sushi]> (<[2%nat := salad]> ∅)).

Definition demo_preferences : dict :=
  <["dietary_restrictions" := VList [VStr "vegetarian"]]>
  (<["favorite_cuisines" := VList [VStr "italian"; VStr "japanese"]]>
  (<["allergies" := VList [VStr "nuts"]]>
  (<["food_flags" := VList [VStr "high_sodium"]]> ∅))).

(** The salad is left out for its nuts; the two others are kept in order and
    have their scores raised, the pasta from the default 0 and the sushi from
    0.5 to 0.7; the flags of each are recorded. *)
Example filter_by_preferences_demo :
  match filter_by_preferences json_loads_demo RecommendationService__init__
          demo_store [0; 1; 2]%nat demo_preferences with
  | Ok (out, h') =>
      out = [0; 1]%nat
      /\ store_get h' 0%nat !! "match_score" = Some (VFloat F64.lit_0_2)
      /\ store_get h' 1%nat !! "match_score"
         = Some (VFloat (S754_finite false 6305039478318694 (-53)))
      /\ store_get h' 1%nat !! "food_flags" = Some (VList [VStr "high_carbs"])
      /\ store_get h' 2%nat !! "food_flags" = None
  | Raise _ => False
  end.
Proof. vm_compute. repeat split; reflexivity. Qed.


Lemma filter_by_preferences_scores_witness :
  NoDup [0; 1; 2]%nat /\
  preferences_ok demo_preferences = true /\
  recipes_ok json_loads_demo demo_store [0; 1; 2]%nat = true /\
  scores_raised_once json_loads_demo RecommendationService__init__ demo_preferences
    demo_store [0; 1; 2]%nat.
Proof.
  assert (Hnd : NoDup [0; 1; 2]%nat) by (apply (bool_decide_unpack _); vm_compute; exact I).
  split; [exact Hnd|]. split; [vm_compute; reflexivity|].
  split; [vm_compute; reflexivity|].
  apply (filter_by_preferences_scores json_loads_demo RecommendationService__init__
           demo_preferences eq_refl demo_store [0; 1; 2]%nat Hnd);
    vm_compute; reflexivity.
Defined.

(** The same dictionary listed twice: its score is raised at each visit. *)
Definition pasta_store : store := <[0%nat := pasta]> ∅.

Example filter_by_preferences_twice :
  match filter_by_preferences json_loads_demo RecommendationService__init__
          pasta_store [0; 0]%nat demo_preferences with
  | Ok (out, h') =>
      out = [0; 0]%nat
      /\ store_get h' 0%nat !! "match_score"
         = Some (VFloat (S754_finite false 7205759403792794 (-54)))
  | Raise _ => False
  end.
Proof. vm_compute. split; reflexivity. Qed.

(** C9, counterexample. With one recipe dictionary of a favourite cuisine
    listed twice, the call returns it with the score 0.2 + 0.2 = 0.4, not the
    0.2 that one raise from the default 0 gives. *)
Lemma filter_by_preferences_scores_repeated :
  preferences_ok demo_preferences = true /\
  recipes_ok json_loads_demo pasta_store [0; 0]%nat = true /\
  ~ scores_raised_once json_loads_demo RecommendationService__init__ demo_preferences
      pasta_store [0; 0]%nat.
Proof.
  split; [vm_compute; reflexivity|]. split; [vm_compute; reflexivity|].
  intros (out & h' & E & H).
  pose proof filter_by_preferences_twice as Hrun. rewrite E in Hrun.
  destruct Hrun as [-> Hscore].
  destruct (H 0%nat (or_introl eq_refl)) as [Hfav _].
  destruct Hfav as (score & Hadd & Hnew).
  - exists (VStr "italian"). split; [vm_compute; auto|vm_compute; reflexivity].
  - rewrite Hscore in Hnew. injection Hnew as <-.
    vm_compute in Hadd. discriminate Hadd.
Qed.

(** ** [app/models/models.py] and the database session *)

(** The rows of the three tables the service reads. A column is [None] when
    it holds NULL; only the primary keys are never NULL. *)
Module User.
Record t := {
  id : Z;
  email : option string;
  hashed_password : option string;
  is_active : option bool;
  dietary_restrictions : option string;
  favorite_cuisines : option string;
  allergies : option string;
  food_flags : option string
}.
End User.

Module Recipe.
Record t := {
  id : Z;
  title : option string;
  description : option string;
  instructions : option string;
  prep_time : option Z;
  cook_time : option Z;
  servings : option Z;
  calories : option Z;
  image_url : option string;
  protein : option spec_float;
  carbs : option spec_float;
  fat : option spec_float;
  fiber : option spec_float;
  food_flags : option string
}.
End Recipe.

Module UserRecipeInteraction.
Record t := {
  id : Z;
  user_id : option Z;
  recipe_id : option Z;
  interaction_type : option string
}.
End UserRecipeInteraction.

(** A SQLAlchemy session, as the contents of the tables. *)
Record Session := {
  users : list User.t;
  recipes : list Recipe.t;
  user_recipe_interactions : list UserRecipeInteraction.t
}.

(** The value of a column read as an attribute. *)
Definition column {A} (inj : A -> value) (c : option A) : value :=
  match c with Some a => inj a | None => VNone end.

(** [recipe.__dict__] of a loaded row: the column attributes (the timestamp
    among them) and SQLAlchemy's [_sa_instance_state]; the relationships are
    loaded on first access and are not in it. *)
Definition Recipe__dict__ (recipe : Recipe.t) : dict :=
  <["_sa_instance_state" := VObject "InstanceState" []]>
  (<["id" := VInt (Recipe.id recipe)]>
  (<["title" := column VStr (Recipe.title recipe)]>
  (<["description" := column VStr (Recipe.description recipe)]>
  (<["instructions" := column VStr (Recipe.instructions recipe)]>
  (<["prep_time" := column VInt (Recipe.prep_time recipe)]>
  (<["cook_time" := column VInt (Recipe.cook_time recipe)]>
  (<["servings" := column VInt (Recipe.servings recipe)]>
  (<["calories" := column VInt (Recipe.calories recipe)]>
  (<["image_url" := column VStr (Recipe.image_url recipe)]>
  (<["created_at" := VObject "datetime" []]>
  (<["protein" := column VFloat (Recipe.protein recipe)]>
  (<["carbs" := column VFloat (Recipe.carbs recipe)]>
  (<["fat" := column VFloat (Recipe.fat recipe)]>
  (<["fiber" := column VFloat (Recipe.fiber recipe)]>
  (<["food_flags" := column VStr (Recipe.food_flags recipe)]> ∅))))))))))))))).

(** *** The names bound in the module [app.services.recommendation] *)

(** The names its [import] statements and its two [class] statements bind:
    [torch], [nn], [np], [List], [Dict], [Optional], [StandardScaler],
    [settings], [json], [RecipeEmbedding] and [RecommendationService]. *)
Definition module_globals : list string :=
  ["torch"; "nn"; "np"; "List"; "Dict"; "Optional"; "StandardScaler";
   "settings"; "json"; "RecipeEmbedding"; "RecommendationService"].

(** The module as it would be with the three model classes imported from
    [app.models.models], as the endpoint modules do. *)
Definition globals_with_models : list string :=
  (module_globals ++ ["User"; "Recipe"; "UserRecipeInteraction"])%list.

(** A reference to a module-level name that is no builtin: [NameError] when
    the module does not bind it. *)
Definition load_global (globals : list string) (name : string) : res unit :=
  if bool_decide (name ∈ globals) then Ok tt
  else Raise (Exn NameError ("name '" ++ name ++ "' is not defined")).

Section Queries.

Variable json_loads : string -> res value.
Variable globals : list string.

Definition get_user_preferences (user_id : Z) (db : Session) : res dict :=
  _ ← load_global globals "User";
  let user := find (fun u => User.id u =? user_id) (users db) in
  match user with
  | None =>
      Ok (<["dietary_restrictions" := VList []]>
         (<["favorite_cuisines" := VList []]>
         (<["allergies" := VList []]>
         (<["food_flags" := VList []]> ∅))))
  | Some user =>
      let loads c := json_loads_value json_loads (py_or (column VStr c) (VStr "[]")) in
      dietary_restrictions ← loads (User.dietary_restrictions user);
      favorite_cuisines ← loads (User.favorite_cuisines user);
      allergies ← loads (User.allergies user);
      food_flags ← loads (User.food_flags user);
      Ok (<["dietary_restrictions" := dietary_restrictions]>
         (<["favorite_cuisines" := favorite_cuisines]>
         (<["allergies" := allergies]>
         (<["food_flags" := food_flags]> ∅))))
  end.

Definition _find_similar_users (user_id : Z) (db : Session) : list Z := [].

Definition _get_recipes_from_similar_users (similar_users : list Z) (db : Session)
  : list Z := [].

Definition collaborative_filtering (user_id : Z) (db : Session) : res (list Z) :=
  _ ← load_global globals "UserRecipeInteraction";
  let user_interactions :=
    List.filter (fun i => bool_decide (UserRecipeInteraction.user_id i = Some user_id))
      (user_recipe_interactions db) in
  let similar_users := _find_similar_users user_id db in
  let recommended_recipes := _get_recipes_from_similar_users similar_users db in
  Ok recommended_recipes.

End Queries.

(** The preferences of a user with no restriction. *)
Definition no_preferences : dict :=
  <["dietary_restrictions" := VList []]>
  (<["favorite_cuisines" := VList []]>
  (<["allergies" := VList []]>
  (<["food_flags" := VList []]> ∅))).

Lemma load_global_unbound name :
  name ∉ module_globals ->
  load_global module_globals name
  = Raise (Exn NameError ("name '" ++ name ++ "' is not defined")).
Proof. intros H. unfold load_global. rewrite bool_decide_eq_false_2 by exact H. reflexivity. Qed.

Lemma models_unbound :
  ("User" ∉ module_globals) /\ ("Recipe" ∉ module_globals)
  /\ ("UserRecipeInteraction" ∉ module_globals).
Proof. repeat split; apply (bool_decide_unpack _); vm_compute; exact I. Qed.

(** C10. In the module as written, [get_user_preferences] raises [NameError]
    for every user id and every database, the unknown users included: the
    name [User] it refers to is bound nowhere in the module. *)
Theorem get_user_preferences_raises json_loads (user_id : Z) (db : Session) :
  get_user_preferences json_loads module_globals user_id db
  = Raise (Exn NameError "name 'User' is not defined").
Proof. reflexivity. Qed.

(** With the model classes imported, an id that matches no user yields the
    preferences with four empty lists. *)
Lemma get_user_preferences_unknown json_loads (user_id : Z) (db : Session) :
  (forall u, In u (users db) -> User.id u <> user_id) ->
  get_user_preferences json_loads globals_with_models user_id db = Ok no_preferences.
Proof.
  intros H. unfold get_user_preferences. cbn [mbind res_bind].
  change (load_global globals_with_models "User") with (Ok (A:=unit) tt). cbn.
  destruct (find _ (users db)) as [u|] eqn:E; [|reflexivity].
  apply find_some in E as [Hu Hid]. apply Z.eqb_eq in Hid. destruct (H u Hu Hid).
Qed.

Lemma find_similar_users_empty user_id db : _find_similar_users user_id db = [].
Proof. reflexivity. Qed.

Lemma get_recipes_from_similar_users_empty similar_users db :
  _get_recipes_from_similar_users similar_users db = [].
Proof. reflexivity. Qed.

(** C3. In the module as written, [collaborative_filtering] raises
    [NameError] for every user id and every database: the name
    [UserRecipeInteraction] of its first statement is bound nowhere in the
    module, and the two helpers are not reached. *)
Theorem collaborative_filtering_raises (user_id : Z) (db : Session) :
  collaborative_filtering module_globals user_id db
  = Raise (Exn NameError "name 'UserRecipeInteraction' is not defined").
Proof. reflexivity. Qed.

(** With the model classes imported, the result is the empty list. *)
Lemma collaborative_filtering_empty (user_id : Z) (db : Session) :
  collaborative_filtering globals_with_models user_id db = Ok [].
Proof. reflexivity. Qed.

(** ** Feature vectors and their similarity *)

(** *** NumPy, scikit-learn and PyTorch *)

Fixpoint traverse {A B} (f : A -> res B) (l : list A) : res (list B) :=
  match l with
  | [] => Ok []
  | x :: l' => y ← f x; ys ← traverse f l'; Ok (y :: ys)
  end.

Section Features.

(** [float(s)] on a string, [None] when [s] is not the text of a number. *)
Variable float_of_str : string -> option spec_float.

(** The entry of the float64 array that scikit-learn makes of
    [np.array(features)]: numbers are converted, [None] becomes NaN, a
    string is parsed. *)
Definition np_float64 (v : value) : res spec_float :=
  match v with
  | VNone => Ok F64.nan
  | VBool b => Ok (F64.of_Z (if b then 1 else 0))
  | VInt z => float_of_int z
  | VFloat f => Ok f
  | VStr s =>
      match float_of_str s with
      | Some f => Ok f
      | None => Raise (Exn ValueError ("could not convert string to float: '" ++ s ++ "'"))
      end
  | VList _ => Raise (Exn ValueError "setting an array element with a sequence.")
  | VObject cls _ =>
      type_error ("float() argument must be a string or a real number, not '"
                    ++ cls ++ "'")
  end.

(** The input validation of [StandardScaler]: NaN is accepted, an infinity
    is refused. *)
Definition check_array (row : list spec_float) : res (list spec_float) :=
  if existsb is_inf row
  then Raise (Exn ValueError "Input X contains infinity or a value too large for dtype('float64').")
  else Ok row.

(** [StandardScaler.fit] on a matrix of one row. Per column, with [x] the
    entry: the mean is [(0 + x) / 1] (the division by the sample count 1 is
    exact and left out); the variance of one sample is 0, and a scale of 0
    is replaced by 1. A NaN entry counts as missing: no sample is seen, the
    mean [0 / 0] and the scale are NaN. *)
Definition column_mean (x : spec_float) : spec_float :=
  if is_nan x then F64.nan else F64.add F64.zero x.

Definition column_scale (x : spec_float) : spec_float :=
  if is_nan x then F64.nan else F64.one.

Definition StandardScaler_fit (row : list spec_float) : StandardScaler :=
  {| mean_ := map column_mean row; scale_ := map column_scale row |}.

(** [StandardScaler.transform] on a row: [(x - mean_) / scale_]. *)
Definition StandardScaler_transform (sc : StandardScaler) (row : list spec_float)
  : list spec_float :=
  zip_with (fun x ms => F64.div (F64.sub x (fst ms)) (snd ms)) row
    (zip (mean_ sc) (scale_ sc)).

(** [scaler.fit_transform(X)] for a matrix [X] of one row: the fit forgets
    what an earlier fit has left in the scaler. *)
Definition fit_transform (row : list spec_float)
  : res (list spec_float * StandardScaler) :=
  row ← check_array row;
  let sc := StandardScaler_fit row in
  Ok (StandardScaler_transform sc row, sc).

(** [eps = 1e-8] of [torch.cosine_similarity], as a binary32 number. *)
Definition eps : spec_float :=
  F32.of_f64 (F64.div (F64.of_Z 1) (F64.of_Z 100000000)).

(** [torch.clamp_min]: a NaN stays a NaN. *)
Definition clamp_min (x bound : spec_float) : spec_float :=
  if is_nan x then x else if SFltb x bound then bound else x.

Definition dot (x y : list spec_float) : spec_float :=
  fold_left F32.add (zip_with F32.mul x y) F32.zero.

Definition norm (x : list spec_float) : spec_float := F32.sqrt (dot x x).

(** [torch.cosine_similarity(x1, x2).item()] for two tensors of one row, by
    the formula of its documentation:
    x1.x2 / (max(|x1|, eps) * max(|x2|, eps)). *)
Definition cosine_similarity (x1 x2 : list spec_float) : spec_float :=
  F32.div (dot x1 x2) (F32.mul (clamp_min (norm x1) eps) (clamp_min (norm x2) eps)).

(** *** [get_recipe_features] *)

(** The keys read and their defaults. *)
Definition feature_keys : list (string * value) :=
  [("calories", VInt 0); ("protein", VInt 0); ("carbs", VInt 0); ("fat", VInt 0);
   ("fiber", VInt 0); ("prep_time", VInt 0); ("cook_time", VInt 0);
   ("servings", VInt 1)].

Definition set_scaler (self : RecommendationService) (sc : StandardScaler)
  : RecommendationService :=
  {| model := model self; scaler := Some sc; food_flags := food_flags self |}.

(** The feature tensor (one row of binary32 numbers) and the service with
    its scaler refitted. *)
Definition get_recipe_features (self : RecommendationService) (recipe : dict)
  : res (list spec_float * RecommendationService) :=
  let features := map (fun kd => get recipe (fst kd) (snd kd)) feature_keys in
  row ← traverse np_float64 features;
  fitted ← fit_transform row;
  Ok (map F32.of_f64 (fst fitted), set_scaler self (snd fitted)).

End Features.

(** *** One sample standardised *)

Lemma F64_one_literal : F64.one = S754_finite false 4503599627370496 (-52).
Proof. vm_compute. reflexivity. Qed.

Lemma eps_literal : eps = S754_finite false 11258999 (-50).
Proof. vm_compute. reflexivity. Qed.

(** The entry a fit on one row leaves of [x]. *)
Definition standardize (x : spec_float) : spec_float :=
  F64.div (F64.sub x (column_mean x)) (column_scale x).

Lemma fit_transform_row (row : list spec_float) :
  StandardScaler_transform (StandardScaler_fit row) row = map standardize row.
Proof.
  unfold StandardScaler_transform, StandardScaler_fit. cbn [mean_ scale_].
  induction row as [|x row IH]; [reflexivity|]. cbn. rewrite IH. reflexivity.
Qed.

Lemma sub_self_zero (x : spec_float) :
  is_finite x = true -> is_zero (F64.sub x (F64.add F64.zero x)) = true.
Proof.
  destruct x as [s|s| |s m e]; try discriminate; intros _.
  - destruct s; reflexivity.
  - unfold F64.sub, F64.add, F64.zero. cbn [SFadd SFsub].
    rewrite Z.min_id, Z.sub_diag. reflexivity.
Qed.

Lemma standardize_finite (x : spec_float) :
  is_finite x = true -> is_zero (standardize x) = true.
Proof.
  intros Hx. unfold standardize, column_mean, column_scale.
  assert (is_nan x = false) as -> by (destruct x; try reflexivity; discriminate).
  pose proof (sub_self_zero x Hx) as Hz. rewrite F64_one_literal.
  destruct (F64.sub x (F64.add F64.zero x)); try discriminate. reflexivity.
Qed.

Lemma standardize_nan : standardize F64.nan = F64.nan.
Proof. reflexivity. Qed.

Lemma of_f64_zero (x : spec_float) : is_zero x = true -> is_zero (F32.of_f64 x) = true.
Proof. destruct x; try discriminate. reflexivity. Qed.

(** *** Similarity of vectors of zeros *)

Definition all_zero (x : list spec_float) : bool := forallb is_zero x.

Lemma add_zero_zero (a b : spec_float) :
  is_zero a = true -> is_zero b = true -> is_zero (F32.add a b) = true.
Proof.
  destruct a as [[]| | |], b as [[]| | |]; try discriminate; reflexivity.
Qed.

Lemma mul_zero_zero (a b : spec_float) :
  is_zero a = true -> is_zero b = true -> is_zero (F32.mul a b) = true.
Proof.
  destruct a as [[]| | |], b as [[]| | |]; try discriminate; reflexivity.
Qed.

Lemma fold_add_zero (ps : list spec_float) : forall acc,
  is_zero acc = true -> forallb is_zero ps = true ->
  is_zero (fold_left F32.add ps acc) = true.
Proof.
  induction ps as [|p ps IH]; intros acc Ha Hps; [exact Ha|].
  cbn [forallb] in Hps. apply andb_true_iff in Hps as [Hp Hps].
  cbn [fold_left]. apply IH; [apply add_zero_zero; assumption|exact Hps].
Qed.

Lemma dot_zero (x y : list spec_float) :
  all_zero x = true -> all_zero y = true -> is_zero (dot x y) = true.
Proof.
  intros Hx Hy. unfold dot. apply fold_add_zero; [reflexivity|].
  revert y Hy. induction x as [|a x IH]; intros [|b y] Hy; try reflexivity.
  cbn [all_zero forallb] in *. apply andb_true_iff in Hx as [Ha Hx].
  apply andb_true_iff in Hy as [Hb Hy]. cbn [zip_with forallb].
  rewrite (mul_zero_zero a b Ha Hb). exact (IH Hx y Hy).
Qed.

Lemma clamp_zero (n : spec_float) : is_zero n = true -> clamp_min n eps = eps.
Proof. destruct n; try discriminate. reflexivity. Qed.

(** The similarity of two vectors of zeros is a zero. *)
Lemma cosine_similarity_zero (x1 x2 : list spec_float) :
  all_zero x1 = true -> all_zero x2 = true ->
  is_zero (cosine_similarity x1 x2) = true.
Proof.
  intros H1 H2. unfold cosine_similarity, norm.
  assert (Hn : forall x, all_zero x = true -> is_zero (F32.sqrt (dot x x)) = true).
  { intros x Hx. pose proof (dot_zero x x Hx Hx) as Hd.
    destruct (dot x x); try discriminate Hd. reflexivity. }
  rewrite (clamp_zero _ (Hn x1 H1)), (clamp_zero _ (Hn x2 H2)).
  pose proof (dot_zero x1 x2 H1 H2) as Hd.
  assert (He : F32.mul eps eps = S754_finite false 15111573 (-77)) by (vm_compute; reflexivity).
  rewrite He. destruct (dot x1 x2); try discriminate Hd. reflexivity.
Qed.

(** *** The features of a recipe with finite numbers *)

(** A feature entry that is a finite number. *)
Definition finite_number (v : value) : bool :=
  match v with
  | VBool _ => true
  | VInt z => is_ok (float_of_int z)
  | VFloat f => is_finite f
  | _ => false
  end.

(** The eight feature entries of the recipe are missing or finite numbers. *)
Definition finite_features (recipe : dict) : bool :=
  forallb (fun kd => finite_number (get recipe (fst kd) (snd kd))) feature_keys.

Lemma forallb_map {A B} (f : B -> bool) (g : A -> B) (l : list A) :
  forallb f (map g l) = forallb (fun a => f (g a)) l.
Proof. induction l as [|a l IH]; [reflexivity|]. cbn. rewrite IH. reflexivity. Qed.

Section FeatureFacts.

Variable float_of_str : string -> option spec_float.

Lemma np_float64_finite (v : value) :
  finite_number v = true ->
  exists x, np_float64 float_of_str v = Ok x /\ is_finite x = true.
Proof.
  destruct v as [|b|z|f|s|l|c a]; try discriminate; cbn [finite_number np_float64].
  - intros _. destruct b; eexists; split; reflexivity.
  - unfold float_of_int. destruct (is_finite (F64.of_Z z)) eqn:E; [|discriminate].
    eauto.
  - eauto.
Qed.

Lemma traverse_finite (vs : list value) :
  forallb finite_number vs = true ->
  exists xs, traverse (np_float64 float_of_str) vs = Ok xs
             /\ forallb is_finite xs = true /\ length xs = length vs.
Proof.
  induction vs as [|v vs IH]; [exists []; auto|].
  cbn [forallb]. rewrite andb_true_iff. intros [Hv Hvs].
  destruct (np_float64_finite v Hv) as (x & Ex & Hx).
  destruct (IH Hvs) as (xs & Exs & Hxs & Hlen).
  exists (x :: xs). cbn [traverse]. rewrite Ex, Exs. cbn.
  rewrite Hx, Hxs, Hlen. auto.
Qed.

Lemma check_array_finite (row : list spec_float) :
  forallb is_finite row = true -> check_array row = Ok row.
Proof.
  intros H. unfold check_array.
  assert (existsb is_inf row = false) as ->; [|reflexivity].
  induction row as [|x row IH]; [reflexivity|].
  cbn [forallb existsb] in *. apply andb_true_iff in H as [Hx Hr].
  rewrite (IH Hr). destruct x; try discriminate; reflexivity.
Qed.

Lemma standardized_all_zero (row : list spec_float) :
  forallb is_finite row = true ->
  all_zero (map F32.of_f64 (map standardize row)) = true.
Proof.
  induction row as [|x row IH]; [reflexivity|].
  cbn [forallb map all_zero]. rewrite andb_true_iff. intros [Hx Hr].
  rewrite (of_f64_zero _ (standardize_finite x Hx)). exact (IH Hr).
Qed.

(** The features of a recipe with finite numbers: eight zeros. *)
Lemma get_recipe_features_finite (self : RecommendationService) (recipe : dict) :
  finite_features recipe = true ->
  exists features self',
    get_recipe_features float_of_str self recipe = Ok (features, self')
    /\ length features = 8%nat /\ all_zero features = true.
Proof.
  intros H. unfold finite_features in H. unfold get_recipe_features.
  rewrite <- (forallb_map finite_number (fun kd => get recipe (fst kd) (snd kd))) in H.
  destruct (traverse_finite _ H) as (row & -> & Hfin & Hlen).
  cbn [mbind res_bind]. unfold fit_transform. rewrite (check_array_finite _ Hfin).
  cbn [mbind res_bind fst snd]. rewrite fit_transform_row.
  eexists _, _. split; [reflexivity|]. split.
  - rewrite !length_map, Hlen, length_map. reflexivity.
  - apply standardized_all_zero. exact Hfin.
Qed.

(** The statement on the feature vector at one recipe: the call returns a
    vector of zeros. *)
Definition returns_zero_vector (self : RecommendationService) (recipe : dict) : Prop :=
  exists features self',
    get_recipe_features float_of_str self recipe = Ok (features, self')
    /\ all_zero features = true.

(** C5 (amended). For recipes whose eight feature entries are missing or
    finite numbers, [get_recipe_features] refits the scaler on the one
    vector of eight entries and returns eight zeros, whatever the scaler
    held before; hence the cosine similarity of the feature vectors of any
    two such recipes is a zero, whatever the recipes contain. *)
Theorem get_recipe_features_all_zero
    (self1 self2 : RecommendationService) (recipe1 recipe2 : dict) :
  finite_features recipe1 = true ->
  finite_features recipe2 = true ->
  exists x1 x2 self1' self2',
    get_recipe_features float_of_str self1 recipe1 = Ok (x1, self1')
    /\ get_recipe_features float_of_str self2 recipe2 = Ok (x2, self2')
    /\ length x1 = 8%nat /\ all_zero x1 = true
    /\ length x2 = 8%nat /\ all_zero x2 = true
    /\ is_zero (cosine_similarity x1 x2) = true.
Proof.
  intros H1 H2.
  destruct (get_recipe_features_finite self1 recipe1 H1) as (x1 & s1 & E1 & L1 & Z1).
  destruct (get_recipe_features_finite self2 recipe2 H2) as (x2 & s2 & E2 & L2 & Z2).
  exists x1, x2, s1, s2. repeat split; try assumption.
  apply cosine_similarity_zero; assumption.
Qed.

End FeatureFacts.

(** **** Examples *)

(** In the examples no feature is a string: the parser is not called. *)
Definition float_of_str_demo (s : string) : option spec_float := None.

Lemma get_recipe_features_all_zero_witness :
  finite_features pasta = true /\ finite_features sushi = true /\
  exists x1 x2 self1' self2',
    get_recipe_features float_of_str_demo RecommendationService__init__ pasta
      = Ok (x1, self1')
    /\ get_recipe_features float_of_str_demo RecommendationService__init__ sushi
      = Ok (x2, self2')
    /\ length x1 = 8%nat /\ all_zero x1 = true
    /\ length x2 = 8%nat /\ all_zero x2 = true
    /\ is_zero (cosine_similarity x1 x2) = true.
Proof.
  split; [vm_compute; reflexivity|]. split; [vm_compute; reflexivity|].
  apply (get_recipe_features_all_zero float_of_str_demo); vm_compute; reflexivity.
Defined.

(** A row of the table [recipes] whose column [fiber] is NULL. *)
Definition pasta_row : Recipe.t :=
  {| Recipe.id := 1;
     Recipe.title := Some "Italian Pasta";
     Recipe.description := Some "Classic Italian pasta";
     Recipe.instructions := None;
     Recipe.prep_time := Some 10;
     Recipe.cook_time := Some 20;
     Recipe.servings := Some 4;
     Recipe.calories := Some 600;
     Recipe.image_url := None;
     Recipe.protein := Some (F64.of_Z 20);
     Recipe.carbs := Some (F64.of_Z 80);
     Recipe.fat := Some (F64.of_Z 15);
     Recipe.fiber := None;
     Recipe.food_flags := None |}.

(** Its features: a NaN where the fiber is, zeros elsewhere. *)
Example get_recipe_features_null_fiber :
  match get_recipe_features float_of_str_demo RecommendationService__init__
          (Recipe__dict__ pasta_row) with
  | Ok (features, _) =>
      features = [S754_zero false; S754_zero false; S754_zero false; S754_zero false;
                  S754_nan; S754_zero false; S754_zero false; S754_zero false]
  | Raise _ => False
  end.
Proof. vm_compute. reflexivity. Qed.

(** C5, counterexample. For the dictionary of a row whose fiber is NULL,
    [get_recipe_features] does not return a vector of zeros: the entry [None]
    becomes a NaN, which the scaler leaves a NaN. *)
Lemma get_recipe_features_not_zero :
  finite_features (Recipe__dict__ pasta_row) = false /\
  ~ returns_zero_vector float_of_str_demo RecommendationService__init__
      (Recipe__dict__ pasta_row).
Proof.
  split; [vm_compute; reflexivity|].
  intros (features & self' & E & Hz).
  pose proof get_recipe_features_null_fiber as H. rewrite E in H. subst features.
  discriminate Hz.
Qed.

(** A similarity with such a vector is a NaN. *)
Example cosine_similarity_nan :
  cosine_similarity
    [S754_zero false; S754_zero false; S754_zero false; S754_zero false;
     S754_nan; S754_zero false; S754_zero false; S754_zero false]
    [S754_zero false; S754_zero false; S754_zero false; S754_zero false;
     S754_zero false; S754_zero false; S754_zero false; S754_zero false]
  = S754_nan.
Proof. vm_compute. reflexivity. Qed.

(** ** Content-based filtering *)

Lemma compare_cont_swap (m m' : positive) :
  Pos.compare_cont Eq m' m = CompOpp (Pos.compare_cont Eq m m').
Proof. symmetry. exact (Pos.compare_cont_antisym m m' Eq). Qed.

Lemma SFcompare_antisym (a b : spec_float) :
  SFcompare b a = option_map CompOpp (SFcompare a b).
Proof.
  destruct a as [s|s| |s m e], b as [s'|s'| |s' m' e']; cbn; try reflexivity;
    try (destruct s; reflexivity); try (destruct s'; reflexivity);
    try (destruct s, s'; reflexivity).
  destruct s, s'; cbn; try reflexivity;
    rewrite (Z.compare_antisym e e'); destruct (e ?= e')%Z; cbn; try reflexivity;
    change (PosDef.Pos.compare_cont Eq m' m) with (Pos.compare_cont Eq m' m);
    rewrite (compare_cont_swap m m'); reflexivity.
Qed.

Lemma SFltb_asym (a b : spec_float) : SFltb a b = true -> SFltb b a = false.
Proof.
  unfold SFltb. rewrite (SFcompare_antisym a b).
  destruct (SFcompare a b) as [[]|]; cbn; congruence.
Qed.

(** [l.sort(key=..., reverse=True)]: a stable sort by decreasing key, the keys
    compared with [<] alone. It is written as an insertion from the right;
    every stable sort returns the same list when the keys hold no NaN, and
    also when no key compares as smaller than another. *)
Section Sort.
Context {A : Type} (key : A -> spec_float).

Fixpoint insert_desc (x : A) (l : list A) : list A :=
  match l with
  | [] => [x]
  | y :: l' => if SFltb (key x) (key y) then y :: insert_desc x l' else x :: l
  end.

Definition sort_desc (l : list A) : list A := fold_right insert_desc [] l.

Lemma insert_desc_perm x l : Permutation (insert_desc x l) (x :: l).
Proof.
  induction l as [|y l IH]; [reflexivity|]. cbn.
  destruct (SFltb (key x) (key y)); [|reflexivity].
  rewrite IH. apply perm_swap.
Qed.

Lemma sort_desc_perm l : Permutation (sort_desc l) l.
Proof.
  induction l as [|x l IH]; [reflexivity|].
  change (sort_desc (x :: l)) with (insert_desc x (sort_desc l)).
  rewrite insert_desc_perm, IH. reflexivity.
Qed.

(** In the sorted list no element is followed by one of a larger key. *)
Definition not_below (x y : A) : Prop := SFltb (key x) (key y) = false.

Lemma insert_desc_sorted x l : Sorted not_below l -> Sorted not_below (insert_desc x l).
Proof.
  induction l as [|y l IH]; intros Hs; [repeat constructor|].
  cbn [insert_desc]. destruct (SFltb (key x) (key y)) eqn:E.
  - apply Sorted_inv in Hs as [Hs Hhd]. constructor; [exact (IH Hs)|].
    destruct l as [|z l]; cbn [insert_desc].
    + constructor. exact (SFltb_asym _ _ E).
    + destruct (SFltb (key x) (key z)); constructor.
      * apply HdRel_inv in Hhd. exact Hhd.
      * exact (SFltb_asym _ _ E).
  - constructor; [exact Hs|]. constructor. exact E.
Qed.

Lemma sort_desc_sorted l : Sorted not_below (sort_desc l).
Proof.
  induction l as [|x l IH]; [constructor|].
  change (sort_desc (x :: l)) with (insert_desc x (sort_desc l)).
  apply insert_desc_sorted. exact IH.
Qed.

(** Where no key is smaller than another, the list is left as it is. *)
Lemma sort_desc_id l :
  (forall x y, In x l -> In y l -> SFltb (key x) (key y) = false) ->
  sort_desc l = l.
Proof.
  induction l as [|x l IH]; intros H; [reflexivity|].
  change (sort_desc (x :: l)) with (insert_desc x (sort_desc l)).
  rewrite IH by (intros a b Ha Hb; apply H; right; assumption).
  destruct l as [|y l]; [reflexivity|]. cbn [insert_desc].
  rewrite (H x y) by (cbn; auto). reflexivity.
Qed.
End Sort.

Section ContentBased.

Variable float_of_str : string -> option spec_float.
Variable globals : list string.

(** The loop over [all_recipes], with the service (whose scaler each call
    of [get_recipe_features] refits) and the list [similar_recipes] of
    pairs of an id and a score built so far. *)
Fixpoint similarity_loop (self : RecommendationService) (recipe_id : Z)
    (target_features : list spec_float) (all_recipes : list Recipe.t)
    (similar_recipes : list (Z * spec_float))
  : res (list (Z * spec_float) * RecommendationService) :=
  match all_recipes with
  | [] => Ok (similar_recipes, self)
  | recipe :: rest =>
      if Recipe.id recipe =? recipe_id
      then similarity_loop self recipe_id target_features rest similar_recipes
      else
        computed ← get_recipe_features float_of_str self (Recipe__dict__ recipe);
        let recipe_features := fst computed in
        let similarity := cosine_similarity target_features recipe_features in
        similarity_loop (snd computed) recipe_id target_features rest
          (similar_recipes ++ [(Recipe.id recipe, similarity)])
  end.

Definition content_based_filtering (self : RecommendationService) (recipe_id : Z)
    (db : Session) : res (list Z * RecommendationService) :=
  _ ← load_global globals "Recipe";
  let target_recipe := find (fun r => Recipe.id r =? recipe_id) (recipes db) in
  match target_recipe with
  | None => Ok ([], self)
  | Some target_recipe =>
      target ← get_recipe_features float_of_str self (Recipe__dict__ target_recipe);
      let target_features := fst target in
      let all_recipes := recipes db in
      scored ← similarity_loop (snd target) recipe_id target_features all_recipes [];
      let similar_recipes := sort_desc snd (fst scored) in
      Ok (map fst similar_recipes, snd scored)
  end.

End ContentBased.

(** C1. In the module as written, [content_based_filtering] raises
    [NameError] for every recipe id, the existing ones included, every
    database and every state of the service: the name [Recipe] of its first
    statement is bound nowhere in the module, and no similarity is computed. *)
Theorem content_based_filtering_raises float_of_str
    (self : RecommendationService) (recipe_id : Z) (db : Session) :
  content_based_filtering float_of_str module_globals self recipe_id db
  = Raise (Exn NameError "name 'Recipe' is not defined").
Proof. reflexivity. Qed.

(** *** The function with the model classes imported *)

(** A zero or a NaN. *)
Definition zero_or_nan (x : spec_float) : bool := is_zero x || is_nan x.

Lemma standardize_zero_or_nan (x : spec_float) :
  is_inf x = false -> zero_or_nan (F32.of_f64 (standardize x)) = true.
Proof.
  intros Hx. destruct (is_nan x) eqn:Hn.
  - destruct x; try discriminate. reflexivity.
  - unfold zero_or_nan. rewrite of_f64_zero; [reflexivity|].
    apply standardize_finite. destruct x; try discriminate; reflexivity.
Qed.

Lemma add_zero_or_nan (a b : spec_float) :
  zero_or_nan a = true -> zero_or_nan b = true -> zero_or_nan (F32.add a b) = true.
Proof. destruct a as [[]| | |], b as [[]| | |]; try discriminate; reflexivity. Qed.

Lemma mul_zero_or_nan (a b : spec_float) :
  zero_or_nan a = true -> zero_or_nan b = true -> zero_or_nan (F32.mul a b) = true.
Proof. destruct a as [[]| | |], b as [[]| | |]; try discriminate; reflexivity. Qed.

Lemma dot_zero_or_nan (x y : list spec_float) :
  forallb zero_or_nan x = true -> forallb zero_or_nan y = true ->
  zero_or_nan (dot x y) = true.
Proof.
  intros Hx Hy. unfold dot.
  assert (Hp : forallb zero_or_nan (zip_with F32.mul x y) = true).
  { revert y Hy. induction x as [|a x IH]; intros [|b y] Hy; try reflexivity.
    cbn [forallb] in *. apply andb_true_iff in Hx as [Ha Hx].
    apply andb_true_iff in Hy as [Hb Hy]. cbn [zip_with forallb].
    rewrite (mul_zero_or_nan a b Ha Hb). exact (IH Hx y Hy). }
  assert (Hacc : zero_or_nan F32.zero = true) by reflexivity.
  revert Hacc. generalize F32.zero. revert Hp. generalize (zip_with F32.mul x y).
  intros ps. induction ps as [|p ps IH]; intros Hps acc Hacc; [exact Hacc|].
  cbn [forallb] in Hps. apply andb_true_iff in Hps as [Hp Hps].
  cbn [fold_left]. apply IH; [exact Hps|apply add_zero_or_nan; assumption].
Qed.

(** The similarity of two vectors of zeros and NaNs is a zero or a NaN. *)
Lemma cosine_similarity_zero_or_nan (x1 x2 : list spec_float) :
  forallb zero_or_nan x1 = true -> forallb zero_or_nan x2 = true ->
  zero_or_nan (cosine_similarity x1 x2) = true.
Proof.
  intros H1 H2. unfold cosine_similarity, norm.
  pose proof (dot_zero_or_nan x1 x2 H1 H2) as Hd.
  pose proof (dot_zero_or_nan x1 x1 H1 H1) as Hd1.
  pose proof (dot_zero_or_nan x2 x2 H2 H2) as Hd2.
  assert (He : F32.mul eps eps = S754_finite false 15111573 (-77)) by (vm_compute; reflexivity).
  assert (Hc : forall n, zero_or_nan n = true ->
                 clamp_min (F32.sqrt n) eps = eps \/ clamp_min (F32.sqrt n) eps = S754_nan).
  { intros n Hn. destruct n; try discriminate Hn; [left|right]; reflexivity. }
  destruct (Hc _ Hd1) as [-> | ->], (Hc _ Hd2) as [-> | ->];
    rewrite ?He; destruct (dot x1 x2) as [[]| | |]; try discriminate Hd; reflexivity.
Qed.

Lemma zero_or_nan_not_lt (a b : spec_float) :
  zero_or_nan a = true -> zero_or_nan b = true -> SFltb a b = false.
Proof. destruct a, b; try discriminate; reflexivity. Qed.

Section WithModels.

Variable float_of_str : string -> option spec_float.

(** Whatever the recipe, the features returned are zeros and NaNs. *)
Lemma get_recipe_features_zero_or_nan self recipe features self' :
  get_recipe_features float_of_str self recipe = Ok (features, self') ->
  forallb zero_or_nan features = true.
Proof.
  unfold get_recipe_features.
  destruct (traverse _ _) as [row|]; [|discriminate]. cbn [mbind res_bind].
  unfold fit_transform, check_array.
  destruct (existsb is_inf row) eqn:Hinf; [discriminate|].
  cbn [mbind res_bind fst snd]. rewrite fit_transform_row. intros [= <- _].
  induction row as [|x row IH]; [reflexivity|].
  cbn [existsb] in Hinf. apply orb_false_iff in Hinf as [Hx Hrow].
  cbn [map forallb]. rewrite (standardize_zero_or_nan x Hx). exact (IH Hrow).
Qed.

(** Whether the call returns does not depend on the service. *)
Lemma get_recipe_features_any_self self1 self2 recipe :
  fst <$> get_recipe_features float_of_str self1 recipe
  = fst <$> get_recipe_features float_of_str self2 recipe.
Proof.
  unfold get_recipe_features. destruct (traverse _ _); [|reflexivity].
  cbn [mbind res_bind]. destruct (fit_transform a); reflexivity.
Qed.

(** The features of the row can be computed. *)
Definition convertible (recipe : Recipe.t) : bool :=
  is_ok (get_recipe_features float_of_str RecommendationService__init__
           (Recipe__dict__ recipe)).

Definition others (recipe_id : Z) (all_recipes : list Recipe.t) : list Recipe.t :=
  List.filter (fun r => negb (Recipe.id r =? recipe_id)) all_recipes.

Lemma similarity_loop_scores recipe_id target_features all_recipes :
  forallb zero_or_nan target_features = true ->
  forallb convertible all_recipes = true ->
  forall self acc,
    forallb (fun p => zero_or_nan (snd p)) acc = true ->
    exists scored self',
      similarity_loop float_of_str self recipe_id target_features all_recipes acc
      = Ok (scored, self')
      /\ map fst scored
         = (map fst acc ++ map Recipe.id (others recipe_id all_recipes))%list
      /\ forallb (fun p => zero_or_nan (snd p)) scored = true.
Proof.
  intros Ht. induction all_recipes as [|r rest IH]; intros Hconv self acc Hacc.
  - exists acc, self. cbn. rewrite app_nil_r. auto.
  - cbn [forallb] in Hconv. apply andb_true_iff in Hconv as [Hr Hrest].
    cbn [similarity_loop others List.filter].
    destruct (Recipe.id r =? recipe_id); cbn [negb].
    + exact (IH Hrest self acc Hacc).
    + unfold convertible in Hr.
      pose proof (get_recipe_features_any_self self RecommendationService__init__
                    (Recipe__dict__ r)) as Hany.
      destruct (get_recipe_features float_of_str self (Recipe__dict__ r))
        as [[features self1]|] eqn:E.
      2:{ destruct (get_recipe_features float_of_str RecommendationService__init__
                      (Recipe__dict__ r)); discriminate. }
      cbn [mbind res_bind fst snd].
      pose proof (get_recipe_features_zero_or_nan _ _ _ _ E) as Hf.
      destruct (IH Hrest self1
                  (acc ++ [(Recipe.id r, cosine_similarity target_features features)])%list)
        as (scored & self' & Es & Hids & Hs).
      { rewrite forallb_app, Hacc. cbn.
        rewrite (cosine_similarity_zero_or_nan _ _ Ht Hf). reflexivity. }
      exists scored, self'. split; [exact Es|]. split; [|exact Hs].
      rewrite Hids, map_app, <- app_assoc. reflexivity.
Qed.

(** With the model classes imported and the features of every row
    computable, the call returns the ids of the other recipes in the order
    of the table, whatever the recipes contain: no score is smaller than
    another, and the sort moves nothing. *)
Lemma content_based_filtering_with_models self recipe_id db :
  (exists r, In r (recipes db) /\ Recipe.id r = recipe_id) ->
  forallb convertible (recipes db) = true ->
  exists self',
    content_based_filtering float_of_str globals_with_models self recipe_id db
    = Ok (map Recipe.id (others recipe_id (recipes db)), self').
Proof.
  intros (r & Hr & Hid) Hconv. unfold content_based_filtering.
  change (load_global globals_with_models "Recipe") with (Ok (A:=()) tt).
  cbn [mbind res_bind].
  destruct (find (fun r => Recipe.id r =? recipe_id) (recipes db)) as [target|] eqn:Ef.
  2:{ apply (find_none _ _ Ef) in Hr. apply Z.eqb_neq in Hr. contradiction. }
  apply find_some in Ef as [Ht _].
  assert (Hc : convertible target = true).
  { rewrite forallb_forall in Hconv. exact (Hconv target Ht). }
  unfold convertible in Hc.
  pose proof (get_recipe_features_any_self self RecommendationService__init__
                (Recipe__dict__ target)) as Hany.
  destruct (get_recipe_features float_of_str self (Recipe__dict__ target))
    as [[target_features self1]|] eqn:E.
  2:{ destruct (get_recipe_features float_of_str RecommendationService__init__
                  (Recipe__dict__ target)); discriminate. }
  cbn [mbind res_bind fst snd].
  pose proof (get_recipe_features_zero_or_nan _ _ _ _ E) as Hz.
  destruct (similarity_loop_scores recipe_id target_features (recipes db) Hz Hconv
              self1 [] eq_refl) as (scored & self' & -> & Hids & Hs).
  cbn [mbind res_bind fst snd]. exists self'.
  rewrite sort_desc_id, Hids; [reflexivity|].
  rewrite forallb_forall in Hs. intros x y Hx Hy.
  apply zero_or_nan_not_lt; [exact (Hs x Hx)|exact (Hs y Hy)].
Qed.

End WithModels.

(** **** Examples *)

Definition sushi_row : Recipe.t :=
  {| Recipe.id := 2;
     Recipe.title := Some "Sushi Roll";
     Recipe.description := Some "Japanese sushi";
     Recipe.instructions := None;
     Recipe.prep_time := Some 30;
     Recipe.cook_time := Some 0;
     Recipe.servings := Some 2;
     Recipe.calories := Some 400;
     Recipe.image_url := None;
     Recipe.protein := Some (F64.of_Z 15);
     Recipe.carbs := Some (F64.of_Z 60);
     Recipe.fat := Some (F64.of_Z 10);
     Recipe.fiber := Some (F64.of_Z 2);
     Recipe.food_flags := None |}.

Definition salad_row : Recipe.t :=
  {| Recipe.id := 3;
     Recipe.title := Some "Nutty Salad";
     Recipe.description := Some "Salad with nuts";
     Recipe.instructions := None;
     Recipe.prep_time := Some 5;
     Recipe.cook_time := Some 0;
     Recipe.servings := Some 1;
     Recipe.calories := Some 300;
     Recipe.image_url := None;
     Recipe.protein := Some (F64.of_Z 10);
     Recipe.carbs := Some (F64.of_Z 20);
     Recipe.fat := Some (F64.of_Z 25);
     Recipe.fiber := Some (F64.of_Z 6);
     Recipe.food_flags := None |}.

Definition demo_db : Session :=
  {| users := []; recipes := [pasta_row; sushi_row; salad_row];
     user_recipe_interactions := [] |}.

(** As written, the call for the existing recipe 2 raises. *)
Example content_based_filtering_demo :
  content_based_filtering float_of_str_demo module_globals
    RecommendationService__init__ 2 demo_db
  = Raise (Exn NameError "name 'Recipe' is not defined").
Proof. reflexivity. Qed.

(** With the model classes imported it returns the two other ids in the
    order of the table. *)
Example content_based_filtering_demo_with_models :
  fst <$> content_based_filtering float_of_str_demo globals_with_models
            RecommendationService__init__ 2 demo_db
  = Ok [1; 3].
Proof. vm_compute. reflexivity. Qed.

(** ** [app/api/v1/endpoints/recommendations.py] *)

(** What the body of a route handler does: it returns a value, raises an
    [HTTPException], or lets another exception escape. What FastAPI does
    before the body (the dependencies) and after it (the validation of the
    returned value) is not part of the body. *)
Inductive outcome (A : Type) :=
  | Returned (a : A)
  | HTTPException (status_code : Z) (detail : string)
  | Escaped (e : exn).
Arguments Returned {A} a.
Arguments HTTPException {A} status_code detail.
Arguments Escaped {A} e.

(** [l[:n]] *)
Definition slice_to {A} (l : list A) (n : Z) : list A :=
  if n <? 0 then firstn (Z.to_nat (Z.of_nat (length l) + n)) l
  else firstn (Z.to_nat n) l.

(** [RecommendationService.train_model]: the body is [pass]. *)
Definition train_model (self : RecommendationService) (training_data : list dict)
  : value * RecommendationService :=
  (VNone, self).

Section Endpoints.

Variable float_of_str : string -> option spec_float.

(** The names bound in the module of the service. *)
Variable globals : list string.

(** [RecommendationService.get_recommendations], whose exceptions the
    first handler catches: the handler is stated for any behaviour of the
    call. *)
Variable Recommendation : Type.
Variable get_recommendations :
  RecommendationService -> value -> Session -> Z -> res (list Recommendation).

(** The two handlers of recommendations are given by the outcome of their
    body on the service [recommendation_service] as the request finds it.
    The service a request leaves behind is the one left by the call it
    wraps, which may have changed it also when it raises; it is no part of
    the response and is not followed here. *)
Definition get_personalized_recommendations (n_recommendations : Z)
    (current_user : value) (db : Session) (service : RecommendationService)
  : outcome (list Recommendation) :=
  let body :=
    user_id ← py_getattr current_user "id";
    get_recommendations service user_id db n_recommendations in
  match body with
  | Ok recommendations => Returned recommendations
  | Raise e => HTTPException 500 ("Error getting recommendations: " ++ exn_message e)
  end.

Definition get_similar_recipes (recipe_id n_recommendations : Z) (db : Session)
    (service : RecommendationService) : outcome (list Z) :=
  let body :=
    computed ← content_based_filtering float_of_str globals service recipe_id db;
    let recommendations := fst computed in
    Ok (slice_to recommendations n_recommendations) in
  match body with
  | Ok recommendations => Returned recommendations
  | Raise e => HTTPException 500 ("Error getting similar recipes: " ++ exn_message e)
  end.

(** The message returned by the third handler: [{"message": ...}]. *)
Definition trained_message : dict := <["message" := VStr "Model trained successfully"]> ∅.

Definition train_recommendation_model (current_user : value) (db : Session)
    (service : RecommendationService)
  : outcome dict * RecommendationService :=
  match py_getattr current_user "is_admin" with
  | Raise e => (Escaped e, service)
  | Ok is_admin =>
      if negb (py_truthy is_admin)
      then (HTTPException 403 "Not enough permissions", service)
      else
        let training_data := [] in
        let '(_, service') := train_model service training_data in
        (Returned trained_message, service')
  end.

(** C6. The two recommendation handlers map every exception raised inside
    their [try] (by the service call, or by reading the id of the current
    user) to an [HTTPException] of status 500 whose detail is the fixed
    prefix followed by the message of that exception; when nothing raises
    they return the recommendations (for the similar recipes, the first
    [n_recommendations] of them); and they produce no other error: an
    [HTTPException] they produce is such a 500, and no exception escapes
    them. *)
Theorem recommendation_handlers_500 n_recommendations db service :
  (forall current_user,
     get_personalized_recommendations n_recommendations current_user db service
     = match py_getattr current_user "id" with
       | Raise e =>
           HTTPException 500 ("Error getting recommendations: " ++ exn_message e)
       | Ok user_id =>
           match get_recommendations service user_id db n_recommendations with
           | Ok recommendations => Returned recommendations
           | Raise e =>
               HTTPException 500 ("Error getting recommendations: " ++ exn_message e)
           end
       end)
  /\ (forall recipe_id,
        get_similar_recipes recipe_id n_recommendations db service
        = match content_based_filtering float_of_str globals service recipe_id db with
          | Ok (recommendations, _) =>
              Returned (slice_to recommendations n_recommendations)
          | Raise e =>
              HTTPException 500 ("Error getting similar recipes: " ++ exn_message e)
          end)
  /\ (forall current_user status_code detail,
        get_personalized_recommendations n_recommendations current_user db service
        = HTTPException status_code detail ->
        status_code = 500
        /\ exists e,
             (py_getattr current_user "id" = Raise e
              \/ exists user_id,
                   py_getattr current_user "id" = Ok user_id
                   /\ get_recommendations service user_id db n_recommendations = Raise e)
             /\ detail = "Error getting recommendations: " ++ exn_message e)
  /\ (forall current_user e,
        get_personalized_recommendations n_recommendations current_user db service
        <> Escaped e)
  /\ (forall recipe_id status_code detail,
        get_similar_recipes recipe_id n_recommendations db service
        = HTTPException status_code detail ->
        status_code = 500
        /\ exists e,
             content_based_filtering float_of_str globals service recipe_id db = Raise e
             /\ detail = "Error getting similar recipes: " ++ exn_message e)
  /\ (forall recipe_id e,
        get_similar_recipes recipe_id n_recommendations db service <> Escaped e).
Proof.
  split; [|split; [|split; [|split; [|split]]]].
  - intros current_user. unfold get_personalized_recommendations.
    destruct (py_getattr current_user "id") as [user_id|e]; [|reflexivity].
    cbn [mbind res_bind].
    destruct (get_recommendations service user_id db n_recommendations); reflexivity.
  - intros recipe_id. unfold get_similar_recipes.
    destruct (content_based_filtering _ _ _ _ _) as [[]|]; reflexivity.
  - intros current_user status_code detail H.
    unfold get_personalized_recommendations in H.
    destruct (py_getattr current_user "id") as [user_id|e]; cbn [mbind res_bind] in H.
    + destruct (get_recommendations service user_id db n_recommendations) as [|e] eqn:E;
        [discriminate H|].
      injection H as <- <-. eauto 8.
    + injection H as <- <-. eauto.
  - intros current_user e. unfold get_personalized_recommendations.
    destruct (_ ≫= _); discriminate.
  - intros recipe_id status_code detail H. unfold get_similar_recipes in H.
    destruct (content_based_filtering _ _ _ _ _) as [[]|e]; cbn [mbind res_bind] in H;
      [discriminate H|].
    injection H as <- <-. eauto.
  - intros recipe_id e. unfold get_similar_recipes.
    destruct (_ ≫= _); discriminate.
Qed.

(** C7. [train_model] does nothing: it returns [None] and the service it is
    given, model, scaler and thresholds as they were; so for a current user
    whose [is_admin] is true the handler of POST /train returns the message
    [Model trained successfully] and leaves the service as it was. *)
Theorem train_model_noop (self : RecommendationService) (training_data : list dict)
    (current_user is_admin : value) (db : Session) :
  py_getattr current_user "is_admin" = Ok is_admin ->
  py_truthy is_admin = true ->
  train_model self training_data = (VNone, self)
  /\ train_recommendation_model current_user db self = (Returned trained_message, self)
  /\ trained_message !! "message" = Some (VStr "Model trained successfully").
Proof.
  intros Hattr Hadmin. split; [reflexivity|]. split; [|reflexivity].
  unfold train_recommendation_model. rewrite Hattr, Hadmin. reflexivity.
Qed.

(** A user that is no administrator is refused, the service untouched. *)
Lemma train_recommendation_model_forbidden current_user is_admin db service :
  py_getattr current_user "is_admin" = Ok is_admin ->
  py_truthy is_admin = false ->
  train_recommendation_model current_user db service
  = (HTTPException 403 "Not enough permissions", service).
Proof.
  intros Hattr Hadmin. unfold train_recommendation_model. rewrite Hattr, Hadmin.
  reflexivity.
Qed.

End Endpoints.

(** With the module of the service as written, the second handler answers
    every request with the same error. *)
Lemma get_similar_recipes_always_500 float_of_str recipe_id n_recommendations db service :
  get_similar_recipes float_of_str module_globals recipe_id n_recommendations db service
  = HTTPException 500 "Error getting similar recipes: name 'Recipe' is not defined".
Proof. reflexivity. Qed.

(** An object with the attributes of the columns of [users], none of which is
    [is_admin]: given one, the handler raises before it reaches its [try]. *)
Definition user_object (user : User.t) : value :=
  VObject "User"
    [("id", VInt (User.id user));
     ("email", column VStr (User.email user));
     ("hashed_password", column VStr (User.hashed_password user));
     ("is_active", column VBool (User.is_active user));
     ("dietary_restrictions", column VStr (User.dietary_restrictions user));
     ("favorite_cuisines", column VStr (User.favorite_cuisines user));
     ("allergies", column VStr (User.allergies user));
     ("food_flags", column VStr (User.food_flags user))].

Remark train_recommendation_model_user_row user db service :
  train_recommendation_model (user_object user) db service
  = (Escaped (Exn AttributeError "'User' object has no attribute 'is_admin'"), service).
Proof. reflexivity. Qed.

(** An administrator. *)
Definition admin_user : value :=
  VObject "User" [("id", VInt 1); ("email", VStr "admin@example.com");
                  ("is_admin", VBool true)].

Lemma train_model_noop_witness :
  py_getattr admin_user "is_admin" = Ok (VBool true) /\
  py_truthy (VBool true) = true /\
  train_model RecommendationService__init__ [pasta] = (VNone, RecommendationService__init__)
  /\ train_recommendation_model admin_user demo_db RecommendationService__init__
     = (Returned trained_message, RecommendationService__init__)
  /\ trained_message !! "message" = Some (VStr "Model trained successfully").
Proof.
  split; [reflexivity|]. split; [reflexivity|].
  exact (train_model_noop RecommendationService__init__ [pasta] admin_user (VBool true)
           demo_db eq_refl eq_refl).
Defined.

(** ** [scripts/training/train_model.py] *)

(** The files written by [torch.save] and the lines logged. *)
Inductive saved_file :=
  | BestModel (epoch : Z)
  | CheckpointEpoch (epoch : Z).

Inductive log_line :=
  | LogEpoch (epoch num_epochs : Z)
  | LogLosses (train_loss val_loss : spec_float)
  | LogEarlyStopping (epochs : Z).

(** The attributes of a [ModelTrainer] that [train] reads and writes, with
    the files saved and the lines logged so far. *)
Record ModelTrainer := {
  train_losses : list spec_float;
  val_losses : list spec_float;
  best_val_loss : spec_float;
  saved : list saved_file;
  logged : list log_line
}.

(** [ModelTrainer.__init__]: no loss yet, the best loss is [float('inf')]. *)
Definition ModelTrainer__init__ : ModelTrainer :=
  {| train_losses := []; val_losses := []; best_val_loss := S754_infinity false;
     saved := []; logged := [] |}.

Definition log (line : log_line) (t : ModelTrainer) : ModelTrainer :=
  {| train_losses := train_losses t; val_losses := val_losses t;
     best_val_loss := best_val_loss t; saved := saved t;
     logged := logged t ++ [line] |}.

Definition save (file : saved_file) (t : ModelTrainer) : ModelTrainer :=
  {| train_losses := train_losses t; val_losses := val_losses t;
     best_val_loss := best_val_loss t; saved := saved t ++ [file];
     logged := logged t |}.

Definition set_best (loss : spec_float) (t : ModelTrainer) : ModelTrainer :=
  {| train_losses := train_losses t; val_losses := val_losses t;
     best_val_loss := loss; saved := saved t; logged := logged t |}.

Definition record_losses (train_loss val_loss : spec_float) (t : ModelTrainer)
  : ModelTrainer :=
  {| train_losses := train_losses t ++ [train_loss];
     val_losses := val_losses t ++ [val_loss];
     best_val_loss := best_val_loss t; saved := saved t; logged := logged t |}.

Definition save_checkpoint (t : ModelTrainer) (epoch : Z) (val_loss : spec_float)
  : ModelTrainer :=
  let t := if SFltb val_loss (best_val_loss t)
           then save (BestModel epoch) (set_best val_loss t)
           else t in
  save (CheckpointEpoch epoch) t.

(** [a % b] on integers. *)
Definition py_mod (a b : Z) : res Z :=
  if b =? 0 then Raise (Exn ZeroDivisionError "integer modulo by zero")
  else Ok (a mod b).

(** [range(n)] *)
Definition range (n : Z) : list Z := map Z.of_nat (seq 0 (Z.to_nat n)).

Section Training.

(** The losses that [train_epoch] and [validate] return at each epoch;
    they come from the model and the data, which are not modelled. *)
Variable losses : Z -> spec_float * spec_float.

Variable num_epochs save_interval early_stopping_patience : Z.

(** The loop of [train] over the epochs left, with the trainer and
    [patience_counter]; [break] ends it. *)
Fixpoint train_loop (epochs : list Z) (t : ModelTrainer) (patience_counter : Z)
  : res ModelTrainer :=
  match epochs with
  | [] => Ok t
  | epoch :: rest =>
      let t := log (LogEpoch (epoch + 1) num_epochs) t in
      let train_loss := fst (losses epoch) in
      let val_loss := snd (losses epoch) in
      let t := log (LogLosses train_loss val_loss) t in
      let t := record_losses train_loss val_loss t in
      r ← py_mod (epoch + 1) save_interval;
      let t := if r =? 0 then save_checkpoint t epoch val_loss else t in
      if SFltb val_loss (best_val_loss t)
      then
        let t := set_best val_loss t in
        let patience_counter := 0 in
        let t := save_checkpoint t epoch val_loss in
        train_loop rest t patience_counter
      else
        let patience_counter := patience_counter + 1 in
        if patience_counter >=? early_stopping_patience
        then Ok (log (LogEarlyStopping (epoch + 1)) t)
        else train_loop rest t patience_counter
  end.

Definition train (t : ModelTrainer) : res ModelTrainer :=
  let patience_counter := 0 in
  train_loop (range num_epochs) t patience_counter.

(** Early stopping as the specification words it, on the validation
    losses of the epochs left: the best loss seen so far, the count of
    consecutive epochs without an improvement on it and the number of
    epochs run. The result is the number of epochs run and whether the
    stop was early. *)
Fixpoint early_stopping (epochs : list Z) (best : spec_float) (stale : Z) (ran : Z)
  : Z * bool :=
  match epochs with
  | [] => (ran, false)
  | epoch :: rest =>
      let val_loss := snd (losses epoch) in
      if SFltb val_loss best
      then early_stopping rest val_loss 0 (ran + 1)
      else if stale + 1 >=? early_stopping_patience
           then (ran + 1, true)
           else early_stopping rest best (stale + 1) (ran + 1)
  end.

(** The number of epochs [train] has run, and whether it logged an early
    stop. *)
Definition epochs_run (t : ModelTrainer) : Z := Z.of_nat (length (val_losses t)).

Definition stopped_early (t : ModelTrainer) : bool :=
  existsb (fun line => match line with LogEarlyStopping _ => true | _ => false end)
    (logged t).

End Training.

(** *** What [train] does *)

Lemma SFltb_irrefl (x : spec_float) : SFltb x x = false.
Proof.
  unfold SFltb. destruct x as [s|s| |s m e]; cbn; try reflexivity.
  - destruct s; reflexivity.
  - destruct s; rewrite Z.compare_refl, Pos.compare_cont_refl; reflexivity.
Qed.

Section TrainingFacts.

Variable losses : Z -> spec_float * spec_float.
Variable num_epochs save_interval early_stopping_patience : Z.

Abbreviation loop := (train_loop losses num_epochs save_interval early_stopping_patience).
Abbreviation ideal := (early_stopping losses early_stopping_patience).

Lemma stopped_early_log line t :
  stopped_early (log line t)
  = stopped_early t || match line with LogEarlyStopping _ => true | _ => false end.
Proof.
  unfold stopped_early, log. cbn [logged]. rewrite existsb_app. cbn.
  rewrite orb_false_r. reflexivity.
Qed.

(** The checkpoint saved on an improvement, after the best loss has been
    set, leaves the best loss as set. *)
Lemma save_checkpoint_after_set_best t epoch val_loss :
  save_checkpoint (set_best val_loss t) epoch val_loss
  = save (CheckpointEpoch epoch) (set_best val_loss t).
Proof.
  unfold save_checkpoint. cbn [best_val_loss set_best]. rewrite SFltb_irrefl.
  reflexivity.
Qed.

(** On epochs none of which is a periodic checkpoint, [train] stops as the
    specification says: it runs the same number of epochs, and logs an
    early stop exactly when the specification stops early. *)
Lemma train_loop_without_periodic_checkpoint (epochs : list Z) :
  save_interval <> 0 ->
  (forall epoch, In epoch epochs -> (epoch + 1) mod save_interval <> 0) ->
  forall t patience_counter,
  stopped_early t = false ->
  exists t',
    loop epochs t patience_counter = Ok t'
    /\ ideal epochs (best_val_loss t) patience_counter (epochs_run t)
       = (epochs_run t', stopped_early t').
Proof.
  intros Hs. induction epochs as [|epoch rest IH]; intros Hno t pc Hlog.
  - exists t. cbn. rewrite Hlog. auto.
  - cbn [train_loop early_stopping]. unfold py_mod.
    rewrite (proj2 (Z.eqb_neq _ _) Hs). cbn [mbind res_bind].
    rewrite (proj2 (Z.eqb_neq _ _) (Hno epoch (or_introl eq_refl))).
    set (t1 := record_losses _ _ _).
    assert (Hbest : best_val_loss t1 = best_val_loss t) by reflexivity.
    assert (Hrun : epochs_run t1 = epochs_run t + 1).
    { unfold t1, epochs_run. cbn [val_losses record_losses log].
      rewrite length_app. cbn [length]. lia. }
    assert (Hlog1 : stopped_early t1 = false).
    { unfold t1, stopped_early. cbn [logged record_losses log].
      rewrite !existsb_app. cbn. unfold stopped_early in Hlog. rewrite Hlog. reflexivity. }
    rewrite Hbest. destruct (SFltb (snd (losses epoch)) (best_val_loss t)).
    + rewrite save_checkpoint_after_set_best.
      destruct (IH (fun e He => Hno e (or_intror He))
                  (save (CheckpointEpoch epoch) (set_best (snd (losses epoch)) t1)) 0)
        as (t' & E & Hideal); [exact Hlog1|].
      exists t'. split; [exact E|]. cbn [best_val_loss save set_best] in Hideal.
      rewrite <- Hrun. exact Hideal.
    + destruct (pc + 1 >=? early_stopping_patience).
      * eexists. split; [reflexivity|]. rewrite stopped_early_log, orb_true_r.
        rewrite <- Hrun. reflexivity.
      * destruct (IH (fun e He => Hno e (or_intror He)) t1 (pc + 1) Hlog1)
          as (t' & E & Hideal).
        exists t'. split; [exact E|]. rewrite Hbest, Hrun in Hideal. exact Hideal.
Qed.

(** [train] runs at most [num_epochs] epochs. *)
Lemma train_loop_at_most (epochs : list Z) : forall t patience_counter t',
  loop epochs t patience_counter = Ok t' ->
  epochs_run t' <= epochs_run t + Z.of_nat (length epochs).
Proof.
  induction epochs as [|epoch rest IH]; intros t pc t' E.
  - injection E as <-. cbn. lia.
  - cbn [train_loop] in E. destruct (py_mod _ _) as [r|]; [|discriminate E].
    cbn [mbind res_bind] in E.
    set (t1 := record_losses _ _ _) in E.
    assert (Hrun : epochs_run t1 = epochs_run t + 1).
    { unfold t1, epochs_run. cbn [val_losses record_losses log].
      rewrite length_app. cbn [length]. lia. }
    assert (Hsave : forall u, epochs_run (save_checkpoint u epoch (snd (losses epoch)))
                              = epochs_run u).
    { intros u. unfold save_checkpoint.
      destruct (SFltb (snd (losses epoch)) (best_val_loss u)); reflexivity. }
    set (t2 := if r =? 0 then _ else _) in E.
    assert (Hrun2 : epochs_run t2 = epochs_run t + 1).
    { unfold t2. destruct (r =? 0); [rewrite Hsave|]; exact Hrun. }
    cbn [length]. destruct (SFltb _ (best_val_loss t2)).
    + apply IH in E. rewrite Hsave in E.
      change (epochs_run (set_best _ t2)) with (epochs_run t2) in E. lia.
    + destruct (_ >=? _).
      * injection E as <-. change (epochs_run (log _ t2)) with (epochs_run t2). lia.
      * apply IH in E. lia.
Qed.

End TrainingFacts.

Lemma range_length (n : Z) : Z.of_nat (length (range n)) = Z.max 0 n.
Proof. unfold range. rewrite length_map, length_seq. lia. Qed.

Lemma range_bounds (n epoch : Z) : In epoch (range n) -> 0 <= epoch < n.
Proof.
  unfold range. rewrite in_map_iff. intros (k & <- & Hk). apply in_seq in Hk. lia.
Qed.

(** [train] runs at most [num_epochs] epochs. *)
Lemma train_at_most losses num_epochs save_interval early_stopping_patience t t' :
  train losses num_epochs save_interval early_stopping_patience t = Ok t' ->
  epochs_run t' <= epochs_run t + Z.max 0 num_epochs.
Proof.
  intros E. apply train_loop_at_most in E. rewrite range_length in E. exact E.
Qed.

(** With a saving interval above the number of epochs no periodic checkpoint
    is saved, and a fresh trainer stops as the specification says. *)
Lemma train_without_periodic_checkpoint
    losses num_epochs save_interval early_stopping_patience :
  0 <= num_epochs < save_interval ->
  exists t',
    train losses num_epochs save_interval early_stopping_patience ModelTrainer__init__
    = Ok t'
    /\ early_stopping losses early_stopping_patience (range num_epochs)
         (S754_infinity false) 0 0
       = (epochs_run t', stopped_early t').
Proof.
  intros H. unfold train.
  apply (train_loop_without_periodic_checkpoint losses num_epochs save_interval
           early_stopping_patience (range num_epochs)); [| |reflexivity].
  - lia.
  - intros epoch He. apply range_bounds in He. rewrite Z.mod_small; lia.
Qed.

(** **** The periodic checkpoint against early stopping *)

(** Validation losses that improve at the epochs 0, 4 and 9 only: 3.0 up to
    epoch 3, 2.0 up to epoch 8, 1.0 from epoch 9 on (and a training loss of
    1.0 throughout). *)
Definition stepped_losses (epoch : Z) : spec_float * spec_float :=
  (F64.of_Z 1,
   if epoch <? 4 then F64.of_Z 3 else if epoch <? 9 then F64.of_Z 2 else F64.of_Z 1).

(** C8. With the arguments of [main] (100 epochs, a checkpoint every 5
    epochs, a patience of 10) and these losses, [train] logs an early stop
    after 11 epochs, one epoch after the improvement of epoch 9: the
    checkpoints of the epochs 4 and 9 have set [best_val_loss] before the
    test of early stopping, which then counts the two improvements as
    failures. Early stopping as specified stops after 20 epochs, the first
    epoch by which the loss has not improved for 10 epochs in a row. *)
Theorem train_stops_before_patience :
  match train stepped_losses 100 5 10 ModelTrainer__init__ with
  | Ok t =>
      epochs_run t = 11 /\ stopped_early t = true
      /\ last (logged t) = Some (LogEarlyStopping 11)
      /\ best_val_loss t = F64.of_Z 1
  | Raise _ => False
  end
  /\ early_stopping stepped_losses 10 (range 100) (S754_infinity false) 0 0 = (20, true).
Proof. vm_compute. repeat split; reflexivity. Qed.

(** With a checkpoint at every epoch, every improvement is counted as a
    failure: on losses that improve at each epoch, a patience of 2 stops
    the training after 2 epochs, where the specification never stops. *)
Definition falling_losses (epoch : Z) : spec_float * spec_float :=
  (F64.of_Z 1, F64.of_Z (10 - epoch)).

Example train_checkpoint_every_epoch :
  match train falling_losses 5 1 2 ModelTrainer__init__ with
  | Ok t => epochs_run t = 2 /\ stopped_early t = true
  | Raise _ => False
  end
  /\ early_stopping falling_losses 2 (range 5) (S754_infinity false) 0 0 = (5, false).
Proof. vm_compute. repeat split; reflexivity. Qed.

(** A saving interval of 0 makes the first epoch raise. *)
Example train_interval_zero :
  raises (train falling_losses 5 0 2 ModelTrainer__init__) ZeroDivisionError.
Proof. reflexivity. Qed.

(** ** Further properties of the service *)

(** *** [check_food_flags]: errors, order, missing fields *)

(** The six flags in the order in which [check_food_flags] tests them. *)
Definition flag_names : list string :=
  ["high_sodium"; "high_sugar"; "high_fat"; "high_calories"; "high_carbs";
   "low_protein"].

(** X1. On a service with the thresholds of [__init__], a recipe one of whose
    six nutritional fields is present and holds no number ([None], a string,
    a list, an instance) makes [check_food_flags] raise [TypeError]: the
    comparison with the threshold is not defined. With C4 this gives: the
    call returns exactly when every nutritional field is missing or a
    number. *)
Theorem check_food_flags_type_error m sc (recipe : dict) :
  known_nutrients recipe = false ->
  raises (check_food_flags {| model := m; scaler := sc; food_flags := init_food_flags |}
            recipe) TypeError.
Proof.
  rewrite known_nutrients_numeric.
  unfold numeric_nutrients, nutrient_keys, is_number. cbn [forallb]. intros H.
  unfold check_food_flags.
  destruct (init_thresholds m sc) as (T1 & T2 & T3 & T4 & T5 & T6).
  rewrite T1, T2, T3, T4, T5, T6. cbn [mbind res_bind].
  unfold py_gt_int, py_lt_int, type_error.
  destruct (as_number (get recipe "sodium" (VInt 0))); [|reflexivity].
  destruct (as_number (get recipe "sugar" (VInt 0))); [|reflexivity].
  destruct (as_number (get recipe "fat" (VInt 0))); [|reflexivity].
  destruct (as_number (get recipe "calories" (VInt 0))); [|reflexivity].
  destruct (as_number (get recipe "carbs" (VInt 0))); [|reflexivity].
  destruct (as_number (get recipe "protein" (VInt 0))); [|reflexivity].
  discriminate H.
Qed.

(** A recipe whose sodium column is NULL. *)
Definition unsalted : dict := <["sodium" := VNone]> pasta.

Lemma check_food_flags_type_error_witness :
  known_nutrients unsalted = false /\
  raises (check_food_flags RecommendationService__init__ unsalted) TypeError.
Proof.
  split; [vm_compute; reflexivity|].
  apply (check_food_flags_type_error None None unsalted). vm_compute; reflexivity.
Defined.

Lemma append_if_sublist (b : bool) (flags l : list string) (name : string) :
  sublist flags l -> sublist (append_if b flags name) (l ++ [name])%list.
Proof.
  intros H. destruct b; cbn [append_if].
  - apply sublist_app; [exact H|reflexivity].
  - apply sublist_inserts_r. exact H.
Qed.

(** X2. Whatever the state of the service and whatever the recipe, a list
    returned by [check_food_flags] holds flag names in the order of the six
    tests, none twice and none but the six: it is a sublist of
    [high_sodium, high_sugar, high_fat, high_calories, high_carbs,
    low_protein]. *)
Theorem check_food_flags_order (self : RecommendationService) (recipe : dict)
    (flags : list string) :
  check_food_flags self recipe = Ok flags ->
  sublist flags flag_names /\ NoDup flags.
Proof.
  intros H.
  assert (Hs : sublist flags flag_names).
  { unfold check_food_flags in H.
    repeat match type of H with
    | (mbind _ ?m) = _ => destruct m; cbn [mbind res_bind] in H; [|discriminate H]
    end.
    injection H as <-.
    change flag_names with
      ((((((([] ++ ["high_sodium"]) ++ ["high_sugar"]) ++ ["high_fat"])
            ++ ["high_calories"]) ++ ["high_carbs"]) ++ ["low_protein"]))%list.
    repeat apply append_if_sublist. reflexivity. }
  split; [exact Hs|].
  apply (sublist_NoDup _ flag_names); [|exact Hs]. apply (bool_decide_unpack _). vm_compute. exact I.
Qed.

Lemma check_food_flags_order_witness :
  check_food_flags RecommendationService__init__ pasta = Ok ["high_calories"; "high_carbs"]
  /\ sublist ["high_calories"; "high_carbs"] flag_names
  /\ NoDup ["high_calories"; "high_carbs"].
Proof.
  split; [vm_compute; reflexivity|].
  apply (check_food_flags_order RecommendationService__init__ pasta).
  vm_compute. reflexivity.
Defined.

(** X3. Missing fields count as 0: on a service with the thresholds of
    [__init__], a recipe that has none of the six nutritional fields gets
    the one flag [low_protein], whatever else it holds. *)
Theorem check_food_flags_no_nutrients m sc (recipe : dict) :
  (forall k, In k nutrient_keys -> recipe !! k = None) ->
  check_food_flags {| model := m; scaler := sc; food_flags := init_food_flags |} recipe
  = Ok ["low_protein"].
Proof.
  intros H. unfold check_food_flags.
  destruct (init_thresholds m sc) as (T1 & T2 & T3 & T4 & T5 & T6).
  rewrite T1, T2, T3, T4, T5, T6. cbn [mbind res_bind]. unfold get.
  rewrite !H by (cbn; tauto). reflexivity.
Qed.

(** A recipe with a title alone. *)
Definition untitled : dict := <["title" := VStr "Soup"]> ∅.

Lemma check_food_flags_no_nutrients_witness :
  (forall k, In k nutrient_keys -> untitled !! k = None) /\
  check_food_flags RecommendationService__init__ untitled = Ok ["low_protein"].
Proof.
  assert (H : forall k, In k nutrient_keys -> untitled !! k = None).
  { intros k Hk. cbn in Hk.
    repeat (destruct Hk as [<- | Hk]; [reflexivity|]). destruct Hk. }
  split; [exact H|].
  exact (check_food_flags_no_nutrients None None untitled H).
Defined.
(** *** [filter_by_preferences]: what it writes and what it leaves *)

Section FilterFrame.

Variable json_loads : string -> res value.
Variable self : RecommendationService.
Variable preferences : dict.

(** The flags depend on the nutritional fields alone. *)
Lemma check_food_flags_agree (d d' : dict) :
  agree d d' -> check_food_flags self d' = check_food_flags self d.
Proof.
  intros H. unfold check_food_flags.
  rewrite !(fun k v => agree_get d d' k v H) by discriminate. reflexivity.
Qed.

(** A recipe that one iteration keeps: its flags have been computed, and the
    dictionary appended is the recipe with the flags written and, possibly,
    the score raised. *)
Lemma filter_recipe_kept (d d' : dict) :
  filter_recipe json_loads self preferences d = Ok (Some d') ->
  exists flags,
    check_food_flags self d = Ok flags
    /\ (d' = <["food_flags" := flags_value flags]> d
        \/ exists score,
             py_add_float (get d "match_score" (VInt 0)) F64.lit_0_2 = Ok score
             /\ d' = <["food_flags" := flags_value flags]> (<["match_score" := score]> d)).
Proof.
  unfold filter_recipe. intros H.
  destruct (py_getitem preferences "dietary_restrictions" ≫= py_iter) as [restrictions|];
    cbn [mbind res_bind] in H; [|discriminate H].
  destruct (py_any _ restrictions) as [[]|]; cbn [mbind res_bind] in H;
    try discriminate H.
  destruct (py_getitem preferences "allergies") as [user_allergies|];
    cbn [mbind res_bind] in H; [|discriminate H].
  destruct (check_recipe_allergens json_loads d user_allergies) as [[]|];
    cbn [mbind res_bind] in H; try discriminate H.
  destruct (check_food_flags self d) as [flags|]; cbn [mbind res_bind] in H;
    [|discriminate H].
  destruct (py_getitem preferences "food_flags" ≫= py_iter) as [flagged_by|];
    cbn [mbind res_bind] in H; [|discriminate H].
  destruct (py_any _ flagged_by) as [[]|]; cbn [mbind res_bind] in H;
    try discriminate H.
  destruct (py_getitem preferences "favorite_cuisines") as [favorite_cuisines|];
    cbn [mbind res_bind] in H; [|discriminate H].
  destruct (py_in _ favorite_cuisines) as [[]|]; cbn [mbind res_bind] in H;
    try discriminate H.
  - destruct (py_add_float _ _) as [score|] eqn:E; cbn [mbind res_bind] in H;
      [|discriminate H].
    injection H as <-. exists flags. split; [reflexivity|]. right. eauto.
  - injection H as <-. exists flags. split; [reflexivity|]. left. reflexivity.
Qed.

Lemma filter_recipe_kept_agree (d d' : dict) :
  filter_recipe json_loads self preferences d = Ok (Some d') -> agree d d'.
Proof.
  intros H. destruct (filter_recipe_kept d d' H) as (flags & _ & [-> | (score & _ & ->)]);
    intros k Hm Hf; rewrite !lookup_insert_ne by congruence; reflexivity.
Qed.

Lemma filter_recipe_kept_flags (d d' : dict) :
  filter_recipe json_loads self preferences d = Ok (Some d') ->
  exists flags,
    check_food_flags self d = Ok flags
    /\ d' !! "food_flags" = Some (flags_value flags).
Proof.
  intros H. destruct (filter_recipe_kept d d' H) as (flags & Hf & [-> | (score & _ & ->)]);
    exists flags; (split; [exact Hf|apply lookup_insert_eq]).
Qed.

(** The loop, whatever the data and the aliasing: the recipes appended are a
    sublist of the recipes visited; a dictionary changes under the two
    written keys alone, and not at all unless it is appended; an appended
    dictionary holds its flags. *)
Lemma filter_loop_frame (visited : list ref) : forall (h : store) acc out h',
  filter_loop json_loads self preferences h visited acc = Ok (out, h') ->
  exists kept,
    out = (acc ++ kept)%list
    /\ sublist kept visited
    /\ (forall r, agree (store_get h r) (store_get h' r))
    /\ (forall r, ~ In r kept -> store_get h' r = store_get h r)
    /\ (forall r, In r kept ->
          exists flags,
            check_food_flags self (store_get h r) = Ok flags
            /\ store_get h' r !! "food_flags" = Some (flags_value flags)).
Proof.
  induction visited as [|r rest IH]; intros h acc out h' H.
  - injection H as <- <-. exists []. rewrite app_nil_r.
    split; [reflexivity|]. split; [constructor|]. split; [intros; apply agree_refl|].
    split; [reflexivity|]. intros r [].
  - cbn [filter_loop] in H.
    destruct (filter_recipe json_loads self preferences (store_get h r)) as [[d|]|] eqn:E;
      cbn [mbind res_bind] in H; [| |discriminate H].
    + destruct (IH _ _ _ _ H) as (kept & -> & Hsub & Hag & Hsame & Hflags).
      pose proof (filter_recipe_kept_agree _ _ E) as Hd.
      assert (Hag1 : forall r', agree (store_get h r') (store_get (store_set h r d) r')).
      { intros r'. rewrite store_get_set. destruct (decide (r' = r)) as [->|_];
          [exact Hd|apply agree_refl]. }
      exists (r :: kept). rewrite <- app_assoc. split; [reflexivity|].
      split; [constructor; exact Hsub|].
      split; [intros r'; exact (agree_trans _ _ _ (Hag1 r') (Hag r'))|].
      split.
      * intros r' Hn. rewrite Hsame by (intros Hk; apply Hn; right; exact Hk).
        rewrite store_get_set. destruct (decide (r' = r)) as [->|_]; [|reflexivity].
        exfalso. apply Hn. left. reflexivity.
      * intros r' Hr'. destruct (ListDec.In_dec Nat.eq_dec r' kept) as [Hk|Hk].
        -- destruct (Hflags r' Hk) as (flags & Hf & Hl). exists flags. split; [|exact Hl].
           rewrite <- Hf. symmetry. apply check_food_flags_agree. exact (Hag1 r').
        -- destruct Hr' as [<-|Hr']; [|contradiction].
           rewrite (Hsame r Hk), store_get_set.
           destruct (decide (r = r)); [|contradiction].
           exact (filter_recipe_kept_flags _ _ E).
    + destruct (IH _ _ _ _ H) as (kept & -> & Hsub & Hag & Hsame & Hflags).
      exists kept. split; [reflexivity|]. split; [apply sublist_cons_r; left; exact Hsub|].
      auto.
Qed.

(** X4. Whatever the recipes and the preferences, when [filter_by_preferences]
    returns, the list returned is a sublist of its input (same objects, same
    order); no dictionary has changed under a key other than [match_score]
    and [food_flags]; and a dictionary that is not returned has not changed
    at all. *)
Theorem filter_by_preferences_frame (h : store) (listed : list ref)
    (out : list ref) (h' : store) :
  filter_by_preferences json_loads self h listed preferences = Ok (out, h') ->
  sublist out listed
  /\ (forall r k, k <> "match_score" -> k <> "food_flags" ->
        store_get h' r !! k = store_get h r !! k)
  /\ (forall r, ~ In r out -> store_get h' r = store_get h r).
Proof.
  intros H. destruct (filter_loop_frame listed h [] out h' H)
    as (kept & -> & Hsub & Hag & Hsame & _).
  cbn [app]. split; [exact Hsub|]. split; [|exact Hsame].
  intros r k Hm Hf. symmetry. exact (Hag r k Hm Hf).
Qed.

(** X5. Whatever the recipes and the preferences, when [filter_by_preferences]
    returns, every dictionary it returns holds under [food_flags] the list
    that [check_food_flags] computes for it, in place of what was there
    before. *)
Theorem filter_by_preferences_food_flags (h : store) (listed : list ref)
    (out : list ref) (h' : store) :
  filter_by_preferences json_loads self h listed preferences = Ok (out, h') ->
  forall r, In r out ->
    exists flags,
      check_food_flags self (store_get h r) = Ok flags
      /\ store_get h' r !! "food_flags" = Some (VList (map VStr flags)).
Proof.
  intros H. destruct (filter_loop_frame listed h [] out h' H)
    as (kept & -> & _ & _ & _ & Hflags).
  exact Hflags.
Qed.

End FilterFrame.

(** The three recipes of the examples, filtered: the run of
    [filter_by_preferences_demo]. *)
Definition demo_run : res (list ref * store) :=
  filter_by_preferences json_loads_demo RecommendationService__init__
    demo_store [0; 1; 2]%nat demo_preferences.

Definition demo_filtered : store :=
  match demo_run with Ok (_, h') => h' | Raise _ => ∅ end.

(** The pasta and the sushi are returned. *)
Lemma demo_run_returns : demo_run = Ok ([0; 1]%nat, demo_filtered).
Proof.
  unfold demo_filtered.
  assert (H : fst <$> demo_run = Ok [0; 1]%nat) by (vm_compute; reflexivity).
  destruct demo_run as [[out h']|]; [|discriminate H].
  injection H as <-. reflexivity.
Qed.

Lemma filter_by_preferences_frame_witness :
  demo_run = Ok ([0; 1]%nat, demo_filtered)
  /\ sublist [0; 1]%nat [0; 1; 2]%nat
  /\ (forall r k, k <> "match_score" -> k <> "food_flags" ->
        store_get demo_filtered r !! k = store_get demo_store r !! k)
  /\ (forall r, ~ In r [0; 1]%nat -> store_get demo_filtered r = store_get demo_store r).
Proof.
  split; [exact demo_run_returns|].
  exact (filter_by_preferences_frame json_loads_demo RecommendationService__init__
           demo_preferences demo_store [0; 1; 2]%nat [0; 1]%nat demo_filtered
           demo_run_returns).
Defined.

Lemma filter_by_preferences_food_flags_witness :
  demo_run = Ok ([0; 1]%nat, demo_filtered)
  /\ forall r, In r [0; 1]%nat ->
       exists flags,
         check_food_flags RecommendationService__init__ (store_get demo_store r) = Ok flags
         /\ store_get demo_filtered r !! "food_flags" = Some (VList (map VStr flags)).
Proof.
  split; [exact demo_run_returns|].
  exact (filter_by_preferences_food_flags json_loads_demo RecommendationService__init__
           demo_preferences demo_store [0; 1; 2]%nat [0; 1]%nat demo_filtered
           demo_run_returns).
Defined.

(** *** [filter_by_preferences] applied twice *)

Section FilterAgain.

Variable json_loads : string -> res value.
Variable self : RecommendationService.
Variable preferences : dict.
Hypothesis self_flags : food_flags self = init_food_flags.





End FilterAgain.


(** *** [get_recipe_features]: what a call returns and when it raises *)


Lemma existsb_map {A B} (f : B -> bool) (g : A -> B) (l : list A) :
  existsb f (map g l) = existsb (fun a => f (g a)) l.
Proof. induction l as [|a l IH]; [reflexivity|]. cbn. rewrite IH. reflexivity. Qed.

(** A feature entry that NumPy turns into a float: [None] or a number. *)
Definition none_or_number (v : value) : bool :=
  match v with
  | VNone | VBool _ | VFloat _ => true
  | VInt z => is_ok (float_of_int z)
  | _ => false
  end.

(** The eight feature entries are missing, [None] or numbers. *)
Definition numeric_features (recipe : dict) : bool :=
  forallb (fun kd => none_or_number (get recipe (fst kd) (snd kd))) feature_keys.

(** One of the eight feature entries is an infinite float. *)
Definition infinite_feature (recipe : dict) : bool :=
  existsb (fun kd => match get recipe (fst kd) (snd kd) with
                     | VFloat f => is_inf f
                     | _ => false
                     end) feature_keys.

Section FeatureResults.

Variable float_of_str : string -> option spec_float.


Lemma np_float64_numeric (v : value) :
  none_or_number v = true ->
  exists x, np_float64 float_of_str v = Ok x
            /\ is_inf x = match v with VFloat f => is_inf f | _ => false end.
Proof.
  destruct v as [|b|z|f|s|l|c a]; try discriminate; cbn [none_or_number np_float64].
  - eauto.
  - intros _. destruct b; eexists; split; reflexivity.
  - unfold float_of_int. destruct (is_finite (F64.of_Z z)) eqn:E; [|discriminate].
    intros _. eexists. split; [reflexivity|]. destruct (F64.of_Z z); try discriminate E;
      reflexivity.
  - eauto.
Qed.

Lemma traverse_numeric (vs : list value) :
  forallb none_or_number vs = true ->
  exists xs, traverse (np_float64 float_of_str) vs = Ok xs
             /\ existsb is_inf xs
                = existsb (fun v => match v with VFloat f => is_inf f | _ => false end) vs.
Proof.
  induction vs as [|v vs IH]; [exists []; auto|].
  cbn [forallb]. rewrite andb_true_iff. intros [Hv Hvs].
  destruct (np_float64_numeric v Hv) as (x & Ex & Hx).
  destruct (IH Hvs) as (xs & Exs & Hxs).
  exists (x :: xs). cbn [traverse existsb]. rewrite Ex, Exs, Hx, Hxs. auto.
Qed.

(** X8. For a recipe whose eight feature entries are missing, [None] or
    numbers, [get_recipe_features] returns unless one of them is an infinite
    float, and then it raises [ValueError]: the scaler refuses an infinity,
    while it lets [None] and NaN through. *)
Theorem get_recipe_features_infinity (self : RecommendationService) (recipe : dict) :
  numeric_features recipe = true ->
  if infinite_feature recipe
  then raises (get_recipe_features float_of_str self recipe) ValueError
  else is_ok (get_recipe_features float_of_str self recipe) = true.
Proof.
  intros H. unfold numeric_features in H. unfold infinite_feature, get_recipe_features.
  rewrite <- (forallb_map none_or_number (fun kd => get recipe (fst kd) (snd kd))) in H.
  destruct (traverse_numeric _ H) as (row & -> & Hinf).
  rewrite existsb_map in Hinf. cbn [mbind res_bind]. unfold fit_transform, check_array.
  rewrite Hinf. destruct (existsb _ feature_keys); reflexivity.
Qed.

End FeatureResults.

(** The pasta with an infinite amount of fat. *)
Definition rich_pasta : dict := <["fat" := VFloat (S754_infinity false)]> pasta.


Lemma get_recipe_features_infinity_witness :
  (numeric_features rich_pasta = true /\ infinite_feature rich_pasta = true
   /\ raises (get_recipe_features float_of_str_demo RecommendationService__init__ rich_pasta)
        ValueError)
  /\ (numeric_features (Recipe__dict__ pasta_row) = true
      /\ infinite_feature (Recipe__dict__ pasta_row) = false
      /\ is_ok (get_recipe_features float_of_str_demo RecommendationService__init__
                  (Recipe__dict__ pasta_row)) = true).
Proof.
  split.
  - split; [vm_compute; reflexivity|]. split; [vm_compute; reflexivity|].
    exact (get_recipe_features_infinity float_of_str_demo RecommendationService__init__
             rich_pasta eq_refl).
  - split; [vm_compute; reflexivity|]. split; [vm_compute; reflexivity|].
    exact (get_recipe_features_infinity float_of_str_demo RecommendationService__init__
             (Recipe__dict__ pasta_row) eq_refl).
Defined.

(** ** [load_model] and [get_recommendations] *)

Definition set_model (self : RecommendationService) (parameters : list spec_float)
  : RecommendationService :=
  {| model := Some parameters; scaler := scaler self; food_flags := food_flags self |}.

Section LoadModel.

(** The parameters of a [RecipeEmbedding] just created: PyTorch draws them
    at random. *)
Variable fresh_parameters : list spec_float.

(** [load_model], given what [torch.load(settings.MODEL_PATH, ...)] followed
    by [load_state_dict] yields at the time of the call: the parameters read
    from the file, or the exception raised when the file is missing, cannot
    be decoded or does not fit the model. The service is returned as the
    call leaves it, also when the call raises: the new model is assigned to
    [self.model] before the file is read. *)
Definition load_model (state_dict : res (list spec_float)) (self : RecommendationService)
  : res unit * RecommendationService :=
  match model self with
  | None =>
      let self := set_model self fresh_parameters in
      match state_dict with
      | Ok parameters => (Ok tt, set_model self parameters)
      | Raise e => (Raise e, self)
      end
  | Some _ => (Ok tt, self)
  end.

End LoadModel.

(** The identity of the dictionary [recipe.__dict__] of a row of the table
    [recipes]: the position of the row. Within a session a row is loaded
    once, so every query that returns the row returns the same instance. *)
Definition session_store (db : Session) : store :=
  map_seq 0 (Recipe__dict__ <$> recipes db).

Section Recommendations.

Variable json_loads : string -> res value.
Variable float_of_str : string -> option spec_float.
Variable fresh_parameters : list spec_float.

(** [list(set(l))] on integers: the elements of [l], each once, in the order
    in which the set iterates (an order CPython leaves unspecified). *)
Variable list_set : list Z -> list Z.

(** The names bound in the module of the service. *)
Variable globals : list string.

(** The loop of [get_recommendations] over the ids selected: the rows found
    get the score 0.5 written into their dictionaries, which are appended to
    [recommended_recipes]. *)
Fixpoint recipe_details (db : Session) (h : store) (recipe_ids : list Z)
    (recommended_recipes : list ref) : res (list ref * store) :=
  match recipe_ids with
  | [] => Ok (recommended_recipes, h)
  | recipe_id :: rest =>
      _ ← load_global globals "Recipe";
      match list_find (fun r => Recipe.id r = recipe_id) (recipes db) with
      | Some (recipe, _) =>
          let recipe_dict := store_get h recipe in
          let h := store_set h recipe (<["match_score" := VFloat F64.lit_0_5]> recipe_dict) in
          recipe_details db h rest (recommended_recipes ++ [recipe])
      | None => recipe_details db h rest recommended_recipes
      end
  end.

(** [x['match_score']], the key of the final sort. Where the sort is reached
    every score is a float (the 0.5 written by the loop, raised or not by
    the filter), and the comparison of other values is not modelled. *)
Definition match_score (d : dict) : res spec_float :=
  score ← py_getitem d "match_score";
  match score with
  | VFloat f => Ok f
  | _ => type_error ("'<' not supported between instances of '" ++ type_name score
                       ++ "' and '" ++ type_name score ++ "'")
  end.

(** [get_recommendations], given what reading the model file yields. The
    result holds the dictionaries as they are when the call returns. *)
Definition get_recommendations (state_dict : res (list spec_float))
    (self : RecommendationService) (user_id : Z) (db : Session) (n_recommendations : Z)
  : res (list dict * RecommendationService) :=
  let '(loaded, self) := load_model fresh_parameters state_dict self in
  _ ← loaded;
  user_prefs ← get_user_preferences json_loads globals user_id db;
  cf_recommendations ← collaborative_filtering globals user_id db;
  content_based ← content_based_filtering float_of_str globals self user_id db;
  let '(cb_recommendations, self) := content_based in
  let combined_recommendations := list_set (cf_recommendations ++ cb_recommendations) in
  details ← recipe_details db (session_store db)
               (slice_to combined_recommendations n_recommendations) [];
  let '(recommended_recipes, h) := details in
  filtered ← filter_by_preferences json_loads self h recommended_recipes user_prefs;
  let '(recommended_recipes, h) := filtered in
  scores ← traverse (fun recipe => match_score (store_get h recipe)) recommended_recipes;
  let recommended_recipes := map fst (sort_desc snd (zip recommended_recipes scores)) in
  Ok (map (store_get h) (slice_to recommended_recipes n_recommendations), self).

End Recommendations.

(** *** The model file *)



(** *** The recommendations of the module as written *)

(** X10. In the module as written, [get_recommendations] raises for every
    user, database and count, whatever the model file holds: the exception
    of the load when the model cannot be loaded, and otherwise the
    [NameError] of [get_user_preferences], its second statement. *)
Theorem get_recommendations_raises json_loads float_of_str fresh_parameters list_set
    (state_dict : res (list spec_float)) (self : RecommendationService)
    (user_id : Z) (db : Session) (n_recommendations : Z) :
  get_recommendations json_loads float_of_str fresh_parameters list_set module_globals
    state_dict self user_id db n_recommendations
  = Raise match model self, state_dict with
          | None, Raise e => e
          | _, _ => Exn NameError "name 'User' is not defined"
          end.
Proof.
  unfold get_recommendations, load_model.
  destruct (model self); [reflexivity|]. destruct state_dict; reflexivity.
Qed.

Section EndpointsAsWritten.

Variable json_loads : string -> res value.
Variable float_of_str : string -> option spec_float.
Variable fresh_parameters : list spec_float.
Variable list_set : list Z -> list Z.
Variable state_dict : res (list spec_float).

(** The call of the first handler: [get_recommendations] of the module as
    written, on the id of the current user. The id of a [User] is an
    integer; what the call does with another value is left open. *)
Variable get_recommendations_of :
  RecommendationService -> value -> Session -> Z -> res (list dict).

Hypothesis get_recommendations_of_int : forall service user_id db n_recommendations,
  get_recommendations_of service (VInt user_id) db n_recommendations
  = fst <$> get_recommendations json_loads float_of_str fresh_parameters list_set
              module_globals state_dict service user_id db n_recommendations.

(** X11. With the module of the service as written, the two recommendation
    endpoints answer every request with the status 500: GET /personalized
    for every current user (with an integer id, or with no id at all),
    GET /similar/{recipe_id} for every recipe id, with the detail
    [Error getting similar recipes: name 'Recipe' is not defined]. No
    request is ever answered with recommendations. *)
Theorem recommendation_endpoints_always_500 (n_recommendations : Z) (db : Session)
    (service : RecommendationService) :
  (forall current_user,
     match py_getattr current_user "id" with
     | Ok (VInt _) | Raise _ =>
         exists detail,
           get_personalized_recommendations dict get_recommendations_of
             n_recommendations current_user db service
           = HTTPException 500 ("Error getting recommendations: " ++ detail)
     | Ok _ => True
     end)
  /\ (forall recipe_id,
        get_similar_recipes float_of_str module_globals recipe_id n_recommendations
          db service
        = HTTPException 500 "Error getting similar recipes: name 'Recipe' is not defined").
Proof.
  split; [|reflexivity].
  intros current_user. unfold get_personalized_recommendations.
  destruct (py_getattr current_user "id") as [[]|e]; try exact I.
  - cbn [mbind res_bind]. rewrite get_recommendations_of_int.
    unfold get_recommendations, load_model.
    destruct (model service); [|destruct state_dict]; eexists; reflexivity.
  - exists (exn_message e). reflexivity.
Qed.

End EndpointsAsWritten.

(** The call on an integer id; another id is refused here. *)
Definition get_recommendations_demo (state_dict : res (list spec_float))
    (service : RecommendationService) (user_id : value) (db : Session)
    (n_recommendations : Z) : res (list dict) :=
  match user_id with
  | VInt user_id =>
      fst <$> get_recommendations json_loads_demo float_of_str_demo [] (fun l => l)
                module_globals state_dict service user_id db n_recommendations
  | _ => type_error "user id"
  end.

Lemma recommendation_endpoints_always_500_witness :
  (forall service user_id db n_recommendations,
     get_recommendations_demo (Ok []) service (VInt user_id) db n_recommendations
     = fst <$> get_recommendations json_loads_demo float_of_str_demo [] (fun l => l)
                 module_globals (Ok []) service user_id db n_recommendations)
  /\ get_personalized_recommendations dict (get_recommendations_demo (Ok []))
       10 admin_user demo_db RecommendationService__init__
     = HTTPException 500 "Error getting recommendations: name 'User' is not defined"
  /\ get_similar_recipes float_of_str_demo module_globals 2 5 demo_db
       RecommendationService__init__
     = HTTPException 500 "Error getting similar recipes: name 'Recipe' is not defined".
Proof.
  split; [reflexivity|].
  pose proof (recommendation_endpoints_always_500 json_loads_demo float_of_str_demo []
                (fun l => l) (Ok []) (get_recommendations_demo (Ok []))
                (fun _ _ _ _ => eq_refl) 10 demo_db RecommendationService__init__)
    as [_ H].
  split; [reflexivity|exact (H 2)].
Defined.

(** *** The handler of POST /train *)


(** ** Further properties of [ModelTrainer.train] *)

Lemma SFcompare_Lt_trans (a b c : spec_float) :
  SFcompare a b = Some Lt -> SFcompare b c = Some Lt -> SFcompare a c = Some Lt.
Proof.
  destruct a as [s|s| |s m e], b as [s'|s'| |s' m' e'], c as [s''|s''| |s'' m'' e''];
    cbn; try discriminate; try (destruct s, s', s''; cbn; congruence);
    try (destruct s, s'; cbn; congruence); try (destruct s, s''; cbn; congruence);
    try (destruct s', s''; cbn; congruence); try (destruct s; cbn; congruence);
    try (destruct s'; cbn; congruence); try (destruct s''; cbn; congruence).
  repeat match goal with
         | |- context [PosDef.Pos.compare_cont Eq ?x ?y] =>
             change (PosDef.Pos.compare_cont Eq x y) with (Pos.compare x y)
         end.
  destruct s, s', s''; cbn; try congruence;
    destruct (Z.compare_spec e e'), (Z.compare_spec e' e''), (Z.compare_spec e e'');
    cbn; try congruence; try lia; subst;
    destruct (Pos.compare_spec m m'), (Pos.compare_spec m' m''),
             (Pos.compare_spec m m''); cbn; try congruence; try lia.
Qed.

Lemma SFltb_trans (a b c : spec_float) :
  SFltb a b = true -> SFltb b c = true -> SFltb a c = true.
Proof.
  unfold SFltb. intros H1 H2.
  destruct (SFcompare a b) as [[]|] eqn:E1; try discriminate H1.
  destruct (SFcompare b c) as [[]|] eqn:E2; try discriminate H2.
  rewrite (SFcompare_Lt_trans a b c E1 E2). reflexivity.
Qed.

(** What [save_checkpoint] leaves in the trainer. *)
Lemma save_checkpoint_best t epoch val_loss :
  best_val_loss (save_checkpoint t epoch val_loss)
  = if SFltb val_loss (best_val_loss t) then val_loss else best_val_loss t.
Proof.
  unfold save_checkpoint. destruct (SFltb val_loss (best_val_loss t)); reflexivity.
Qed.

Lemma save_checkpoint_losses t epoch val_loss :
  val_losses (save_checkpoint t epoch val_loss) = val_losses t
  /\ train_losses (save_checkpoint t epoch val_loss) = train_losses t
  /\ logged (save_checkpoint t epoch val_loss) = logged t.
Proof.
  unfold save_checkpoint. destruct (SFltb val_loss (best_val_loss t)); auto.
Qed.

Lemma save_checkpoint_saved t epoch val_loss :
  saved (save_checkpoint t epoch val_loss)
  = (saved t ++ (if SFltb val_loss (best_val_loss t) then [BestModel epoch] else [])
       ++ [CheckpointEpoch epoch])%list.
Proof.
  unfold save_checkpoint. destruct (SFltb val_loss (best_val_loss t)); cbn [saved save set_best].
  - rewrite <- app_assoc. reflexivity.
  - reflexivity.
Qed.

(** After a checkpoint the loss is not below the best loss. *)
Lemma save_checkpoint_not_below t epoch val_loss :
  SFltb val_loss (best_val_loss (save_checkpoint t epoch val_loss)) = false.
Proof.
  rewrite save_checkpoint_best.
  destruct (SFltb val_loss (best_val_loss t)) eqn:E; [apply SFltb_irrefl|exact E].
Qed.

Section TrainingInvariants.

Variable losses : Z -> spec_float * spec_float.
Variable num_epochs save_interval early_stopping_patience : Z.

Abbreviation loop := (train_loop losses num_epochs save_interval early_stopping_patience).

(** The trainer after the first half of an iteration: the two lines logged,
    the losses recorded, the periodic checkpoint saved when [periodic]. *)
Definition after_checkpoint (t : ModelTrainer) (epoch : Z) (periodic : bool)
  : ModelTrainer :=
  let t := record_losses (fst (losses epoch)) (snd (losses epoch))
             (log (LogLosses (fst (losses epoch)) (snd (losses epoch)))
                (log (LogEpoch (epoch + 1) num_epochs) t)) in
  if periodic then save_checkpoint t epoch (snd (losses epoch)) else t.

(** One iteration of the loop, by cases. *)
Lemma train_loop_step epoch rest t patience_counter :
  loop (epoch :: rest) t patience_counter
  = r ← py_mod (epoch + 1) save_interval;
    let t := after_checkpoint t epoch (r =? 0) in
    if SFltb (snd (losses epoch)) (best_val_loss t)
    then loop rest (save_checkpoint (set_best (snd (losses epoch)) t) epoch
                      (snd (losses epoch))) 0
    else if patience_counter + 1 >=? early_stopping_patience
         then Ok (log (LogEarlyStopping (epoch + 1)) t)
         else loop rest t (patience_counter + 1).
Proof. reflexivity. Qed.

Lemma after_checkpoint_losses t epoch periodic :
  val_losses (after_checkpoint t epoch periodic) = (val_losses t ++ [snd (losses epoch)])%list
  /\ train_losses (after_checkpoint t epoch periodic)
     = (train_losses t ++ [fst (losses epoch)])%list.
Proof.
  unfold after_checkpoint. destruct periodic.
  - destruct (save_checkpoint_losses
                (record_losses (fst (losses epoch)) (snd (losses epoch))
                   (log (LogLosses (fst (losses epoch)) (snd (losses epoch)))
                      (log (LogEpoch (epoch + 1) num_epochs) t)))
                epoch (snd (losses epoch))) as (-> & -> & _).
    split; reflexivity.
  - split; reflexivity.
Qed.

Lemma after_checkpoint_best t epoch periodic :
  best_val_loss (after_checkpoint t epoch periodic)
  = if periodic && SFltb (snd (losses epoch)) (best_val_loss t)
    then snd (losses epoch) else best_val_loss t.
Proof.
  unfold after_checkpoint. destruct periodic; [|reflexivity].
  rewrite save_checkpoint_best. reflexivity.
Qed.

Lemma after_checkpoint_saved t epoch periodic file :
  In file (saved (after_checkpoint t epoch periodic)) ->
  In file (saved t) \/ (periodic = true /\ (file = BestModel epoch \/ file = CheckpointEpoch epoch)).
Proof.
  unfold after_checkpoint. destruct periodic; [|auto].
  rewrite save_checkpoint_saved. cbn [saved record_losses log].
  rewrite !in_app_iff. intros [H|[H|H]]; [auto| |].
  - destruct (SFltb _ _); [|destruct H]. destruct H as [<-|[]]. auto.
  - destruct H as [<-|[]]. auto.
Qed.

(** *** Where [best_model.pt] is written *)

Lemma train_loop_best_model (epochs : list Z) : forall t patience_counter t' epoch,
  loop epochs t patience_counter = Ok t' ->
  In (BestModel epoch) (saved t') ->
  In (BestModel epoch) (saved t)
  \/ (In epoch epochs /\ (epoch + 1) mod save_interval = 0).
Proof.
  induction epochs as [|e rest IH]; intros t pc t' epoch E Hin.
  - injection E as <-. auto.
  - rewrite train_loop_step in E. unfold py_mod in E.
    destruct (save_interval =? 0); [discriminate E|]. cbn [mbind res_bind] in E.
    assert (Hstep : forall file, In file (saved (after_checkpoint t e ((e + 1) mod save_interval =? 0))) ->
              file = BestModel epoch ->
              In (BestModel epoch) (saved t)
              \/ (In epoch (e :: rest) /\ (epoch + 1) mod save_interval = 0)).
    { intros file Hf ->. apply after_checkpoint_saved in Hf as [Hf|[Hp Hf]]; [auto|].
      right. destruct Hf as [[= <-]|Hf]; [|discriminate Hf].
      apply Z.eqb_eq in Hp. split; [left; reflexivity|exact Hp]. }
    destruct (SFltb _ (best_val_loss _)).
    + destruct (IH _ _ _ _ E Hin) as [Hs|[Hr Hm]]; [|right; split; [right|]; assumption].
      rewrite save_checkpoint_saved in Hs. cbn [best_val_loss set_best] in Hs.
      rewrite SFltb_irrefl in Hs. cbn [app saved set_best] in Hs.
      apply in_app_iff in Hs as [Hs|[Hs|[]]]; [|discriminate Hs].
      exact (Hstep _ Hs eq_refl).
    + destruct (_ >=? _).
      * injection E as <-. cbn [saved log] in Hin. exact (Hstep _ Hin eq_refl).
      * destruct (IH _ _ _ _ E Hin) as [Hs|[Hr Hm]]; [|right; split; [right|]; assumption].
        exact (Hstep _ Hs eq_refl).
Qed.

(** *** The best loss *)

(** No loss recorded is below the best loss. *)
Definition best_is_lower_bound (t : ModelTrainer) : Prop :=
  forall v, In v (val_losses t) -> SFltb v (best_val_loss t) = false.

Lemma train_loop_losses_grow (epochs : list Z) : forall t patience_counter t',
  loop epochs t patience_counter = Ok t' ->
  forall u, In u (val_losses t) -> In u (val_losses t').
Proof.
  induction epochs as [|e rest IH]; intros t pc t' E u Hu.
  - injection E as <-. exact Hu.
  - rewrite train_loop_step in E. destruct (py_mod _ _) as [r|]; [|discriminate E].
    cbn [mbind res_bind] in E.
    destruct (after_checkpoint_losses t e (r =? 0)) as [Hv _].
    assert (Hu1 : In u (val_losses (after_checkpoint t e (r =? 0)))).
    { rewrite Hv. apply in_app_iff. auto. }
    destruct (SFltb _ (best_val_loss _)).
    + apply (IH _ _ _ E).
      destruct (save_checkpoint_losses
                  (set_best (snd (losses e)) (after_checkpoint t e (r =? 0)))
                  e (snd (losses e))) as (-> & _).
      exact Hu1.
    + destruct (_ >=? _); [injection E as <-; exact Hu1|exact (IH _ _ _ E u Hu1)].
Qed.

Lemma train_loop_best_loss (epochs : list Z) : forall t patience_counter t',
  loop epochs t patience_counter = Ok t' ->
  best_is_lower_bound t ->
  best_is_lower_bound t'
  /\ (best_val_loss t' = best_val_loss t \/ In (best_val_loss t') (val_losses t')).
Proof.
  induction epochs as [|e rest IH]; intros t pc t' E Hinv.
  - injection E as <-. auto.
  - rewrite train_loop_step in E. unfold py_mod in E.
    destruct (save_interval =? 0); [discriminate E|]. cbn [mbind res_bind] in E.
    remember ((e + 1) mod save_interval =? 0) as periodic eqn:Hper. clear Hper.
    remember (snd (losses e)) as v eqn:Hv0.
    destruct (after_checkpoint_losses t e periodic) as [Hv _]. rewrite <- Hv0 in Hv.
    pose proof (after_checkpoint_best t e periodic) as Hb. rewrite <- Hv0 in Hb.
    remember (after_checkpoint t e periodic) as t1 eqn:Ht1. clear Ht1.
    assert (Hnew : forall b,
              (b = best_val_loss t \/ (b = v /\ SFltb v (best_val_loss t) = true)) ->
              SFltb v b = false ->
              forall u, In u (val_losses t ++ [v]) -> SFltb u b = false).
    { intros b Hb' Hvb u Hu. apply in_app_iff in Hu as [Hu|[<-|[]]]; [|exact Hvb].
      destruct Hb' as [->|[-> Hlt]]; [exact (Hinv u Hu)|].
      destruct (SFltb u v) eqn:Euv; [|reflexivity].
      rewrite <- (Hinv u Hu). symmetry. exact (SFltb_trans u v _ Euv Hlt). }
    assert (Hb1 : best_val_loss t1 = best_val_loss t
                  \/ (best_val_loss t1 = v /\ SFltb v (best_val_loss t) = true)).
    { rewrite Hb. destruct periodic; cbn [andb]; [|auto].
      destruct (SFltb v (best_val_loss t)); auto. }
    assert (Hlast : In v (val_losses t1)).
    { rewrite Hv. apply in_app_iff. right. left. reflexivity. }
    destruct (SFltb v (best_val_loss t1)) eqn:Elt.
    + remember (save_checkpoint (set_best v t1) e v) as t2 eqn:Ht2.
      assert (Hb2 : best_val_loss t2 = v).
      { rewrite Ht2, save_checkpoint_best. cbn [best_val_loss set_best].
        rewrite SFltb_irrefl. reflexivity. }
      assert (Hv2 : val_losses t2 = val_losses t1).
      { rewrite Ht2. destruct (save_checkpoint_losses (set_best v t1) e v) as (-> & _).
        reflexivity. }
      assert (Hlt : SFltb v (best_val_loss t) = true).
      { destruct Hb1 as [<-|[Hb1 _]]; [exact Elt|]. rewrite Hb1, SFltb_irrefl in Elt.
        discriminate Elt. }
      destruct (IH t2 0 t' E) as [Hi Hc].
      { intros u Hu. rewrite Hv2, Hv in Hu. rewrite Hb2.
        apply (Hnew v); [auto|apply SFltb_irrefl|exact Hu]. }
      split; [exact Hi|]. right. destruct Hc as [Hc|Hc]; [|exact Hc].
      rewrite Hc, Hb2. apply (train_loop_losses_grow _ _ _ _ E). rewrite Hv2. exact Hlast.
    + assert (Hi1 : best_is_lower_bound t1).
      { intros u Hu. rewrite Hv in Hu. apply (Hnew _ Hb1 Elt u Hu). }
      assert (Hc1 : best_val_loss t1 = best_val_loss t
                    \/ In (best_val_loss t1) (val_losses t1)).
      { destruct Hb1 as [Hb1|[Hb1 _]]; [auto|]. right. rewrite Hb1. exact Hlast. }
      destruct (pc + 1 >=? early_stopping_patience).
      * injection E as <-. split; [exact Hi1|exact Hc1].
      * destruct (IH t1 (pc + 1) t' E Hi1) as [Hi Hc]. split; [exact Hi|].
        destruct Hc as [Hc|Hc]; [|auto]. rewrite Hc.
        destruct Hc1 as [Hc1|Hc1]; [auto|]. right.
        exact (train_loop_losses_grow _ _ _ _ E _ Hc1).
Qed.

End TrainingInvariants.

Section TrainingRuns.

Variable losses : Z -> spec_float * spec_float.
Variable num_epochs save_interval early_stopping_patience : Z.

Abbreviation loop := (train_loop losses num_epochs save_interval early_stopping_patience).


(** The losses recorded are those of the epochs run, in order; the loop ends
    with the epochs, or once the counter has reached the patience. *)
Lemma train_loop_records (epochs : list Z) : forall t patience_counter t',
  0 <= patience_counter ->
  loop epochs t patience_counter = Ok t' ->
  exists k : nat,
    (k <= length epochs)%nat
    /\ val_losses t' = (val_losses t ++ map (fun e => snd (losses e)) (firstn k epochs))%list
    /\ train_losses t'
       = (train_losses t ++ map (fun e => fst (losses e)) (firstn k epochs))%list
    /\ (k = length epochs \/ early_stopping_patience - patience_counter <= Z.of_nat k).
Proof.
  induction epochs as [|e rest IH]; intros t pc t' Hpc E.
  - injection E as <-. exists 0%nat. cbn. rewrite !app_nil_r. auto.
  - rewrite train_loop_step in E. destruct (py_mod _ _) as [r|]; [|discriminate E].
    cbn [mbind res_bind] in E.
    destruct (after_checkpoint_losses losses num_epochs t e (r =? 0)) as [Hv Ht].
    remember (after_checkpoint losses num_epochs t e (r =? 0)) as t1 eqn:Ht1. clear Ht1.
    destruct (SFltb _ (best_val_loss t1)).
    + destruct (IH _ _ _ (Z.le_refl 0) E) as (k & Hk & Hvl & Htl & Hend).
      destruct (save_checkpoint_losses (set_best (snd (losses e)) t1) e (snd (losses e)))
        as (Hv2 & Ht2 & _).
      rewrite Hv2 in Hvl. rewrite Ht2 in Htl. cbn [val_losses train_losses set_best] in *.
      exists (S k). cbn [length firstn map]. split; [lia|].
      rewrite Hvl, Htl, Hv, Ht, <- !app_assoc. split; [reflexivity|].
      split; [reflexivity|]. destruct Hend as [->|Hend]; [auto|].
      right. change (early_stopping_patience - 0 <= Z.of_nat k) in Hend. lia.
    + destruct (pc + 1 >=? early_stopping_patience) eqn:Ege.
      * injection E as <-. exists 1%nat. cbn [length firstn map val_losses train_losses log].
        split; [lia|]. rewrite Hv, Ht. split; [reflexivity|]. split; [reflexivity|].
        right. apply Z.geb_le in Ege. lia.
      * destruct (IH _ (pc + 1) _ ltac:(lia) E) as (k & Hk & Hvl & Htl & Hend).
        exists (S k). cbn [length firstn map]. split; [lia|].
        rewrite Hvl, Htl, Hv, Ht, <- !app_assoc. split; [reflexivity|].
        split; [reflexivity|]. destruct Hend as [->|Hend]; [auto|]. right. lia.
Qed.

(** With a checkpoint at every epoch the counter is never reset. *)
Lemma train_loop_every_epoch (epochs : list Z) : forall t patience_counter,
  save_interval = 1 ->
  1 <= early_stopping_patience - patience_counter <= Z.of_nat (length epochs) ->
  exists t',
    loop epochs t patience_counter = Ok t'
    /\ epochs_run t' = epochs_run t + (early_stopping_patience - patience_counter)
    /\ stopped_early t' = true.
Proof.
  induction epochs as [|e rest IH]; intros t pc Hs Hp; [cbn in Hp; lia|].
  rewrite train_loop_step. subst save_interval. unfold py_mod. cbn [Z.eqb mbind res_bind].
  rewrite Z.mod_1_r. cbn [Z.eqb].
  destruct (after_checkpoint_losses losses num_epochs t e true) as [Hv _].
  assert (Hnb : SFltb (snd (losses e))
                  (best_val_loss (after_checkpoint losses num_epochs t e true)) = false).
  { unfold after_checkpoint. apply save_checkpoint_not_below. }
  rewrite Hnb.
  assert (Hrun : epochs_run (after_checkpoint losses num_epochs t e true) = epochs_run t + 1).
  { unfold epochs_run. rewrite Hv, length_app. cbn [length]. lia. }
  destruct (pc + 1 >=? early_stopping_patience) eqn:Ege.
  - apply Z.geb_le in Ege. eexists. split; [reflexivity|]. split.
    + change (epochs_run (log _ ?u)) with (epochs_run u). rewrite Hrun. lia.
    + rewrite stopped_early_log. apply orb_true_r.
  - rewrite Z.geb_leb in Ege. apply Z.leb_gt in Ege.
    destruct (IH (after_checkpoint losses num_epochs t e true) (pc + 1) eq_refl)
      as (t' & E & Hr & Hst).
    { cbn [length] in Hp. lia. }
    exists t'. split; [exact E|]. split; [rewrite Hr, Hrun; lia|exact Hst].
Qed.

End TrainingRuns.

(** X13. [best_model.pt] is written at periodic checkpoints only. Whatever the
    losses, a file [best_model.pt] that [train] saves is saved at an epoch
    with [(epoch + 1) % save_interval == 0]: at any other epoch an
    improvement sets [best_val_loss] before [save_checkpoint] compares with
    it, so that only [checkpoint_epoch_N.pt] is written. *)
Theorem train_best_model_at_checkpoints losses num_epochs save_interval
    early_stopping_patience (t t' : ModelTrainer) (epoch : Z) :
  train losses num_epochs save_interval early_stopping_patience t = Ok t' ->
  In (BestModel epoch) (saved t') ->
  In (BestModel epoch) (saved t)
  \/ (0 <= epoch < num_epochs /\ (epoch + 1) mod save_interval = 0).
Proof.
  intros E Hin.
  destruct (train_loop_best_model losses num_epochs save_interval early_stopping_patience
              (range num_epochs) t 0 t' epoch E Hin) as [H|[Hr Hm]]; [auto|].
  right. split; [exact (range_bounds _ _ Hr)|exact Hm].
Qed.

(** Losses that fall at each epoch, trained for 4 epochs with a checkpoint
    every 2 epochs and a patience of 3. *)
Definition falling_trained : ModelTrainer :=
  match train falling_losses 4 2 3 ModelTrainer__init__ with
  | Ok t => t
  | Raise _ => ModelTrainer__init__
  end.

Lemma falling_run_returns :
  train falling_losses 4 2 3 ModelTrainer__init__ = Ok falling_trained.
Proof. vm_compute. reflexivity. Qed.

(** The files it saves: the improvements of the epochs 0 and 2 leave no
    [best_model.pt]. *)
Example falling_run_saved :
  saved falling_trained
  = [CheckpointEpoch 0; BestModel 1; CheckpointEpoch 1; CheckpointEpoch 2;
     BestModel 3; CheckpointEpoch 3].
Proof. vm_compute. reflexivity. Qed.

Lemma train_best_model_at_checkpoints_witness :
  train falling_losses 4 2 3 ModelTrainer__init__ = Ok falling_trained
  /\ In (BestModel 1) (saved falling_trained)
  /\ (In (BestModel 1) (saved ModelTrainer__init__)
      \/ (0 <= 1 < 4 /\ (1 + 1) mod 2 = 0)).
Proof.
  assert (Hin : In (BestModel 1) (saved falling_trained)).
  { vm_compute. right. left. reflexivity. }
  split; [exact falling_run_returns|]. split; [exact Hin|].
  exact (train_best_model_at_checkpoints falling_losses 4 2 3 ModelTrainer__init__
           falling_trained 1 falling_run_returns Hin).
Defined.

(** X14. [best_val_loss] is the least validation loss. After [train] on a new
    trainer, no validation loss recorded is below [best_val_loss], and
    [best_val_loss] is one of the losses recorded, unless it is still the
    initial infinity (no epoch has run, or no loss was below infinity). *)
Theorem train_best_val_loss losses num_epochs save_interval early_stopping_patience
    (t' : ModelTrainer) :
  train losses num_epochs save_interval early_stopping_patience ModelTrainer__init__
  = Ok t' ->
  (forall v, In v (val_losses t') -> SFltb v (best_val_loss t') = false)
  /\ (best_val_loss t' = S754_infinity false \/ In (best_val_loss t') (val_losses t')).
Proof.
  intros E.
  apply (train_loop_best_loss losses num_epochs save_interval early_stopping_patience
           (range num_epochs) ModelTrainer__init__ 0 t' E).
  intros v [].
Qed.

Lemma train_best_val_loss_witness :
  train falling_losses 4 2 3 ModelTrainer__init__ = Ok falling_trained
  /\ (forall v, In v (val_losses falling_trained) ->
        SFltb v (best_val_loss falling_trained) = false)
  /\ (best_val_loss falling_trained = S754_infinity false
      \/ In (best_val_loss falling_trained) (val_losses falling_trained)).
Proof.
  split; [exact falling_run_returns|].
  exact (train_best_val_loss falling_losses 4 2 3 falling_trained falling_run_returns).
Defined.

(** X15. [train] records the losses of exactly the epochs it runs, in order,
    and does not stop before the patience: when it returns after [k] epochs,
    the two lists of losses have grown by the losses of the epochs
    [0 .. k-1], and either [k] is the number of epochs asked for or
    [k >= early_stopping_patience]. *)
Theorem train_records_losses losses num_epochs save_interval early_stopping_patience
    (t t' : ModelTrainer) :
  train losses num_epochs save_interval early_stopping_patience t = Ok t' ->
  exists k : nat,
    0 <= Z.of_nat k <= Z.max 0 num_epochs
    /\ val_losses t' = (val_losses t ++ map (fun e => snd (losses e)) (range (Z.of_nat k)))%list
    /\ train_losses t'
       = (train_losses t ++ map (fun e => fst (losses e)) (range (Z.of_nat k)))%list
    /\ (Z.of_nat k = Z.max 0 num_epochs \/ early_stopping_patience <= Z.of_nat k).
Proof.
  intros E.
  destruct (train_loop_records losses num_epochs save_interval early_stopping_patience
              (range num_epochs) t 0 t' (Z.le_refl 0) E) as (k & Hk & Hv & Ht & Hend).
  pose proof (range_length num_epochs) as Hlen.
  assert (Hfirst : firstn k (range num_epochs) = range (Z.of_nat k)).
  { unfold range in *. rewrite length_map, length_seq in Hk.
    rewrite List.firstn_map, Nat2Z.id, take_seq. f_equal. f_equal. lia. }
  rewrite Hfirst in Hv, Ht. exists k. split; [lia|]. split; [exact Hv|].
  split; [exact Ht|]. destruct Hend as [->|Hend]; [left; exact Hlen|right; lia].
Qed.

Lemma train_records_losses_witness :
  train falling_losses 4 2 3 ModelTrainer__init__ = Ok falling_trained
  /\ exists k : nat,
       0 <= Z.of_nat k <= Z.max 0 4
       /\ val_losses falling_trained
          = (val_losses ModelTrainer__init__
               ++ map (fun e => snd (falling_losses e)) (range (Z.of_nat k)))%list
       /\ train_losses falling_trained
          = (train_losses ModelTrainer__init__
               ++ map (fun e => fst (falling_losses e)) (range (Z.of_nat k)))%list
       /\ (Z.of_nat k = Z.max 0 4 \/ 3 <= Z.of_nat k).
Proof.
  split; [exact falling_run_returns|].
  exact (train_records_losses falling_losses 4 2 3 ModelTrainer__init__ falling_trained
           falling_run_returns).
Defined.

(** X16. With a checkpoint at every epoch ([save_interval = 1]) the losses
    play no part in early stopping: whatever they are, [train] stops after
    exactly [early_stopping_patience] epochs, for a patience between 1 and
    the number of epochs. *)
Theorem train_checkpoint_every_epoch_stops losses num_epochs early_stopping_patience
    (t : ModelTrainer) :
  1 <= early_stopping_patience <= num_epochs ->
  exists t',
    train losses num_epochs 1 early_stopping_patience t = Ok t'
    /\ epochs_run t' = epochs_run t + early_stopping_patience
    /\ stopped_early t' = true.
Proof.
  intros H. unfold train.
  destruct (train_loop_every_epoch losses num_epochs 1 early_stopping_patience
              (range num_epochs) t 0 eq_refl) as (t' & E & Hr & Hs).
  { rewrite range_length. lia. }
  exists t'. split; [exact E|]. split; [rewrite Hr; lia|exact Hs].
Qed.

Lemma train_checkpoint_every_epoch_stops_witness :
  1 <= 2 <= 5 /\
  exists t',
    train falling_losses 5 1 2 ModelTrainer__init__ = Ok t'
    /\ epochs_run t' = epochs_run ModelTrainer__init__ + 2
    /\ stopped_early t' = true.
Proof.
  split; [lia|].
  apply (train_checkpoint_every_epoch_stops falling_losses 5 2 ModelTrainer__init__). lia.
Defined.


(** *** A user without preferences *)


(** With four empty lists nothing is removed and no cuisine is a favourite. *)
Lemma no_preferences_removed json_loads self (recipe : dict) :
  removed json_loads self no_preferences recipe = false
  /\ favorite no_preferences recipe = false.
Proof.
  unfold removed, restricted, allergic, flagged, favorite.
  assert (E : forall k, In k ["dietary_restrictions"; "allergies"; "food_flags";
                              "favorite_cuisines"] -> preference no_preferences k = []).
  { intros k Hk. cbn in Hk.
    repeat (destruct Hk as [<-|Hk]; [vm_compute; reflexivity|]). destruct Hk. }
  rewrite !E by (cbn; tauto). cbn [existsb orb].
  split; [|reflexivity].
  induction (items (get recipe "ingredients" (VList []))) as [|i l IH]; [reflexivity|exact IH].
Qed.

(** X18. The preferences of an unknown user filter nothing: with the four
    empty lists that [get_user_preferences] builds for an id that matches no
    user, [filter_by_preferences] returns every well-typed recipe of its
    input, in order, and changes no score; it only records the flags. *)
Theorem filter_by_preferences_no_preferences json_loads (self : RecommendationService)
    (h : store) (listed : list ref) :
  food_flags self = init_food_flags ->
  NoDup listed ->
  recipes_ok json_loads h listed = true ->
  exists h',
    filter_by_preferences json_loads self h listed no_preferences = Ok (listed, h')
    /\ forall r, store_get h' r !! "match_score" = store_get h r !! "match_score".
Proof.
  intros Hf Hnd Hok.
  destruct (filter_loop_store json_loads self no_preferences Hf listed h [] Hnd eq_refl Hok)
    as (out & h' & E & H1 & H2 & Hout).
  cbn [app] in Hout.
  assert (Hall : out = listed).
  { rewrite Hout. apply forallb_filter_id. apply forallb_forall. intros r _.
    destruct (no_preferences_removed json_loads self (store_get h r)) as [-> _].
    reflexivity. }
  rewrite Hall in E. exists h'. split; [exact E|].
  intros r. destruct (ListDec.In_dec Nat.eq_dec r listed) as [Hr|Hr].
  - rewrite (H1 r Hr).
    destruct (no_preferences_removed json_loads self (store_get h r)) as [-> Hfav].
    rewrite match_score_retained, Hfav. reflexivity.
  - rewrite (H2 r Hr). reflexivity.
Qed.

Lemma filter_by_preferences_no_preferences_witness :
  food_flags RecommendationService__init__ = init_food_flags /\
  NoDup [0; 1; 2]%nat /\
  recipes_ok json_loads_demo demo_store [0; 1; 2]%nat = true /\
  exists h',
    filter_by_preferences json_loads_demo RecommendationService__init__ demo_store
      [0; 1; 2]%nat no_preferences = Ok ([0; 1; 2]%nat, h')
    /\ forall r, store_get h' r !! "match_score" = store_get demo_store r !! "match_score".
Proof.
  assert (Hnd : NoDup [0; 1; 2]%nat) by (apply (bool_decide_unpack _); vm_compute; exact I).
  split; [reflexivity|]. split; [exact Hnd|]. split; [vm_compute; reflexivity|].
  apply (filter_by_preferences_no_preferences json_loads_demo RecommendationService__init__
           demo_store [0; 1; 2]%nat eq_refl Hnd).
  vm_compute. reflexivity.
Defined.

(** ** The service with the model classes bound *)

(** The functions below are stated for a module namespace that binds the
    names of the model classes, which the imports of the module do not: a
    caller can bind them by assigning to the attributes of the module. *)

Lemma load_global_bound (globals : list string) (name : string) :
  name ∈ globals -> load_global globals name = Ok tt.
Proof. intros H. unfold load_global. rewrite bool_decide_eq_true_2 by exact H. reflexivity. Qed.

Section ContentBasedBound.

Variable float_of_str : string -> option spec_float.
Variable globals : list string.
Hypothesis Recipe_bound : "Recipe" ∈ globals.

Lemma content_based_filtering_globals self recipe_id db :
  content_based_filtering float_of_str globals self recipe_id db
  = content_based_filtering float_of_str globals_with_models self recipe_id db.
Proof.
  unfold content_based_filtering. rewrite (load_global_bound _ _ Recipe_bound).
  reflexivity.
Qed.

(** For the id of a recipe the result lists the other recipes in the order
    of the table. *)
Lemma content_based_filtering_found self recipe_id db :
  forallb (convertible float_of_str) (recipes db) = true ->
  existsb (fun r => Recipe.id r =? recipe_id) (recipes db) = true ->
  exists self',
    content_based_filtering float_of_str globals self recipe_id db
    = Ok (map Recipe.id (others recipe_id (recipes db)), self').
Proof.
  intros Hconv Ex. rewrite content_based_filtering_globals.
  apply existsb_exists in Ex as (r & Hr & Hid). apply Z.eqb_eq in Hid.
  apply (content_based_filtering_with_models float_of_str self recipe_id db);
    [exists r; auto|exact Hconv].
Qed.

(** X19. With the name [Recipe] bound, [content_based_filtering] ranks
    nothing: for an id that no recipe has it returns the empty list and
    leaves the service as it was; for the id of a recipe, when the features
    of every row can be computed, it returns the ids of all the other
    recipes in the order of the table, whatever the recipes contain (every
    similarity is a zero or a NaN, and the sort moves nothing). *)
Theorem content_based_filtering_table_order (self : RecommendationService)
    (recipe_id : Z) (db : Session) :
  forallb (convertible float_of_str) (recipes db) = true ->
  if existsb (fun r => Recipe.id r =? recipe_id) (recipes db)
  then exists self',
         content_based_filtering float_of_str globals self recipe_id db
         = Ok (map Recipe.id (others recipe_id (recipes db)), self')
  else content_based_filtering float_of_str globals self recipe_id db = Ok ([], self).
Proof.
  intros Hconv.
  destruct (existsb _ (recipes db)) eqn:Ex.
  - exact (content_based_filtering_found self recipe_id db Hconv Ex).
  - rewrite content_based_filtering_globals.
    unfold content_based_filtering. cbn [mbind res_bind].
    change (load_global globals_with_models "Recipe") with (Ok (A:=()) tt).
    cbn [mbind res_bind].
    destruct (find _ (recipes db)) as [r|] eqn:Ef; [|reflexivity].
    apply find_some in Ef as [Hr Hid].
    assert (existsb (fun r => Recipe.id r =? recipe_id) (recipes db) = true)
      by (apply existsb_exists; eauto).
    congruence.
Qed.

End ContentBasedBound.

Lemma content_based_filtering_table_order_witness :
  ("Recipe" ∈ globals_with_models) /\
  forallb (convertible float_of_str_demo) (recipes demo_db) = true /\
  (exists self',
     content_based_filtering float_of_str_demo globals_with_models
       RecommendationService__init__ 2 demo_db = Ok ([1; 3], self'))
  /\ content_based_filtering float_of_str_demo globals_with_models
       RecommendationService__init__ 7 demo_db = Ok ([], RecommendationService__init__).
Proof.
  assert (Hb : "Recipe" ∈ globals_with_models)
    by (apply (bool_decide_unpack _); vm_compute; exact I).
  assert (Hc : forallb (convertible float_of_str_demo) (recipes demo_db) = true)
    by (vm_compute; reflexivity).
  split; [exact Hb|]. split; [exact Hc|]. split.
  - exact (content_based_filtering_table_order float_of_str_demo globals_with_models Hb
             RecommendationService__init__ 2 demo_db Hc).
  - exact (content_based_filtering_table_order float_of_str_demo globals_with_models Hb
             RecommendationService__init__ 7 demo_db Hc).
Defined.

(** *** [get_recommendations] with the model classes bound *)

(** The rows of the table with the ids given, in the order of the ids: an id
    that no row has is passed over. *)
Fixpoint rows_with (db : Session) (recipe_ids : list Z) : list Recipe.t :=
  match recipe_ids with
  | [] => []
  | recipe_id :: rest =>
      match list_find (fun r => Recipe.id r = recipe_id) (recipes db) with
      | Some (_, recipe) => recipe :: rows_with db rest
      | None => rows_with db rest
      end
  end.

(** The dictionary of a row once [get_recommendations] has written the
    score 0.5 into it, and once the filter has recorded its flags. *)
Definition scored (recipe : Recipe.t) : dict :=
  <["match_score" := VFloat F64.lit_0_5]> (Recipe__dict__ recipe).

Definition recommended (self : RecommendationService) (recipe : Recipe.t) : dict :=
  <["food_flags" := flags_value (recipe_flags self (scored recipe))]> (scored recipe).


Lemma slice_to_nil {A} (n : Z) : slice_to ([] : list A) n = [].
Proof. unfold slice_to. destruct (n <? 0); apply firstn_nil. Qed.



Lemma filter_Forall2 {A B} (P : A -> B -> Prop) (f : A -> bool) (g : B -> bool)
    (l : list A) (k : list B) :
  (forall x y, P x y -> f x = g y) ->
  Forall2 P l k -> Forall2 P (List.filter f l) (List.filter g k).
Proof.
  intros Hfg H. induction H as [|x y l k Hxy H IH]; [constructor|].
  cbn [List.filter]. rewrite (Hfg x y Hxy). destruct (g y); [constructor|]; assumption.
Qed.





Section RecommendationsBound.

Variable json_loads : string -> res value.
Variable float_of_str : string -> option spec_float.
Variable fresh_parameters : list spec_float.
Variable list_set : list Z -> list Z.
Variable globals : list string.

Hypothesis Recipe_bound : "Recipe" ∈ globals.
Hypothesis UserRecipeInteraction_bound : "UserRecipeInteraction" ∈ globals.

(** A set holds each element once, and no element that was not put in. *)
Hypothesis list_set_NoDup : forall l, NoDup (list_set l).
Hypothesis list_set_elements : forall l x, In x (list_set l) -> In x l.

Lemma list_set_nil : list_set [] = [].
Proof.
  destruct (list_set []) as [|x l] eqn:E; [reflexivity|].
  destruct (list_set_elements [] x). rewrite E. left. reflexivity.
Qed.

Section Filtered.

Variable self : RecommendationService.
Variable preferences : dict.
Hypothesis self_flags : food_flags self = init_food_flags.
Hypothesis preferences_typed : preferences_ok preferences = true.





End Filtered.










(** The recommendations for [user_id] on a well-formed table: the rows of
    the recipes other than the one with id [user_id], in the order of the
    set, cut to the count, without those one of whose flags the user has
    listed, cut to the count again; each with the score 0.5 and its flags. *)
Definition recommendations (self : RecommendationService) (preferences : dict)
    (user_id : Z) (db : Session) (n_recommendations : Z) : list dict :=
  let other_ids := map Recipe.id (others user_id (recipes db)) in
  let selected := rows_with db (slice_to (list_set other_ids) n_recommendations) in
  let kept := List.filter (fun recipe => negb (flagged self preferences (scored recipe)))
                selected in
  map (recommended self) (slice_to kept n_recommendations).


(** X21. With the model classes bound and the model loaded,
    [get_recommendations] takes the id of the user for the id of a recipe:
    for a user whose id is the id of no recipe, it returns the empty list,
    whatever the table of recipes holds. *)
Theorem get_recommendations_no_recipe (state_dict : res (list spec_float))
    (self : RecommendationService) (user_id : Z) (db : Session) (n_recommendations : Z) :
  fst (load_model fresh_parameters state_dict self) = Ok tt ->
  is_ok (get_user_preferences json_loads globals user_id db) = true ->
  existsb (fun r => Recipe.id r =? user_id) (recipes db) = false ->
  get_recommendations json_loads float_of_str fresh_parameters list_set globals
    state_dict self user_id db n_recommendations
  = Ok ([], snd (load_model fresh_parameters state_dict self)).
Proof.
  intros Hload Hprefs Htarget. unfold get_recommendations.
  destruct (load_model fresh_parameters state_dict self) as [loaded self1].
  cbn [fst snd] in *. subst loaded. cbn [mbind res_bind].
  destruct (get_user_preferences json_loads globals user_id db) as [preferences|];
    [|discriminate Hprefs].
  cbn [mbind res_bind]. unfold collaborative_filtering.
  rewrite (load_global_bound _ _ UserRecipeInteraction_bound). cbn [mbind res_bind].
  unfold content_based_filtering. rewrite (load_global_bound _ _ Recipe_bound).
  cbn [mbind res_bind].
  destruct (find (fun r => Recipe.id r =? user_id) (recipes db)) as [r|] eqn:Ef.
  { apply find_some in Ef as [Hr Hid].
    assert (existsb (fun r => Recipe.id r =? user_id) (recipes db) = true)
      by (apply existsb_exists; eauto).
    congruence. }
  cbn [mbind res_bind app _find_similar_users _get_recipes_from_similar_users].
  rewrite list_set_nil, slice_to_nil. cbn [recipe_details mbind res_bind].
  unfold filter_by_preferences.
  cbn [filter_loop traverse mbind res_bind zip zip_with sort_desc fold_right map].
  rewrite slice_to_nil. reflexivity.
Qed.

End RecommendationsBound.

(** **** Examples *)

(** The elements of a list, each once, in the order of their first
    occurrence: one of the orders in which a set may iterate. *)
Definition first_occurrences (l : list Z) : list Z := remove_dups l.


Lemma first_occurrences_elements l x : In x (first_occurrences l) -> In x l.
Proof.
  unfold first_occurrences. rewrite <- !list_elem_of_In, elem_of_remove_dups. tauto.
Qed.

Lemma globals_with_models_bound :
  ("User" ∈ globals_with_models) /\ ("Recipe" ∈ globals_with_models)
  /\ ("UserRecipeInteraction" ∈ globals_with_models).
Proof. repeat split; apply (bool_decide_unpack _); vm_compute; exact I. Qed.

(** A service whose model has been loaded. *)
Definition loaded_service : RecommendationService :=
  set_model RecommendationService__init__ [F64.one].

(** For the user 2, unknown to the table of users: the recipes 1 and 3, each
    with the score 0.5 and its flags. *)
Example get_recommendations_demo_bound :
  match get_recommendations json_loads_demo float_of_str_demo [] first_occurrences
          globals_with_models (Ok []) loaded_service 2 demo_db 10 with
  | Ok (found, _) =>
      map (fun d => (d !! "id", d !! "match_score", d !! "food_flags")) found
      = [(Some (VInt 1), Some (VFloat F64.lit_0_5),
          Some (VList [VStr "high_calories"; VStr "high_carbs"]));
         (Some (VInt 3), Some (VFloat F64.lit_0_5),
          Some (VList [VStr "high_fat"]))]
  | Raise _ => False
  end.
Proof. vm_compute. reflexivity. Qed.


Lemma get_recommendations_no_recipe_witness :
  fst (load_model [] (Ok []) loaded_service) = Ok tt /\
  is_ok (get_user_preferences json_loads_demo globals_with_models 7 demo_db) = true /\
  existsb (fun r => Recipe.id r =? 7) (recipes demo_db) = false /\
  get_recommendations json_loads_demo float_of_str_demo [] first_occurrences
    globals_with_models (Ok []) loaded_service 7 demo_db 10
  = Ok ([], snd (load_model [] (Ok []) loaded_service)).
Proof.
  destruct globals_with_models_bound as (Hu & Hr & Hi).
  split; [reflexivity|]. split; [reflexivity|]. split; [reflexivity|].
  exact (get_recommendations_no_recipe json_loads_demo float_of_str_demo [] first_occurrences
           globals_with_models Hr Hi first_occurrences_elements
           (Ok []) loaded_service 7 demo_db 10 eq_refl eq_refl eq_refl).
Defined.

(** ** [app/services/recommendation.py]: the shapes of [RecipeEmbedding] *)

(** The parameters of a module, as [state_dict()] lists them: the name of
    each tensor and its shape. *)
Definition state_shapes := list (string * list Z).

(** [nn.Linear(in_features, out_features)] registered under [name]: a weight
    of shape [out_features, in_features] and a bias of shape [out_features]. *)
Definition Linear (name : string) (in_features out_features : Z) : state_shapes :=
  [(name ++ ".weight", [out_features; in_features]);
   (name ++ ".bias", [out_features])].

(** [RecipeEmbedding(input_dim, embedding_dim)]: the attribute [embedding] is
    an [nn.Sequential] of three linear layers at the positions 0, 2 and 4,
    with a [ReLU] (which has no parameter) after the first two. *)
Definition RecipeEmbedding (input_dim embedding_dim : Z) : state_shapes :=
  (Linear "embedding.0" input_dim embedding_dim
   ++ Linear "embedding.2" embedding_dim embedding_dim
   ++ Linear "embedding.4" embedding_dim embedding_dim)%list.

(** The default of the second argument of [RecipeEmbedding.__init__]. *)
Definition embedding_dim_default : Z := 128.

(** [module.load_state_dict(state_dict)] of PyTorch with its default
    [strict=True], on the shapes: [RuntimeError] when a parameter of the
    module is missing from [state_dict], when [state_dict] has a key that is
    no parameter of the module, or when a tensor has another shape than the
    parameter of its name. An entry of [state_dict] that is no tensor has
    no shape ([None]). *)
Definition load_state_dict (own : state_shapes) (state_dict : list (string * option (list Z)))
  : res unit :=
  let missing_keys :=
    List.filter (fun p => negb (existsb (fun q => String.eqb (fst q) (fst p)) state_dict)) own in
  let unexpected_keys :=
    List.filter (fun q => negb (existsb (fun p => String.eqb (fst p) (fst q)) own)) state_dict in
  let size_mismatch :=
    List.filter (fun p => existsb (fun q => String.eqb (fst q) (fst p)
                                            && negb (bool_decide (snd q = Some (snd p))))
                            state_dict) own in
  match missing_keys, unexpected_keys, size_mismatch with
  | [], [], [] => Ok tt
  | _, _, _ => Raise (Exn RuntimeError "Error(s) in loading state_dict for RecipeEmbedding")
  end.

(** The tensors of a module, as the entries of its [state_dict()]. *)
Definition state_dict_of (own : state_shapes) : list (string * option (list Z)) :=
  map (fun p => (fst p, Some (snd p))) own.

(** The keys of the dictionary that [ModelTrainer.save_checkpoint] saves;
    none of its values is a tensor of the model. *)
Definition checkpoint_keys : list (string * option (list Z)) :=
  map (fun k => (k, None))
    ["epoch"; "model_state_dict"; "optimizer_state_dict"; "val_loss";
     "train_losses"; "val_losses"].

(** X22. The model that [load_model] creates, [RecipeEmbedding(input_dim=100)],
    accepts the parameters of a [RecipeEmbedding(input_dim=d)] exactly when
    [d = 100]. So it refuses with [RuntimeError] the parameters of the
    model that the training script trains, [RecipeEmbedding(input_dim=8)],
    and also the checkpoint dictionary that [save_checkpoint] writes. *)
Theorem load_model_input_dim (input_dim : Z) :
  (load_state_dict (RecipeEmbedding 100 embedding_dim_default)
     (state_dict_of (RecipeEmbedding input_dim embedding_dim_default)) = Ok tt
   <-> input_dim = 100)
  /\ raises (load_state_dict (RecipeEmbedding 100 embedding_dim_default)
               (state_dict_of (RecipeEmbedding 8 embedding_dim_default))) RuntimeError
  /\ raises (load_state_dict (RecipeEmbedding 100 embedding_dim_default) checkpoint_keys)
       RuntimeError.
Proof.
  split; [|split; vm_compute; reflexivity].
  unfold load_state_dict, RecipeEmbedding, Linear, state_dict_of, embedding_dim_default.
  cbn [app map fst snd List.filter existsb String.eqb Ascii.eqb Bool.eqb negb orb andb
       String.append].
  destruct (decide (input_dim = 100)) as [->|Hne].
  - split; [reflexivity|]. intros _. vm_compute. reflexivity.
  - split; [|contradiction]. intros H. exfalso.
    rewrite (bool_decide_eq_false_2 (Some [128; input_dim] = Some [128; 100])) in H
      by congruence.
    cbn in H. discriminate H.
Qed.

(** ** [scripts/training/train_pipeline.py] *)

(** A record that the module logs: its level and its message. *)
Inductive log_record :=
  | INFO (message : string)
  | ERROR (message : string).

Section Pipeline.

(** The file system and the processes outside the interpreter. *)
Variable World : Type.

(** [subprocess.run([sys.executable, script_path], check=True)]: the exit
    status of the child, from which [check=True] raises
    [CalledProcessError] when it is not zero; [Raise] is an exception of
    another class, [OSError] when the interpreter cannot be started. *)
Variable run : string -> World -> res Z * World.

(** [Path(path).mkdir(parents=True, exist_ok=True)]. *)
Variable mkdir : string -> World -> res unit * World.

(** [str(e)] of the [CalledProcessError] for a script and its status. *)
Variable called_process_error : string -> Z -> string.

(** [run_script]: only [CalledProcessError] is caught. *)
Definition run_script (script_path description : string) (w : World)
    (log : list log_record) : res bool * World * list log_record :=
  let log := (log ++ [INFO ("Starting " ++ description ++ "...")])%list in
  match run script_path w with
  | (Ok status, w) =>
      if status =? 0
      then (Ok true, w,
            (log ++ [INFO ("Completed " ++ description ++ " successfully")])%list)
      else (Ok false, w,
            (log ++ [ERROR ("Error during " ++ description ++ ": "
                            ++ called_process_error script_path status)])%list)
  | (Raise e, w) => (Raise e, w, log)
  end.

(** The three directories of [main], in its order. *)
Fixpoint make_directories (paths : list string) (w : World) : res unit * World :=
  match paths with
  | [] => (Ok tt, w)
  | path :: paths =>
      match mkdir path w with
      | (Ok _, w) => make_directories paths w
      | (Raise e, w) => (Raise e, w)
      end
  end.

(** [main] of the pipeline; the log starts empty. *)
Definition main (w : World) : res unit * World * list log_record :=
  match make_directories ["data/raw"; "data/preprocessed"; "checkpoints"] w with
  | (Raise e, w) => (Raise e, w, [])
  | (Ok _, w) =>
      match run_script "scripts/training/load_data.py" "data loading" w [] with
      | (Raise e, w, log) => (Raise e, w, log)
      | (Ok false, w, log) => (Ok tt, w, log)
      | (Ok true, w, log) =>
          match run_script "scripts/training/data_preparation.py" "data preparation" w log with
          | (Raise e, w, log) => (Raise e, w, log)
          | (Ok false, w, log) => (Ok tt, w, log)
          | (Ok true, w, log) =>
              match run_script "scripts/training/train_model.py" "model training" w log with
              | (Raise e, w, log) => (Raise e, w, log)
              | (Ok false, w, log) => (Ok tt, w, log)
              | (Ok true, w, log) =>
                  (Ok tt, w,
                   (log ++ [INFO "Training pipeline completed successfully!"])%list)
              end
          end
      end
  end.

End Pipeline.

(** The log has the record that a step was started. *)
Definition started (log : list log_record) (description : string) : Prop :=
  In (INFO ("Starting " ++ description ++ "...")) log.

(** The log has the record that a step was completed. *)
Definition completed (log : list log_record) (description : string) : Prop :=
  In (INFO ("Completed " ++ description ++ " successfully")) log.


(** X23. Whatever the scripts and the file system do, the log of [main]
    orders the steps: data preparation is started exactly when data loading
    was completed, model training exactly when data preparation was
    completed, and the pipeline reports success exactly when model training
    was completed. When a step has logged an error, [main] still returns
    normally, and without the report of success. *)
Theorem pipeline_steps_in_order (World : Type) (run : string -> World -> res Z * World)
    (mkdir : string -> World -> res unit * World)
    (called_process_error : string -> Z -> string) (w : World) :
  let log := snd (main World run mkdir called_process_error w) in
  let result := fst (fst (main World run mkdir called_process_error w)) in
  (started log "data preparation" <-> completed log "data loading")
  /\ (started log "model training" <-> completed log "data preparation")
  /\ (In (INFO "Training pipeline completed successfully!") log
      <-> completed log "model training")
  /\ (forall message, In (ERROR message) log ->
        result = Ok tt
        /\ ~ In (INFO "Training pipeline completed successfully!") log).
Proof.
  unfold main, started, completed.
  destruct (make_directories World mkdir _ w) as [[[]|e] w0]; cbn [snd fst].
  2:{ cbn. intuition. }
  unfold run_script. cbn [app String.append].
  destruct (run "scripts/training/load_data.py" w0) as [[s1|e1] w1].
  2:{ cbn. intuition discriminate. }
  destruct (s1 =? 0).
  2:{ cbn. intuition discriminate. }
  cbn [app].
  destruct (run "scripts/training/data_preparation.py" w1) as [[s2|e2] w2].
  2:{ cbn. intuition discriminate. }
  destruct (s2 =? 0).
  2:{ cbn. intuition discriminate. }
  cbn [app].
  destruct (run "scripts/training/train_model.py" w2) as [[s3|e3] w3].
  2:{ cbn. intuition discriminate. }
  destruct (s3 =? 0); cbn; intuition discriminate.
Qed.
